(* ===== verification/_CoqProject ===== *)
-Q . S2P
Prelude.v
Url.v
Origin.v
Host.v
Resolver.v
Escape.v
Debounce.v
DemoServer.v
Webview.v
Extension.v
Relay.v
Invariants.v
Properties.v
Sequential.v
Ordering.v
Liveness.v
Frame.v
Refinement.v
