(* ===== verification/Prelude.v ===== *)
(** * A verification library for yaml-iframe-preview

    The program is one VS Code extension, src/src/extension.ts.  Its
    [activate] registers a command that opens, beside a YAML document, a
    webview panel whose page embeds an iframe; the page's relay script
    forwards every snapshot of the document the extension posts to the
    iframe.  Five parts compose: the session registry ([previewByDoc] and
    the command, lines 7-97), the source resolver ([isHttpsUrl],
    [resolveAppSrc], lines 103-141), the embedding policy builder
    ([getWebviewHtml], [getNonce], [escapeHtml], lines 143-219 and
    268-282), the change streamer ([debounce] and the [sendUpdate] closure,
    lines 66-85 and 260-266) and the ephemeral demo server
    ([startDemoServer], lines 221-258).  The command consults the registry,
    starts the server when the remote URL is not https, asks the resolver
    and the builder for the page, starts the streamer and registers a
    dispose handler that unsubscribes, closes the server and evicts the
    registry entry.

    ** Files, in dependency order

    - [Prelude]: the scope [yp_scope], the string primitives of JavaScript
      on ASCII strings ([endsWith], [toLowerCase], [split] as
      [before_char] and [split_on], global replacement as
      [replace_all_char]), decimal numerals ([show_N]) with their parse
      round trip, the exception monad [Res] with its notation, the hint
      databases [yp] and [yp_rw] and the tactics [ascii_cases] and
      [ascii_cases_conv] that settle a claim about one character by its
      256 cases.
    - [Url]: the runtime's URL parser behind the class [URLParser], its
      laws [URLParserLaws], and the instance [whatwg_url], a WHATWG subset
      (scheme, special schemes, authority, default ports, origin); then
      [isHttpsUrl] (lines 103-111) over the class.
    - [Origin]: the class [URLOriginLaws] (the serialization of an origin
      parses back to that origin; [null] does not parse) and its proof for
      [whatwg_url], the round trip the browser relies on when a serialized
      origin is used as a [postMessage] target.
    - [Host]: the VS Code objects the code reads ([Webview] with
      [cspSource] and [asWebviewUri], [ExtensionContext], [joinPath]).
    - [Resolver]: [resolveAppSrc] as written (lines 113-141), the spec's
      resolver [resolve_spec] and policy [policy_of], and the refinement.
    - [Escape]: [escapeHtml] as five chained replacements, a single-pass
      reference encoder, the entity decoder, and [JSON.stringify] on
      strings with the lexer of [JSON.parse] and their round trip.
    - [Debounce]: Node's timer queue (delay normalisation to 1 ms outside
      [1, 2^31-1], earliest deadline first, insertion order on ties), its
      well-formedness [q_ok] (unique handles), [debounce_call] (lines
      262-265), and one session's streamer [Stream] with [on_change]
      (lines 82-85) and [stream_open] (line 80).
    - [DemoServer]: the request handler (lines 226-242) and the server
      reading [demoFile] at each request ([demo_server], lines 221-242),
      the outcome of the bind (lines 244-257) and the address it reports
      (line 255).
    - [Webview]: [getNonce] over the draws of [Math.random], the page
      template as its ten literal pieces, [getWebviewHtml], and the reading
      of the CSP meta tag an HTML parser does.
    - [Extension]: the world ([World]: documents, panels, servers, change
      subscriptions, dispose handlers, timers, sessions, suspended
      invocations, [previewByDoc], a counter of fresh handles) and one
      handler per event ([handle]); the command is cut at its two awaits
      into [open_command], [resume_show] and [resume_bind] with [finish];
      [reachable] is the closure of an initial world under the handlers.
    - [Relay]: the page's relay script (lines 205-216) as [relay_handler]
      over the browser's [window_postMessage], [relay_all] the dispatch of
      the posted messages in order, and [script_target], the target
      origin read out of the page text as the browser compiles it.
    - [Invariants]: the well-formedness [wf] of a world and its
      preservation by every handler ([wf_handle], [wf_reachable]).
    - [Properties]: what [wf] gives on every reachable world.
    - [Sequential]: the schedules in which the command never overlaps
      itself ([reachable_seq]) and the invariant [seq_ok] that makes the
      registry exact on them.
    - [Ordering]: the schedules of a host that never lowers a document's
      version ([reachable_mono], decided on a concrete schedule by
      [mono_schedule]) and the invariant [ord_ok] on the panels' inboxes.
    - [Liveness]: the timer queue stays well formed in the world, and
      running the pending timers delivers every pending send.
    - [Frame]: every page a panel holds is one [getWebviewHtml] builds
      ([pages_ok]); the extension, the page and the relay composed.
    - [Refinement]: the projection [stream_of] of a world onto one
      session, the event loop's schedule [world_on_change] of a timed
      edit, and the simulation of [Debounce.Stream] by the world.

    ** What is proved

    - Registry and lifecycle (C1-C4): every registry entry names a live
      preview with an active subscription; closing a registered preview
      disposes it, drops its subscription and handler, closes its server
      and evicts its key; a disposed panel is never written again; the
      command on a registered document only reveals its panel.
    - Sequential use (C5): when the command never overlaps itself, every
      live preview is the registered one, at most one per document.
    - Resolver (C6, C23, C32): [resolveAppSrc] never throws and refines the
      spec's resolver and policy given the server address the code
      computes; the message target is pinned to the frame's origin except
      for the bundled page; the spec's scenarios.
    - Page (C7, C24, C25, C31): no interpolation adds markup; the CSP the
      browser reads is the intended one when no source token holds a
      double quote, and one with a quote in its host truncates it; the
      nonce is 32 letters or digits.
    - Escaping (C8, C26, C27): the chained replacements equal the
      single-pass encoder, leave no markup character, and decode back.
    - Streamer (C9, C28-C30, C36): a burst within the window sends one
      snapshot, the last; spaced changes send both; at most one timer is
      pending; a window above 2^31-1 ms becomes 1 ms; the clock's timer
      loop [advance] fires every due timer with the fuel it gives itself.
    - Delivery (C10-C13, C38): running the pending timers empties the queue
      and leaves each open preview whose send was pending with the
      snapshot of the current document; the snapshots a preview receives
      never go back in version; the relay script forwards a snapshot to
      the iframe exactly as the resolver's target origin allows (always
      for the bundled page, only to a document of the target origin
      otherwise); composed, the iframe of every preview receives all its
      snapshots in order or none; the queue's handles stay unique.
    - Demo server (C33-C35, C37): the query string is ignored; the routes of
      the spec's scenario, with the file read at each request; the
      address it reports parses to the loopback host and the port; its
      page routes serve the very file the bundled fallback loads.
    - Refinement (C14-C16): in a world with one session, the event
      loop's answer to timed edits, followed by running the timers,
      projects onto the state the single-session streamer
      [Debounce.Stream] reaches; through it the streamer's properties hold
      of the extension itself: a burst within the window adds one
      snapshot to the preview, the last edit's, and at most one timer is
      ever pending, the one the debounce closure holds.
    - Command notices (C39): the command warns and does nothing else
      exactly on a document whose language is not [yaml] and whose
      lower-cased path ends in neither [.yml] nor [.yaml].
    - Concrete runs of the event loop (C17-C22) that show where the code and
      the spec part: two interleaved commands build two previews of one
      document and the registry then loses one; closing during the bind
      leaks the server; a failed bind leaves a blank panel; the server is
      started when HTTP is disallowed; closing does not cancel the pending
      send.

    ** Bounds and fuel

    Strings are ASCII strings (the template's non-ASCII bytes are kept as
    bytes).  [show_N] recurses on fuel [N.size n + 1], enough since each
    step divides by 10.  [flush] runs the timer queue with fuel equal to
    the number of queued timers and a horizon of [TIMEOUT_MAX] ms: every
    queued timer is due within that horizon, and firing a timer of the
    streamer schedules none; [run_until] needs no more fuel than the
    queued timers, since each firing removes one (C36).  In the world, one
    [Fire] event per pending timer drains the queue (C10).  [Math.random] returns a multiple of 2^-52 in
    [0, 1); a draw is the integer [m] with value [m / 2^52].

    ** Not modelled

    [deactivate] (empty); the panel's title, creation options and editor
    layout; [context.subscriptions] and [console.log]; the iframe's own
    page and what it does with a snapshot; the parts of the WHATWG parser the code's
    inputs never reach in the theorems (IDNA, percent-decoding, IPv4 and
    IPv6 hosts); the failure of [dispose()] and [close()] in teardown.
    That document versions never decrease is the host's guarantee, taken
    as the hypothesis [reachable_mono] of C10, C11 and C13, not derived.
    The refinement (C14-C16) is proved for a world with one session: with
    several, their timers share one queue and one handle counter, and the
    projection onto one session no longer matches the isolated streamer
    handle for handle.  C13 keeps the branch of an opaque ([null]) target:
    the parser interface does not promise a tuple origin for the demo
    server's [http] address.  The remaining lines of extension.ts are the
    imports, the command's registration wiring ([registerCommand],
    [context.subscriptions.push]), [deactivate], and the README text
    appended after the code: none changes state the extension reads. *)

From stdpp Require Export base list gmap strings.
From Stdlib Require Export Ascii NArith ZArith Lia.

(** ** Scope, notations and characters *)

(** stdpp makes string append opaque to [simpl]; the proofs of this
    library compute with it, so it is unfolded on a constructor again. *)
Arguments String.append : simpl nomatch.

Declare Scope yp_scope.
Delimit Scope yp_scope with yp.
Open Scope yp_scope.

(** A one-character string. *)
Definition str1 (c : ascii) : string := String c EmptyString.

(** The double quote as a one-character string: string literals of this
    library never contain a doubled quote, so the character is named. *)
Abbreviation DQ := (str1 "034"%char).
Abbreviation BQ := "`"%char.

(** ** Character tests and JavaScript string primitives on ASCII strings *)

Fixpoint has_char (c : ascii) (s : string) : bool :=
  match s with
  | EmptyString => false
  | String d s' => bool_decide (c = d) || has_char c s'
  end.

(** Every character of the string satisfies [p]. *)
Fixpoint all_chars (p : ascii -> bool) (s : string) : bool :=
  match s with
  | EmptyString => true
  | String c s' => p c && all_chars p s'
  end.

Fixpoint count_char (c : ascii) (s : string) : nat :=
  match s with
  | EmptyString => 0
  | String d s' => (if decide (c = d) then 1 else 0) + count_char c s'
  end.

(** [s.replace(/c/g, r)] for a one-character pattern [c]. *)
Fixpoint replace_all_char (c : ascii) (r s : string) : string :=
  match s with
  | EmptyString => EmptyString
  | String d s' =>
      if decide (c = d) then r +:+ replace_all_char c r s'
      else String d (replace_all_char c r s')
  end.

(** [String.prototype.toLowerCase] on the ASCII range. *)
Definition is_upper (c : ascii) : bool :=
  (65 <=? nat_of_ascii c)%nat && (nat_of_ascii c <=? 90)%nat.

Definition to_lower_char (c : ascii) : ascii :=
  if is_upper c then ascii_of_nat (nat_of_ascii c + 32) else c.

Fixpoint toLowerCase (s : string) : string :=
  match s with
  | EmptyString => EmptyString
  | String c s' => String (to_lower_char c) (toLowerCase s')
  end.

(** [String.prototype.endsWith]. *)
Definition endsWith (s suf : string) : bool :=
  let n := String.length s in
  let m := String.length suf in
  (m <=? n)%nat && String.eqb (String.substring (n - m) m s) suf.

(** [s.split(c)[0]]: the prefix of [s] before the first [c]. *)
Fixpoint before_char (c : ascii) (s : string) : string :=
  match s with
  | EmptyString => EmptyString
  | String d s' => if decide (c = d) then EmptyString else String d (before_char c s')
  end.

(** [s.split(sep)], accumulating the current field in [cur]. *)
Fixpoint split_on (sep : ascii) (s cur : string) : list string :=
  match s with
  | EmptyString => [cur]
  | String c s' =>
      if decide (c = sep) then cur :: split_on sep s' EmptyString
      else split_on sep s' (cur +:+ str1 c)
  end.

(** ** Decimal numerals: [Number.prototype.toString] and digit parsing *)

Definition digit_char (d : N) : ascii := ascii_of_N (48 + d).

Definition digit_val (c : ascii) : option N :=
  let k := N_of_ascii c in
  if (48 <=? k)%N && (k <=? 57)%N then Some (k - 48)%N else None.

Fixpoint show_N_aux (fuel : nat) (n : N) (acc : string) : string :=
  match fuel with
  | O => acc
  | S f =>
      let acc' := String (digit_char (n mod 10)) acc in
      if (n <? 10)%N then acc' else show_N_aux f (n / 10) acc'
  end.

(** The fuel [N.size n + 1] bounds the number of decimal digits. *)
Definition show_N (n : N) : string := show_N_aux (S (N.to_nat (N.size n))) n EmptyString.

Fixpoint parse_digits_acc (acc : N) (s : string) : option N :=
  match s with
  | EmptyString => Some acc
  | String c s' =>
      match digit_val c with
      | Some d => parse_digits_acc (acc * 10 + d) s'
      | None => None
      end
  end.

(** ** A small exception monad

    JavaScript code that throws (a [new URL] on malformed input, a setter
    on a disposed webview, a rejected [await]) is modelled by [Res]: a
    value or the message of the exception thrown. *)

Inductive Res (A : Type) : Type :=
  | Ok (a : A)
  | Throw (e : string).
Arguments Ok {A} _.
Arguments Throw {A} _.

Definition res_bind {A B} (m : Res A) (k : A -> Res B) : Res B :=
  match m with Ok a => k a | Throw e => Throw e end.

Notation "x <- m ;; k" := (res_bind m (fun x => k))
  (at level 100, m at next level, right associativity) : yp_scope.

Lemma res_bind_ok {A B} (a : A) (k : A -> Res B) : res_bind (Ok a) k = k a.
Proof. reflexivity. Qed.

Lemma res_bind_throw {A B} e (k : A -> Res B) : res_bind (Throw e) k = Throw e.
Proof. reflexivity. Qed.

Lemma Ok_inj {A} (a b : A) : Ok a = Ok b -> a = b.
Proof. congruence. Qed.

(** ** Automation *)

Create HintDb yp.
Create Rewrite HintDb yp_rw.

Ltac yp_simpl := repeat (simpl in *; simplify_eq; try case_decide).

(** Close a closed statement about one ASCII character by its 256 cases. *)
Ltac ascii_cases :=
  intros [[][][][][][][][]]; vm_compute;
  first [ reflexivity | intros; discriminate | intros; reflexivity | tauto ].

(** The same for an equation with further (abstract) arguments: each case
    is closed by conversion, which unfolds only what the character decides
    (normalising under the abstract arguments would be costly). *)
Ltac ascii_cases_conv := intros [[][][][][][][][]]; intros; reflexivity.

(** ** Generic lemmas on strings *)

Lemma sapp_assoc (a b c : string) : (a +:+ b) +:+ c = a +:+ (b +:+ c).
Proof. induction a; simpl; congruence. Qed.

Lemma sapp_nil_r (a : string) : a +:+ EmptyString = a.
Proof. induction a; simpl; congruence. Qed.

Lemma sapp_length (a b : string) :
  String.length (a +:+ b) = (String.length a + String.length b)%nat.
Proof. induction a; simpl; lia. Qed.

Lemma has_char_app c a b : has_char c (a +:+ b) = has_char c a || has_char c b.
Proof. induction a; simpl; [done|]. rewrite IHa. by destruct (bool_decide _). Qed.

Lemma all_chars_app p a b : all_chars p (a +:+ b) = all_chars p a && all_chars p b.
Proof. induction a; simpl; [done|]. rewrite IHa. apply andb_assoc. Qed.

Lemma count_char_app c a b : count_char c (a +:+ b) = (count_char c a + count_char c b)%nat.
Proof. induction a; simpl; [done|]. rewrite IHa. lia. Qed.

Lemma has_char_count c s : has_char c s = false <-> count_char c s = 0%nat.
Proof.
  induction s as [|d s IH]; simpl; [done|].
  rewrite orb_false_iff, IH. destruct (decide (c = d)) as [E|E].
  - rewrite bool_decide_true by done. simpl. split; [intros []; discriminate|lia].
  - rewrite bool_decide_false by done. simpl. tauto.
Qed.

Lemma replace_all_char_app c r a b :
  replace_all_char c r (a +:+ b) = replace_all_char c r a +:+ replace_all_char c r b.
Proof.
  induction a as [|d a IH]; simpl; [done|].
  case_decide; simpl; rewrite ?IH; [symmetry; apply sapp_assoc|done].
Qed.

(** Replacing every [c] by a string free of [d] leaves no [d] that was not
    already there, and removes every [c] when [r] has none. *)
Lemma has_char_replace_all c r d s :
  has_char d r = false -> d <> c ->
  has_char d (replace_all_char c r s) = has_char d s.
Proof.
  intros Hr Hdc. induction s as [|e s IH]; simpl; [done|].
  destruct (decide (c = e)) as [<-|E]; simpl.
  - by rewrite has_char_app, Hr, IH, bool_decide_false.
  - by rewrite IH.
Qed.

Lemma has_char_replace_all_self c r s :
  has_char c r = false -> has_char c (replace_all_char c r s) = false.
Proof.
  intros Hr. induction s as [|e s IH]; simpl; [done|].
  destruct (decide (c = e)) as [<-|E]; simpl.
  - by rewrite has_char_app, Hr, IH.
  - by rewrite IH, bool_decide_false.
Qed.

Lemma replace_all_char_absent c r s :
  has_char c s = false -> replace_all_char c r s = s.
Proof.
  induction s as [|e s IH]; simpl; [done|].
  intros [Hc Hs]%orb_false_iff. rewrite bool_decide_eq_false in Hc.
  rewrite decide_False, IH; done.
Qed.

Lemma toLowerCase_app a b : toLowerCase (a +:+ b) = toLowerCase a +:+ toLowerCase b.
Proof. induction a; simpl; congruence. Qed.

Lemma substring_full (b : string) : String.substring 0 (String.length b) b = b.
Proof. induction b; simpl; congruence. Qed.

Lemma substring_app_r (a b : string) :
  String.substring (String.length a) (String.length b) (a +:+ b) = b.
Proof. induction a; simpl; [apply substring_full|done]. Qed.

Lemma endsWith_app a suf : endsWith (a +:+ suf) suf = true.
Proof.
  unfold endsWith. rewrite sapp_length.
  replace (String.length a + String.length suf - String.length suf)%nat
    with (String.length a) by lia.
  rewrite substring_app_r, String.eqb_refl. apply andb_true_intro; split; [|done].
  apply Nat.leb_le. lia.
Qed.

Lemma substring_split (s : string) k :
  (k <= String.length s)%nat ->
  s = String.substring 0 k s +:+ String.substring k (String.length s - k) s.
Proof.
  revert k. induction s as [|c s IH]; intros [|k] Hk; simpl in *; try lia.
  - done.
  - by rewrite substring_full.
  - f_equal. apply IH. lia.
Qed.

(** [s.endsWith(suf)] holds exactly when [s] is some string followed by
    [suf]. *)
Lemma endsWith_spec s suf : endsWith s suf = true <-> exists p, s = p +:+ suf.
Proof.
  split; [|intros [p ->]; apply endsWith_app].
  unfold endsWith. intros [Hle Heq]%andb_prop. apply Nat.leb_le in Hle. apply String.eqb_eq in Heq.
  exists (String.substring 0 (String.length s - String.length suf) s).
  rewrite (substring_split s (String.length s - String.length suf)) at 1 by lia.
  f_equal. by replace (String.length s - (String.length s - String.length suf))%nat
    with (String.length suf) by lia.
Qed.

Lemma sapp_inv_r (a b c : string) : a +:+ c = b +:+ c -> a = b.
Proof.
  intros H. apply (f_equal String.length) in H as Hl. rewrite !sapp_length in Hl.
  revert b H Hl. induction a as [|x a IH]; intros [|y b]; simpl; intros H Hl;
    [done| |lia|]; [|injection H as -> H; f_equal; apply IH; [done|lia]].
  exfalso. lia.
Qed.

Lemma split_on_skip sep a s cur :
  has_char sep a = false -> split_on sep (a +:+ s) cur = split_on sep s (cur +:+ a).
Proof.
  revert cur. induction a as [|c a IH]; intros cur; simpl.
  - by rewrite sapp_nil_r.
  - intros [Hc Ha]%orb_false_iff. rewrite bool_decide_eq_false in Hc.
    rewrite decide_False by congruence. by rewrite IH, sapp_assoc.
Qed.

(** [split(c)[0]] of a string: the prefix before the first [c]. *)
Lemma before_char_skip c a b : has_char c a = false -> before_char c (a +:+ b) = a +:+ before_char c b.
Proof.
  induction a as [|d a IH]; simpl; [done|].
  intros [Hd Ha]%orb_false_iff. rewrite bool_decide_eq_false in Hd.
  rewrite decide_False by congruence. by rewrite IH.
Qed.

Lemma before_char_stop c a b : has_char c a = true -> before_char c (a +:+ b) = before_char c a.
Proof.
  induction a as [|d a IH]; simpl; [done|].
  case_decide; [done|]. rewrite bool_decide_false by congruence. simpl.
  intros Ha. by rewrite IH.
Qed.

Lemma last_cons_default {A} (a d : A) l : List.last (a :: l) d = List.last l a.
Proof. destruct l as [|b l]; [done|]. revert b. induction l; intros b; [done|]. apply IHl. Qed.

#[export] Hint Rewrite sapp_assoc sapp_length has_char_app count_char_app
  replace_all_char_app toLowerCase_app @res_bind_ok @res_bind_throw : yp_rw.

(** ** The decimal round trip: parsing what [show_N] prints *)

Lemma parse_digits_app acc a b :
  parse_digits_acc acc (a +:+ b) =
  match parse_digits_acc acc a with
  | Some acc' => parse_digits_acc acc' b
  | None => None
  end.
Proof.
  revert acc. induction a as [|c a IH]; intros acc; simpl; [done|].
  destruct (digit_val c); [apply IH|done].
Qed.

Lemma show_N_aux_acc fuel n acc :
  show_N_aux fuel n acc = show_N_aux fuel n EmptyString +:+ acc.
Proof.
  revert n acc. induction fuel as [|f IH]; intros n acc; simpl; [done|].
  destruct (n <? 10)%N; [done|].
  rewrite IH, (IH _ (String _ EmptyString)), sapp_assoc. done.
Qed.

Lemma digit_val_char d : (d < 10)%N -> digit_val (digit_char d) = Some d.
Proof.
  intros Hd. unfold digit_val, digit_char.
  rewrite N_ascii_embedding by lia.
  replace ((48 <=? 48 + d)%N && (48 + d <=? 57)%N) with true
    by (symmetry; apply andb_true_intro; split; apply N.leb_le; lia).
  f_equal. lia.
Qed.

Lemma parse_show_N_aux fuel n acc :
  (n < 2 ^ N.of_nat fuel)%N ->
  parse_digits_acc acc (show_N_aux fuel n EmptyString) = Some (acc * 10 ^ N.of_nat (String.length (show_N_aux fuel n EmptyString)) + n)%N.
Proof.
  revert n acc. induction fuel as [|f IH]; intros n acc Hn; simpl.
  - assert (n = 0%N) by (simpl in Hn; lia). subst. simpl. f_equal. lia.
  - destruct (N.ltb_spec n 10) as [Hlt|Hge]; simpl.
    + rewrite N.mod_small, digit_val_char by lia. simpl. f_equal; lia.
    + rewrite show_N_aux_acc, parse_digits_app, sapp_length, IH; simpl.
      * rewrite digit_val_char by (apply N.mod_lt; lia). simpl. f_equal.
        rewrite Nat2N.inj_add, N.pow_add_r. simpl.
        pose proof (N.div_mod n 10 ltac:(lia)). nia.
      * rewrite Nat2N.inj_succ, N.pow_succ_r' in Hn.
        apply N.Div0.div_lt_upper_bound; lia.
Qed.

(** Printing then parsing a natural number gives it back. *)
Lemma parse_show_N n : parse_digits_acc 0 (show_N n) = Some n.
Proof.
  unfold show_N. rewrite parse_show_N_aux.
  - f_equal; lia.
  - pose proof (N.size_gt n). rewrite Nat2N.inj_succ, N2Nat.id, N.pow_succ_r'. lia.
Qed.
