(* ===== verification/Url.v ===== *)
(** * The runtime's URL parser and [isHttpsUrl]

    [new URL(value)] belongs to the JavaScript runtime, not to the
    repository: the extension only reads [.protocol] and [.origin] of the
    result, and relies on the constructor throwing on malformed input.  The
    class [URLParser] states what the extension's code needs of it, and the
    class [URLParserLaws] what its clients rely on (hosts of special URLs are
    free of forbidden host code points).  [whatwg_parse] is a concrete
    instance following the WHATWG URL standard's state machine on the
    subset described at its definition; it discharges the laws and lets
    the scenario theorems compute.

    [isHttpsUrl] (src/src/extension.ts, lines 103-111) is modelled against
    the interface. *)

From S2P Require Import Prelude.

(** ** The parsed URL record and its derived getters *)

Record Url := mkUrl {
  url_scheme : string;      (** lower-cased, without the colon *)
  url_host : string;        (** serialized host, lower-cased *)
  url_port : option N;      (** [None] when absent or the scheme's default *)
  url_rest : string         (** path, query and fragment, unparsed *)
}.

(** The special schemes and their default ports. *)
Definition default_port (scheme : string) : option (option N) :=
  match scheme with
  | "http" => Some (Some 80%N)
  | "https" => Some (Some 443%N)
  | "ws" => Some (Some 80%N)
  | "wss" => Some (Some 443%N)
  | "ftp" => Some (Some 21%N)
  | "file" => Some None
  | _ => None
  end.

Definition is_special (scheme : string) : bool :=
  match default_port scheme with Some _ => true | None => false end.

(** Special schemes with a tuple origin: all but [file]. *)
Definition has_tuple_origin (scheme : string) : bool :=
  match default_port scheme with Some (Some _) => true | _ => false end.

(** [URL.prototype.protocol]. *)
Definition protocol (u : Url) : string := url_scheme u +:+ ":".

(** [URL.prototype.origin]: the serialization of the URL's origin. *)
Definition origin (u : Url) : string :=
  if has_tuple_origin (url_scheme u) then
    url_scheme u +:+ "://" +:+ url_host u +:+
      match url_port u with Some p => ":" +:+ show_N p | None => "" end
  else "null".

(** ** The interface: what the extension needs of [new URL] *)

Class URLParser := parse_url : string -> option Url.

(** The WHATWG forbidden domain code points: C0 controls, space, [#], [%],
    [/], [:], [<], [>], [?], [@], [[], [\], []], [^], [|] and DEL. *)
Definition forbidden_host_char (c : ascii) : bool :=
  let k := nat_of_ascii c in
  (k <=? 32)%nat || (k =? 127)%nat ||
  bool_decide (c ∈ ["#"; "%"; "/"; ":"; "<"; ">"; "?"; "@"; "["; "\"; "]"; "^"; "|"]%char).

Fixpoint host_ok (h : string) : bool :=
  match h with
  | EmptyString => true
  | String c h' => negb (forbidden_host_char c) && host_ok h'
  end.

Definition is_alpha (c : ascii) : bool :=
  let k := nat_of_ascii c in ((65 <=? k) && (k <=? 90) || (97 <=? k) && (k <=? 122))%nat.

Definition is_digit (c : ascii) : bool :=
  let k := nat_of_ascii c in ((48 <=? k) && (k <=? 57))%nat.

Definition is_scheme_char (c : ascii) : bool :=
  is_alpha c || is_digit c || bool_decide (c ∈ ["+"; "-"; "."]%char).

Fixpoint scheme_ok (s : string) : bool :=
  match s with
  | EmptyString => true
  | String c s' => is_scheme_char c && scheme_ok s'
  end.

Class URLParserLaws `{URLParser} := {
  parse_empty : parse_url EmptyString = None;
  parse_scheme_ok s u : parse_url s = Some u -> scheme_ok (url_scheme u) = true;
  parse_special_host s u :
    parse_url s = Some u -> is_special (url_scheme u) = true -> host_ok (url_host u) = true
}.

(** ** [new URL] and [isHttpsUrl] (extension.ts:103-111) *)

Section IsHttps.
Context `{URLParser}.

(** The constructor throws a [TypeError] on what the parser refuses. *)
Definition new_URL (s : string) : Res Url :=
  match parse_url s with
  | Some u => Ok u
  | None => Throw "TypeError: Invalid URL"
  end.

(** [if (!value) return false; try { const u = new URL(value); return
    u.protocol === "https:" } catch { return false }] *)
Definition isHttpsUrl (value : string) : bool :=
  match value with
  | EmptyString => false
  | _ =>
      match new_URL value with
      | Ok u => String.eqb (protocol u) "https:"
      | Throw _ => false
      end
  end.
End IsHttps.

(** ** A concrete parser: the WHATWG URL state machine on a subset

    Followed: stripping of leading and trailing C0 controls and spaces and
    removal of tabs and newlines; the scheme start and scheme states
    (lower-casing, failure without a base URL when no [:] follows a valid
    scheme); for special schemes the skipping of any run of [/] and [\]
    (so [https:ex.com] parses), the authority up to [/], [\], [?] or [#],
    the userinfo before the last [@], the host lower-cased and refused when
    empty or holding a forbidden domain code point, the port state (digits
    only, at most 65535, the scheme's default port dropped).  Not followed:
    percent-decoding and IDNA of hosts ([%] is refused, non-ASCII bytes are
    kept), IPv4 number normalisation, IPv6 literals (refused, as [[] is
    forbidden here), the file state (a [file:] URL gets an empty host) and
    hosts of non-special URLs (left empty). *)

Module Whatwg.

Definition c0_or_space (c : ascii) : bool := (nat_of_ascii c <=? 32)%nat.

Fixpoint strip_leading (s : string) : string :=
  match s with
  | String c s' => if c0_or_space c then strip_leading s' else s
  | EmptyString => EmptyString
  end.

Fixpoint srev_app (s acc : string) : string :=
  match s with
  | EmptyString => acc
  | String c s' => srev_app s' (String c acc)
  end.

Definition srev (s : string) : string := srev_app s EmptyString.

Definition strip_c0 (s : string) : string := srev (strip_leading (srev (strip_leading s))).

Fixpoint remove_tab_newline (s : string) : string :=
  match s with
  | EmptyString => EmptyString
  | String c s' =>
      if bool_decide (c ∈ ["009"; "010"; "013"]%char) then remove_tab_newline s'
      else String c (remove_tab_newline s')
  end.

Fixpoint scheme_state (s buf : string) : option (string * string) :=
  match s with
  | EmptyString => None
  | String c s' =>
      if is_scheme_char c then scheme_state s' (buf +:+ str1 (to_lower_char c))
      else if decide (c = ":"%char) then Some (buf, s') else None
  end.

Definition scheme_start (s : string) : option (string * string) :=
  match s with
  | String c s' => if is_alpha c then scheme_state s' (str1 (to_lower_char c)) else None
  | EmptyString => None
  end.

Fixpoint skip_slashes (s : string) : string :=
  match s with
  | String c s' => if bool_decide (c ∈ ["/"; "\"]%char) then skip_slashes s' else s
  | EmptyString => EmptyString
  end.

Fixpoint split_authority (s : string) : string * string :=
  match s with
  | EmptyString => (EmptyString, EmptyString)
  | String c s' =>
      if bool_decide (c ∈ ["/"; "\"; "?"; "#"]%char) then (EmptyString, s)
      else let '(a, r) := split_authority s' in (String c a, r)
  end.

Fixpoint after_last_at (s acc : string) : string :=
  match s with
  | EmptyString => acc
  | String c s' =>
      if decide (c = "@"%char) then after_last_at s' EmptyString
      else after_last_at s' (acc +:+ str1 c)
  end.

Fixpoint split_colon (s : string) : string * option string :=
  match s with
  | EmptyString => (EmptyString, None)
  | String c s' =>
      if decide (c = ":"%char) then (EmptyString, Some s')
      else let '(h, p) := split_colon s' in (String c h, p)
  end.

Definition parse_port (scheme : string) (p : option string) : option (option N) :=
  match p with
  | None | Some EmptyString => Some None
  | Some ds =>
      match parse_digits_acc 0 ds with
      | Some n =>
          if (65535 <? n)%N then None
          else if decide (default_port scheme = Some (Some n)) then Some None
          else Some (Some n)
      | None => None
      end
  end.

Definition parse (input : string) : option Url :=
  let s := remove_tab_newline (strip_c0 input) in
  match scheme_start s with
  | None => None
  | Some (scheme, rest) =>
      if is_special scheme then
        if String.eqb scheme "file" then Some (mkUrl scheme EmptyString None rest)
        else
          let '(auth, path) := split_authority (skip_slashes rest) in
          let '(h, p) := split_colon (after_last_at auth EmptyString) in
          let host := toLowerCase h in
          if String.eqb host EmptyString || negb (host_ok host) then None
          else
            match parse_port scheme p with
            | Some port => Some (mkUrl scheme host port path)
            | None => None
            end
      else Some (mkUrl scheme EmptyString None rest)
  end.

End Whatwg.

#[export] Instance whatwg_url : URLParser := Whatwg.parse.

(** ** The concrete parser satisfies the laws *)

Lemma scheme_ok_app a b : scheme_ok (a +:+ b) = scheme_ok a && scheme_ok b.
Proof. induction a; simpl; [done|]. rewrite IHa. apply andb_assoc. Qed.

Lemma is_scheme_char_lower c : is_scheme_char c = true -> is_scheme_char (to_lower_char c) = true.
Proof. revert c. ascii_cases. Qed.

Lemma scheme_state_ok s buf sch r :
  Whatwg.scheme_state s buf = Some (sch, r) -> scheme_ok buf = true -> scheme_ok sch = true.
Proof.
  revert buf. induction s as [|c s IH]; intros buf; simpl; [done|].
  destruct (is_scheme_char c) eqn:Hc.
  - intros Hs Hb. apply (IH _ Hs). rewrite scheme_ok_app, Hb. simpl.
    by rewrite is_scheme_char_lower.
  - case_decide; [|done]. by intros [= -> _].
Qed.

Lemma scheme_start_ok s sch r :
  Whatwg.scheme_start s = Some (sch, r) -> scheme_ok sch = true.
Proof.
  destruct s as [|c s]; simpl; [done|]. destruct (is_alpha c) eqn:Ha; [|done].
  intros Hs. apply (scheme_state_ok _ _ _ _ Hs). simpl.
  rewrite is_scheme_char_lower; [done|]. unfold is_scheme_char. by rewrite Ha.
Qed.

(** What [Whatwg.parse] returns: the scheme of a scheme start, and for a
    special scheme a host free of forbidden code points. *)
Lemma whatwg_parse_inv s u :
  Whatwg.parse s = Some u ->
  (exists r, Whatwg.scheme_start (Whatwg.remove_tab_newline (Whatwg.strip_c0 s)) = Some (url_scheme u, r)) /\
  (is_special (url_scheme u) = true -> host_ok (url_host u) = true).
Proof.
  unfold Whatwg.parse.
  destruct (Whatwg.scheme_start _) as [[sch rest]|] eqn:E; [|done].
  destruct (is_special sch) eqn:Hsp.
  - destruct (String.eqb_spec sch "file") as [->|Hf].
    + intros [= <-]. simpl. eauto.
    + destruct (Whatwg.split_authority _) as [auth path].
      destruct (Whatwg.split_colon _) as [h p].
      destruct (String.eqb_spec (toLowerCase h) EmptyString); [done|].
      destruct (host_ok (toLowerCase h)) eqn:Hh; [|done].
      destruct (Whatwg.parse_port sch p); [|done].
      intros [= <-]. simpl. eauto.
  - intros [= <-]. simpl. split; [eauto|]. by rewrite Hsp.
Qed.

#[export] Instance whatwg_url_laws : URLParserLaws.
Proof.
  split; [done|intros s u Hp..].
  - destruct (whatwg_parse_inv s u Hp) as [[r Hs] _]. exact (scheme_start_ok _ _ _ Hs).
  - by apply (whatwg_parse_inv s u Hp).
Qed.

(** ** Origins carry no forbidden host code point

    Apart from the [:] and [/] of the separator, the serialization of an
    origin holds none of the forbidden host code points: no space, no [<]
    and no [>].  This is what the embedding policy relies on when it
    interpolates an origin into the isolation policy and the relay script. *)

Lemma scheme_char_not_forbidden d : is_scheme_char d = true -> forbidden_host_char d = false.
Proof. revert d. ascii_cases. Qed.

Lemma digit_not_forbidden d : is_digit d = true -> forbidden_host_char d = false.
Proof. revert d. ascii_cases. Qed.

Lemma has_char_scheme_ok c s :
  forbidden_host_char c = true -> scheme_ok s = true -> has_char c s = false.
Proof.
  intros Hc. induction s as [|d s IH]; simpl; [done|].
  intros [Hd Hs]%andb_prop. rewrite IH by done.
  rewrite bool_decide_false; [done|]. intros ->.
  by rewrite scheme_char_not_forbidden in Hc.
Qed.

Lemma has_char_host_ok c h :
  forbidden_host_char c = true -> host_ok h = true -> has_char c h = false.
Proof.
  intros Hc. induction h as [|d h IH]; simpl; [done|].
  intros [Hd Hh]%andb_prop. rewrite IH by done.
  rewrite bool_decide_false; [done|]. intros ->. by rewrite Hc in Hd.
Qed.

Lemma is_digit_char d : (d < 10)%N -> is_digit (digit_char d) = true.
Proof.
  intros Hd. unfold is_digit, digit_char.
  assert (nat_of_ascii (ascii_of_N (48 + d)) = N.to_nat (48 + d)) as ->
    by (unfold nat_of_ascii; rewrite N_ascii_embedding; [done|lia]).
  apply andb_true_intro; split; apply Nat.leb_le; lia.
Qed.

Lemma has_char_show_N c n : is_digit c = false -> has_char c (show_N n) = false.
Proof.
  intros Hc. unfold show_N. generalize (S (N.to_nat (N.size n))) as fuel.
  intros fuel. revert n. induction fuel as [|f IH]; intros n; simpl; [done|].
  assert (has_char c (str1 (digit_char (n mod 10))) = false) as Hd.
  { simpl. rewrite bool_decide_false; [done|]. intros ->.
    by rewrite is_digit_char in Hc by (apply N.mod_lt; lia). }
  destruct (n <? 10)%N; [exact Hd|].
  by rewrite show_N_aux_acc, has_char_app, IH.
Qed.

Section OriginSafety.
Context `{URLParserLaws}.

Lemma origin_no_forbidden s u c :
  parse_url s = Some u ->
  forbidden_host_char c = true -> c <> ":"%char -> c <> "/"%char ->
  has_char c (origin u) = false.
Proof.
  intros Hp Hc Hcolon Hslash. unfold origin.
  assert (is_digit c = false) as Hdig
    by (destruct (is_digit c) eqn:E; [by rewrite digit_not_forbidden in Hc|done]).
  destruct (has_tuple_origin (url_scheme u)) eqn:Ht.
  - assert (is_special (url_scheme u) = true) as Hsp
      by (unfold is_special, has_tuple_origin in *; by repeat case_match).
    rewrite !has_char_app, (has_char_scheme_ok _ _ Hc (parse_scheme_ok _ _ Hp)),
      (has_char_host_ok _ _ Hc (parse_special_host _ _ Hp Hsp)).
    simpl. rewrite !bool_decide_false by done.
    destruct (url_port u); simpl; [|done].
    by rewrite bool_decide_false, has_char_show_N.
  - simpl. rewrite !bool_decide_false; [done|..]; intros ->; done.
Qed.
End OriginSafety.
