(* ===== verification/Origin.v ===== *)
(** * Serialized origins parse back to themselves

    The relay script of the page posts to [targetOrigin], the serialized
    origin the resolver computed; the browser parses that string again
    with the URL parser and compares the resulting origin with the frame's
    ([window.postMessage], HTML standard, window post message steps).  The
    class [URLOriginLaws] states what this needs of the parser: the
    serialization of a tuple origin parses to a URL with the same origin,
    and the opaque origin's serialization [null] does not parse.  The
    WHATWG instance satisfies it ([whatwg_origin_laws], from
    [whatwg_origin_parse]). *)

From S2P Require Import Prelude Url.

Class URLOriginLaws `{URLParser} := {
  parse_null : parse_url "null" = None;
  parse_origin s u : parse_url s = Some u -> has_tuple_origin (url_scheme u) = true ->
    exists u', parse_url (origin u) = Some u' /\ origin u' = origin u
}.

(** ** Character classes of a serialized origin *)

(** Not a C0 control or space. *)
Definition visible (c : ascii) : bool := negb (Whatwg.c0_or_space c).

(** A character the authority state reads on: not a delimiter of the
    authority, not [@], not a control or space. *)
Definition auth_char (c : ascii) : bool :=
  visible c && negb (bool_decide (c ∈ ["/"; "\"; "?"; "#"; "@"]%char)).

Lemma to_lower_idem c : to_lower_char (to_lower_char c) = to_lower_char c.
Proof. revert c. ascii_cases. Qed.

Lemma is_alpha_lower c : is_alpha c = true -> is_alpha (to_lower_char c) = true.
Proof. revert c. ascii_cases. Qed.

Lemma host_char_auth c : forbidden_host_char c = false -> auth_char c = true.
Proof. revert c. ascii_cases. Qed.

Lemma scheme_char_visible c : is_scheme_char c = true -> visible c = true.
Proof. revert c. ascii_cases. Qed.

Lemma auth_visible c : auth_char c = true -> visible c = true.
Proof. unfold auth_char. by intros [-> _]%andb_prop. Qed.

Lemma visible_not_tab c :
  visible c = true -> bool_decide (c ∈ ["009"; "010"; "013"]%char) = false.
Proof. revert c. ascii_cases. Qed.

Lemma is_digit_auth c : is_digit c = true -> auth_char c = true.
Proof. intros Hd. by apply host_char_auth, digit_not_forbidden. Qed.

(** ** Strings of such characters *)

Lemma all_chars_impl (p q : ascii -> bool) s :
  (forall c, p c = true -> q c = true) -> all_chars p s = true -> all_chars q s = true.
Proof.
  intros Hpq. induction s as [|c s IH]; simpl; [done|].
  intros [Hc Hs]%andb_prop. by rewrite Hpq, IH.
Qed.

Lemma toLowerCase_idem s : toLowerCase (toLowerCase s) = toLowerCase s.
Proof. induction s as [|c s IH]; simpl; [done|]. by rewrite to_lower_idem, IH. Qed.

Lemma srev_app_spec s acc : Whatwg.srev_app s acc = Whatwg.srev s +:+ acc.
Proof.
  revert acc. induction s as [|c s IH]; intros acc; simpl; [done|].
  unfold Whatwg.srev. simpl. rewrite !IH, sapp_assoc. done.
Qed.

Lemma srev_cons c s : Whatwg.srev (String c s) = Whatwg.srev s +:+ str1 c.
Proof. unfold Whatwg.srev at 1. simpl. apply srev_app_spec. Qed.

Lemma srev_app_distr a b : Whatwg.srev (a +:+ b) = Whatwg.srev b +:+ Whatwg.srev a.
Proof.
  induction a as [|c a IH]; simpl.
  - unfold Whatwg.srev at 2. simpl. by rewrite sapp_nil_r.
  - by rewrite !srev_cons, IH, sapp_assoc.
Qed.

Lemma srev_involutive s : Whatwg.srev (Whatwg.srev s) = s.
Proof.
  induction s as [|c s IH]; [done|].
  rewrite srev_cons, srev_app_distr, IH. done.
Qed.

Lemma all_chars_srev p s : all_chars p (Whatwg.srev s) = all_chars p s.
Proof.
  induction s as [|c s IH]; [done|].
  rewrite srev_cons, all_chars_app, IH. simpl. by rewrite andb_true_r, andb_comm.
Qed.

Lemma strip_leading_visible s : all_chars visible s = true -> Whatwg.strip_leading s = s.
Proof.
  destruct s as [|c s]; simpl; [done|]. unfold visible.
  by intros [->%negb_true_iff _]%andb_prop.
Qed.

Lemma strip_c0_visible s : all_chars visible s = true -> Whatwg.strip_c0 s = s.
Proof.
  intros Hs. unfold Whatwg.strip_c0.
  rewrite (strip_leading_visible s Hs), strip_leading_visible by (by rewrite all_chars_srev).
  apply srev_involutive.
Qed.

Lemma remove_tab_newline_visible s : all_chars visible s = true -> Whatwg.remove_tab_newline s = s.
Proof.
  induction s as [|c s IH]; simpl; [done|].
  intros [Hc Hs]%andb_prop. by rewrite visible_not_tab, IH.
Qed.

Lemma split_authority_all s : all_chars auth_char s = true -> Whatwg.split_authority s = (s, EmptyString).
Proof.
  induction s as [|c s IH]; simpl; [done|].
  intros [Hc Hs]%andb_prop. unfold auth_char in Hc.
  apply andb_prop in Hc as [_ Hc%negb_true_iff].
  rewrite bool_decide_false; [by rewrite IH|].
  intros Hin. rewrite bool_decide_true in Hc; [done|].
  rewrite list_elem_of_In in Hin |- *. simpl in *. tauto.
Qed.

Lemma after_last_at_all s acc : all_chars auth_char s = true -> Whatwg.after_last_at s acc = acc +:+ s.
Proof.
  revert acc. induction s as [|c s IH]; intros acc; simpl; [by rewrite sapp_nil_r|].
  intros [Hc Hs]%andb_prop. unfold auth_char in Hc.
  apply andb_prop in Hc as [_ Hc%negb_true_iff].
  rewrite decide_False; [rewrite IH by done; by rewrite sapp_assoc|].
  intros ->. rewrite bool_decide_true in Hc; [done|]. rewrite list_elem_of_In. simpl. tauto.
Qed.

Lemma split_colon_none h : has_char ":" h = false -> Whatwg.split_colon h = (h, None).
Proof.
  induction h as [|c h IH]; simpl; [done|].
  intros [Hc Hh]%orb_false_iff. rewrite decide_False by (intros ->; done). by rewrite IH.
Qed.

Lemma split_colon_port h ds :
  has_char ":" h = false -> Whatwg.split_colon (h +:+ String ":" ds) = (h, Some ds).
Proof.
  induction h as [|c h IH]; simpl; [done|].
  intros [Hc Hh]%orb_false_iff. rewrite decide_False by (intros ->; done). by rewrite IH.
Qed.

(** ** Decimal numerals in an origin *)

Lemma show_N_aux_nonempty f n acc : acc <> EmptyString -> show_N_aux f n acc <> EmptyString.
Proof.
  revert n acc. induction f as [|f IH]; intros n acc Hacc; simpl; [done|].
  destruct (n <? 10)%N; [done|]. by apply IH.
Qed.

Lemma show_N_nonempty n : show_N n <> EmptyString.
Proof. unfold show_N. simpl. destruct (n <? 10)%N; [done|]. by apply show_N_aux_nonempty. Qed.

Lemma show_N_digits n : all_chars is_digit (show_N n) = true.
Proof.
  unfold show_N. generalize (S (N.to_nat (N.size n))) as f. intros f.
  assert (all_chars is_digit EmptyString = true) as H0 by done. revert H0.
  generalize EmptyString as acc. revert n.
  induction f as [|f IH]; intros n acc Hacc; simpl; [done|].
  assert (all_chars is_digit (String (digit_char (n mod 10)) acc) = true) as Hd.
  { simpl. by rewrite is_digit_char, Hacc by (apply N.mod_lt; lia). }
  destruct (n <? 10)%N; [done|]. by apply IH.
Qed.

(** ** The scheme: lower case, read back up to its colon *)

Lemma scheme_state_form s buf sch r :
  Whatwg.scheme_state s buf = Some (sch, r) -> toLowerCase buf = buf ->
  exists t, sch = buf +:+ t /\ toLowerCase sch = sch.
Proof.
  revert buf. induction s as [|c s IH]; intros buf; simpl; [done|].
  destruct (is_scheme_char c).
  - intros Hs Hb.
    assert (toLowerCase (buf +:+ str1 (to_lower_char c)) = buf +:+ str1 (to_lower_char c)) as Hb'
      by (rewrite toLowerCase_app, Hb; simpl; by rewrite to_lower_idem).
    destruct (IH _ Hs Hb') as (t & -> & Hl).
    exists (str1 (to_lower_char c) +:+ t). split; [by rewrite sapp_assoc|exact Hl].
  - case_decide; [|done]. intros [= <- _] Hb. exists EmptyString. by rewrite sapp_nil_r.
Qed.

Lemma scheme_start_form s sch r :
  Whatwg.scheme_start s = Some (sch, r) ->
  exists c t, sch = String c t /\ is_alpha c = true /\ toLowerCase sch = sch /\ scheme_ok t = true.
Proof.
  intros Hs. pose proof (scheme_start_ok _ _ _ Hs) as Hok.
  destruct s as [|c s]; simpl in Hs; [done|]. destruct (is_alpha c) eqn:Ha; [|done].
  destruct (scheme_state_form _ _ _ _ Hs) as (t & -> & Hl); [simpl; by rewrite to_lower_idem|].
  exists (to_lower_char c), t. split_and!; [done|by apply is_alpha_lower|done|].
  simpl in Hok. by apply andb_prop in Hok as [_ ->].
Qed.

Lemma scheme_state_read t buf rest :
  scheme_ok t = true -> toLowerCase t = t ->
  Whatwg.scheme_state (t +:+ String ":" rest) buf = Some (buf +:+ t, rest).
Proof.
  revert buf. induction t as [|d t IH]; intros buf; simpl.
  - intros _ _. by rewrite sapp_nil_r.
  - intros [Hd Ht]%andb_prop [= Hl Hl']. rewrite Hd, Hl, IH by done.
    by rewrite sapp_assoc.
Qed.

Lemma scheme_start_read c t rest :
  is_alpha c = true -> toLowerCase (String c t) = String c t -> scheme_ok t = true ->
  Whatwg.scheme_start (String c t +:+ String ":" rest) = Some (String c t, rest).
Proof.
  intros Ha [= Hl Hl'] Ht. simpl. rewrite Ha, Hl, scheme_state_read by done. done.
Qed.

Lemma scheme_ok_all s : scheme_ok s = all_chars is_scheme_char s.
Proof. induction s as [|c s IH]; simpl; [done|]. by rewrite IH. Qed.

(** ** What a parsed URL with a tuple origin holds *)

Definition port_ok (scheme : string) (port : option N) : Prop :=
  match port with
  | None => True
  | Some n => (n <= 65535)%N /\ default_port scheme <> Some (Some n)
  end.

Lemma parse_port_ok sch p port : Whatwg.parse_port sch p = Some port -> port_ok sch port.
Proof.
  unfold Whatwg.parse_port. destruct p as [[|c ds]|]; try (intros [= <-]; done).
  destruct (parse_digits_acc 0 _) as [n|]; [|done].
  destruct (65535 <? n)%N eqn:Hn; [done|]. case_decide; intros [= <-]; [done|].
  split; [|done]. apply N.ltb_ge in Hn. lia.
Qed.

Lemma whatwg_parse_tuple s u :
  Whatwg.parse s = Some u -> has_tuple_origin (url_scheme u) = true ->
  (exists c t, url_scheme u = String c t /\ is_alpha c = true /\
     toLowerCase (url_scheme u) = url_scheme u /\ scheme_ok t = true) /\
  url_host u <> EmptyString /\ host_ok (url_host u) = true /\
  toLowerCase (url_host u) = url_host u /\ port_ok (url_scheme u) (url_port u).
Proof.
  unfold Whatwg.parse.
  destruct (Whatwg.scheme_start _) as [[sch rest]|] eqn:E; [|done].
  pose proof (scheme_start_form _ _ _ E) as Hsch.
  destruct (is_special sch) eqn:Hsp;
    [|intros [= <-] Ht; simpl in Ht; unfold is_special, has_tuple_origin in *; by repeat case_match].
  destruct (String.eqb_spec sch "file") as [->|Hf]; [intros [= <-] Ht; discriminate Ht|].
  destruct (Whatwg.split_authority _) as [auth path].
  destruct (Whatwg.split_colon _) as [h p].
  destruct (String.eqb_spec (toLowerCase h) EmptyString) as [|Hne]; [done|].
  destruct (host_ok (toLowerCase h)) eqn:Hh; [|done].
  destruct (Whatwg.parse_port sch p) as [port|] eqn:Hp; [|done].
  intros [= <-] _. simpl. split_and!; try done.
  - apply toLowerCase_idem.
  - by apply (parse_port_ok _ p).
Qed.

(** ** The serialized origin parses back *)

Lemma skip_slashes_host h r :
  host_ok h = true -> h <> EmptyString -> Whatwg.skip_slashes ("//" +:+ h +:+ r) = h +:+ r.
Proof.
  destruct h as [|c h]; [done|]. simpl. intros [Hc _]%andb_prop _.
  apply negb_true_iff in Hc. rewrite bool_decide_false; [done|].
  intros Hin. rewrite list_elem_of_In in Hin. destruct Hin as [<-|[<-|[]]]; done.
Qed.

Definition port_str (port : option N) : string :=
  match port with Some p => ":" +:+ show_N p | None => "" end.

Lemma all_auth_host h : host_ok h = true -> all_chars auth_char h = true.
Proof.
  induction h as [|c h IH]; simpl; [done|].
  intros [Hc Hh]%andb_prop. rewrite host_char_auth, IH; [done|done|]. by apply negb_true_iff.
Qed.

Lemma all_auth_port port : all_chars auth_char (port_str port) = true.
Proof.
  destruct port as [p|]; [|done]. simpl.
  exact (all_chars_impl _ _ _ is_digit_auth (show_N_digits p)).
Qed.

Lemma whatwg_origin_parse s u :
  Whatwg.parse s = Some u -> has_tuple_origin (url_scheme u) = true ->
  Whatwg.parse (origin u) = Some (mkUrl (url_scheme u) (url_host u) (url_port u) EmptyString).
Proof.
  intros Hp Ht. destruct (whatwg_parse_tuple _ _ Hp Ht)
    as ((c & t & Hsch & Ha & Hl & Hok) & Hne & Hh & Hhl & Hport).
  assert (all_chars auth_char (url_host u +:+ port_str (url_port u)) = true) as Hauth
    by (rewrite all_chars_app, all_auth_host, all_auth_port; done).
  assert (origin u = String c t +:+ String ":" ("//" +:+ url_host u +:+ port_str (url_port u))) as Ho.
  { unfold origin. rewrite Ht, Hsch. by destruct (url_port u). }
  assert (all_chars visible (origin u) = true) as Hvis.
  { rewrite Ho, all_chars_app. apply andb_true_intro. split.
    - apply (all_chars_impl is_scheme_char); [apply scheme_char_visible|].
      simpl. unfold is_scheme_char at 1. rewrite Ha. simpl. by rewrite <- scheme_ok_all.
    - exact (all_chars_impl _ _ _ auth_visible Hauth). }
  unfold Whatwg.parse. rewrite strip_c0_visible, remove_tab_newline_visible by done.
  rewrite Ho, scheme_start_read by (rewrite <- ?Hsch; done).
  rewrite <- Hsch.
  assert (is_special (url_scheme u) = true) as Hsp
    by (unfold is_special, has_tuple_origin in *; by repeat case_match).
  assert (String.eqb (url_scheme u) "file" = false) as Hf
    by (apply String.eqb_neq; intros Hfile; by rewrite Hfile in Ht).
  rewrite Hsp, Hf.
  rewrite skip_slashes_host by done.
  rewrite split_authority_all, after_last_at_all by done. simpl.
  assert (has_char ":" (url_host u) = false) as Hcolon by (by apply has_char_host_ok).
  destruct (url_port u) as [n|] eqn:Ep; simpl.
  - rewrite split_colon_port, Hhl by done.
    rewrite (proj2 (String.eqb_neq _ _) Hne), Hh. simpl.
    unfold Whatwg.parse_port. destruct (show_N n) eqn:Es; [by apply show_N_nonempty in Es|].
    rewrite <- Es, parse_show_N. destruct Hport as [Hn Hd].
    rewrite (proj2 (N.ltb_ge _ _) Hn), decide_False by done. done.
  - rewrite sapp_nil_r, split_colon_none, Hhl by done.
    rewrite (proj2 (String.eqb_neq _ _) Hne), Hh. done.
Qed.

#[export] Instance whatwg_origin_laws : URLOriginLaws.
Proof.
  split; [reflexivity|]. intros s u Hp Ht.
  eexists. split; [exact (whatwg_origin_parse s u Hp Ht)|]. unfold origin. simpl. by rewrite Ht.
Qed.

Lemma split_authority_slash a r :
  all_chars auth_char a = true -> Whatwg.split_authority (a +:+ String "/" r) = (a, String "/" r).
Proof.
  induction a as [|c a IH]; simpl; [done|].
  intros [Hc Ha]%andb_prop. unfold auth_char in Hc.
  apply andb_prop in Hc as [_ Hc%negb_true_iff].
  rewrite bool_decide_false; [by rewrite IH|].
  intros Hin. rewrite bool_decide_true in Hc; [done|].
  rewrite list_elem_of_In in Hin |- *. simpl in *. tauto.
Qed.

Lemma parse_port_show scheme n :
  (n <= 65535)%N ->
  Whatwg.parse_port scheme (Some (show_N n)) =
    Some (if decide (default_port scheme = Some (Some n)) then None else Some n).
Proof.
  intros Hn. unfold Whatwg.parse_port.
  destruct (show_N n) eqn:Es; [by apply show_N_nonempty in Es|].
  rewrite <- Es, parse_show_N, (proj2 (N.ltb_ge _ _) Hn). by case_decide.
Qed.

Lemma skip_slashes_lead c a r :
  bool_decide (c ∈ ["/"; "\"]%char) = false ->
  Whatwg.skip_slashes ("//" +:+ String c a +:+ r) = String c a +:+ r.
Proof. intros Hc. simpl. by rewrite Hc. Qed.
