(* ===== verification/Host.v ===== *)
(** * The host editor's API, as far as the extension uses it

    The extension (src/src/extension.ts) calls into VS Code: a webview
    exposes [cspSource] and [asWebviewUri], the extension context its
    [extensionUri], and [vscode.Uri.joinPath] builds resource paths.  These
    are library code outside the repository; they are modelled from their
    documented behaviour, as records of the values and functions the
    extension reads. *)

From S2P Require Import Prelude.

(** A webview as the extension sees it: the CSP source token of its
    resource scheme, and the conversion of a local resource path into an
    address the webview can load. *)
Record Webview := mkWebview {
  cspSource : string;
  asWebviewUri : string -> string
}.

Record ExtensionContext := mkContext {
  extensionUri : string
}.

(** [vscode.Uri.joinPath(base, ...segments)]: the path segments of the base
    and of each argument, joined with [/] after POSIX normalisation drops
    empty and [.] segments ([..] does not occur in the extension's calls). *)
Definition path_segments (s : string) : list string :=
  filter (fun x => x <> EmptyString /\ x <> ".") (split_on "/" s EmptyString).

Fixpoint join_slash (segs : list string) : string :=
  match segs with
  | [] => EmptyString
  | x :: rest => "/" +:+ x +:+ join_slash rest
  end.

Definition joinPath (base : string) (segments : list string) : string :=
  join_slash (path_segments base ++ concat (map path_segments segments)).

(** The bundled page is named [src/./demo/index.html] by the fallback
    resolver and [src/demo/index.html] by the demo server: one file. *)
Lemma joinPath_demo_same (base : string) :
  joinPath base ["src"; "./demo/index.html"] = joinPath base ["src"; "demo"; "index.html"].
Proof. reflexivity. Qed.
