(* ===== verification/Resolver.v ===== *)
(** * The source resolver: [resolveAppSrc] (extension.ts:113-141)

    [resolveAppSrc] decides what the preview's iframe loads and which
    origin the relay script posts to: the configured remote URL when it is
    an https URL, the local demo server when HTTP is allowed and a server
    address is known, and otherwise the bundled demo page.  The section
    [Resolve] models it against the URL-parser interface of [Url].

    The abstract specification is the spec's decision (section 4.2),
    [resolve_spec], with the embedding policy it implies (section 4.3) as
    the relation [policy_of]; [resolveAppSrc_refines] proves that the code
    implements it. *)

From S2P Require Import Prelude Url Host.

Record AppSrc := mkAppSrc {
  src : string;
  frameSrcCsp : string;
  targetOrigin : string
}.

Section Resolve.
Context `{URLParser}.

(** The fallback branch (lines 130-140). *)
Definition bundledAppSrc (webview : Webview) (context : ExtensionContext) : AppSrc :=
  let demoPath := joinPath (extensionUri context) ["src"; "./demo/index.html"] in
  let demoUri := asWebviewUri webview demoPath in
  {| src := demoUri;
     frameSrcCsp := cspSource webview +:+ " vscode-resource:";
     targetOrigin := "*" |}.

(** Lines 113-141.  [demoUrl] is [undefined] ([None]) when no demo server
    was started; the test [allowHttp && demoUrl] also treats the empty
    string as absent.  [new URL(..)] may throw, hence the [Res]. *)
Definition resolveAppSrc (webview : Webview) (context : ExtensionContext)
    (remoteUrl : string) (demoUrl : option string) (allowHttp : bool) : Res AppSrc :=
  if isHttpsUrl remoteUrl then
    u <- new_URL remoteUrl ;;
    Ok {| src := remoteUrl; frameSrcCsp := origin u; targetOrigin := origin u |}
  else
    match allowHttp, demoUrl with
    | true, Some d =>
        if String.eqb d EmptyString then Ok (bundledAppSrc webview context)
        else
          u <- new_URL d ;;
          Ok {| src := d; frameSrcCsp := origin u; targetOrigin := origin u |}
    | _, _ => Ok (bundledAppSrc webview context)
    end.

(** ** The abstract specification (spec sections 3, 4.2 and 4.3) *)

Inductive ContentSource :=
  | Remote (address : string)
  | LocalServed (address : string)
  | LocalBundled (address : string).

(** "a syntactically valid URL whose scheme is the secure transport". *)
Definition secure_remote (v : string) : bool :=
  match parse_url v with
  | Some u => String.eqb (url_scheme u) "https"
  | None => false
  end.

(** The decision order of section 4.2; [server] is the outcome of the
    local-server factory ([None]: it failed), consulted only when
    insecure local content is allowed. *)
Definition resolve_spec (configuredRemote : string) (allowInsecureLocal : bool)
    (server : option string) (bundled : string) : ContentSource :=
  if secure_remote configuredRemote then Remote configuredRemote
  else if allowInsecureLocal then
    match server with
    | Some address => LocalServed address
    | None => LocalBundled bundled
    end
  else LocalBundled bundled.

(** Whether the spec's resolver starts a server at all. *)
Definition spec_starts_server (configuredRemote : string) (allowInsecureLocal : bool) : bool :=
  negb (secure_remote configuredRemote) && allowInsecureLocal.

(** The source expressions of a CSP directive value, separated by spaces. *)
Definition csp_tokens (v : string) : list string :=
  filter (fun x => x <> EmptyString) (split_on " " v EmptyString).

(** Section 4.3: a concrete origin is pinned for a remote or served page;
    the bundled page's policy names the host's resource scheme and posts
    to the wildcard. *)
Inductive policy_of (resourceToken : string) : ContentSource -> AppSrc -> Prop :=
  | policy_remote a u :
      parse_url a = Some u ->
      policy_of resourceToken (Remote a) (mkAppSrc a (origin u) (origin u))
  | policy_served a u :
      parse_url a = Some u ->
      policy_of resourceToken (LocalServed a) (mkAppSrc a (origin u) (origin u))
  | policy_bundled a iso :
      resourceToken ∈ csp_tokens iso ->
      policy_of resourceToken (LocalBundled a) (mkAppSrc a iso "*").
End Resolve.

(** ** Lemmas *)

Section ResolveProofs.
Context `{URLParserLaws}.

Lemma protocol_https u :
  String.eqb (protocol u) "https:" = String.eqb (url_scheme u) "https".
Proof.
  unfold protocol. destruct (String.eqb_spec (url_scheme u) "https") as [->|Hne]; [done|].
  apply String.eqb_neq. intros Heq. apply Hne. by apply (sapp_inv_r _ _ ":").
Qed.

Lemma isHttpsUrl_secure v : isHttpsUrl v = secure_remote v.
Proof.
  unfold isHttpsUrl, secure_remote, new_URL.
  destruct v as [|c v']; [by rewrite parse_empty|].
  destruct (parse_url _); [apply protocol_https|done].
Qed.

Lemma isHttpsUrl_parse v :
  isHttpsUrl v = true -> exists u, parse_url v = Some u /\ url_scheme u = "https".
Proof.
  rewrite isHttpsUrl_secure. unfold secure_remote.
  destruct (parse_url v) as [u|]; [|done]. intros ?%String.eqb_eq. eauto.
Qed.

Lemma origin_not_wildcard u : origin u <> "*".
Proof.
  unfold origin. destruct (has_tuple_origin _); [|done].
  intros Heq. apply (f_equal String.length) in Heq. rewrite !sapp_length in Heq.
  simpl in Heq. lia.
Qed.

Lemma csp_tokens_bundled t :
  t <> EmptyString -> has_char " " t = false ->
  csp_tokens (t +:+ " vscode-resource:") = [t; "vscode-resource:"].
Proof.
  intros Hne Hsp. unfold csp_tokens.
  rewrite split_on_skip by done. simpl.
  rewrite filter_cons_True by done. by rewrite filter_cons_True.
Qed.
(** Every result of [resolveAppSrc]: the bundled page, or a parsed
    address with its origin as isolation origin and message target. *)
Lemma resolveAppSrc_shape webview context remote demoUrl allowHttp app :
  resolveAppSrc webview context remote demoUrl allowHttp = Ok app ->
  app = bundledAppSrc webview context \/
  exists u, parse_url (src app) = Some u /\ frameSrcCsp app = origin u /\ targetOrigin app = origin u.
Proof.
  unfold resolveAppSrc, new_URL.
  destruct (isHttpsUrl remote).
  - destruct (parse_url remote) as [u|] eqn:Hu; [|done].
    intros [= <-]. right. by exists u.
  - destruct allowHttp, demoUrl as [d|]; try (intros [= <-]; by left).
    destruct (String.eqb d EmptyString); [intros [= <-]; by left|].
    destruct (parse_url d) as [u|] eqn:Hu; [|done].
    intros [= <-]. right. by exists u.
Qed.
End ResolveProofs.

(** ** What the resolver guarantees *)

Section ResolveTheorems.
Context `{URLParserLaws}.
Variables (webview : Webview) (context : ExtensionContext).

(** The host's resource token is one CSP source expression. *)
Hypothesis csp_nonempty : cspSource webview <> EmptyString.
Hypothesis csp_single : has_char " " (cspSource webview) = false.

Lemma bundled_policy :
  policy_of (cspSource webview) (LocalBundled (src (bundledAppSrc webview context)))
    (bundledAppSrc webview context).
Proof.
  constructor. unfold bundledAppSrc; simpl.
  rewrite csp_tokens_bundled by done. set_solver.
Qed.

(** C6: the code implements the spec's resolver.  With the demo-server
    address the code computes ([None] unless the remote URL is not https,
    as extension.ts:58-62 starts the server only then), [resolveAppSrc]
    never throws, and its frame address, isolation origin and target
    origin are the policy the spec derives from its own decision
    ([resolve_spec], sections 4.2 and 4.3), for every configuration. *)
Theorem resolveAppSrc_refines remote server allowHttp :
  (forall d, server = Some d -> d <> EmptyString /\ is_Some (parse_url d)) ->
  exists app,
    resolveAppSrc webview context remote (if isHttpsUrl remote then None else server) allowHttp = Ok app /\
    policy_of (cspSource webview)
      (resolve_spec remote allowHttp server (src (bundledAppSrc webview context))) app.
Proof.
  intros Hserver. unfold resolveAppSrc, resolve_spec. rewrite <- isHttpsUrl_secure.
  destruct (isHttpsUrl remote) eqn:Hh.
  - destruct (isHttpsUrl_parse _ Hh) as (u & Hu & _).
    unfold new_URL. rewrite Hu. eexists; split; [done|]. by constructor.
  - destruct allowHttp; [destruct server as [d|]|].
    + destruct (Hserver d eq_refl) as [Hne [u Hu]].
      rewrite (proj2 (String.eqb_neq _ _) Hne). unfold new_URL. rewrite Hu.
      eexists; split; [done|]. by constructor.
    + eexists; split; [done|]. apply bundled_policy.
    + eexists; split; [by destruct server|]. apply bundled_policy.
Qed.

(** C23: the message target is pinned.  Whatever [resolveAppSrc] returns
    is either the bundled page, posting to the wildcard, or a page whose
    address parses and whose isolation origin and message target are both
    that address's origin: a single source expression (no space) that is
    never the wildcard. *)
Theorem resolveAppSrc_pinned remote demoUrl allowHttp app :
  resolveAppSrc webview context remote demoUrl allowHttp = Ok app ->
  app = bundledAppSrc webview context \/
  exists u, parse_url (src app) = Some u /\ frameSrcCsp app = origin u /\
    targetOrigin app = origin u /\ origin u <> "*" /\ has_char " " (origin u) = false.
Proof.
  intros [->|(u & Hu & Hf & Ht)]%resolveAppSrc_shape; [by left|].
  right. exists u. split_and!; try done.
  - apply origin_not_wildcard.
  - by eapply origin_no_forbidden.
Qed.
End ResolveTheorems.


(** ** Witnesses, on a webview as VS Code describes it *)

Definition sample_webview : Webview :=
  mkWebview "https://*.vscode-cdn.net"
    (fun p => "https://file+.vscode-resource.vscode-cdn.net" +:+ p).

Definition sample_context : ExtensionContext := mkContext "/ext/yaml-iframe-preview".

Lemma resolveAppSrc_refines_witness :
  exists app,
    resolveAppSrc sample_webview sample_context EmptyString
      (if isHttpsUrl EmptyString then None else Some "http://127.0.0.1:54321/index.html") true = Ok app /\
    policy_of (cspSource sample_webview)
      (resolve_spec EmptyString true (Some "http://127.0.0.1:54321/index.html")
         (src (bundledAppSrc sample_webview sample_context))) app.
Proof.
  apply (resolveAppSrc_refines sample_webview sample_context); [done|done|].
  intros d [= <-]. split; [done|]. eexists. reflexivity.
Defined.

Lemma resolveAppSrc_pinned_witness :
  resolveAppSrc sample_webview sample_context "https://ex.com/app" None true =
    Ok (mkAppSrc "https://ex.com/app" "https://ex.com" "https://ex.com") /\
  (mkAppSrc "https://ex.com/app" "https://ex.com" "https://ex.com" = bundledAppSrc sample_webview sample_context \/
   exists u, parse_url "https://ex.com/app" = Some u /\ "https://ex.com" = origin u /\
     "https://ex.com" = origin u /\ origin u <> "*" /\ has_char " " (origin u) = false).
Proof.
  split; [reflexivity|].
  apply (resolveAppSrc_pinned sample_webview sample_context "https://ex.com/app" None true).
  reflexivity.
Defined.
