(* ===== verification/Escape.v ===== *)
(** * Escaping: [escapeHtml] (extension.ts:275-282) and [JSON.stringify]

    [escapeHtml] is written as five chained global replacements; it is
    modelled exactly so, as [replace_all_char] applied in the code's order,
    and proved equal to the single-pass reference [escape_ref] that maps
    each character to its entity.  The order matters: replacing [&] first
    is what keeps the later entities from being escaped twice.  The decoder
    [unescapeHtml] is the browser's decoding of these five character
    references in an attribute value; [escapeHtml_roundtrip] proves the
    iframe receives the string the extension meant.

    [JSON.stringify] on a string (the runtime's QuoteJSONString, ECMA-262
    section 25.5.2.3, on ASCII) is used by the page template to embed the
    relay script's target origin; [JSON_parse_string] is the parser of a
    JSON string literal, and [JSON_roundtrip] the round trip. *)

From S2P Require Import Prelude.

(** ** [escapeHtml] as written *)

Definition escapeHtml (input : string) : string :=
  replace_all_char "'" "&#039;"
    (replace_all_char "034" "&quot;"
      (replace_all_char ">" "&gt;"
        (replace_all_char "<" "&lt;"
          (replace_all_char "&" "&amp;" input)))).

(** ** The single-pass reference *)

Definition escape_char (c : ascii) : string :=
  match c with
  | "&"%char => "&amp;"
  | "<"%char => "&lt;"
  | ">"%char => "&gt;"
  | "034"%char => "&quot;"
  | "'"%char => "&#039;"
  | _ => str1 c
  end.

Fixpoint escape_ref (s : string) : string :=
  match s with
  | EmptyString => EmptyString
  | String c s' => escape_char c +:+ escape_ref s'
  end.

(** ** Decoding the five character references *)

Fixpoint unescapeHtml (s : string) : string :=
  match s with
  | String "&" (String "a" (String "m" (String "p" (String ";" r)))) => String "&" (unescapeHtml r)
  | String "&" (String "l" (String "t" (String ";" r))) => String "<" (unescapeHtml r)
  | String "&" (String "g" (String "t" (String ";" r))) => String ">" (unescapeHtml r)
  | String "&" (String "q" (String "u" (String "o" (String "t" (String ";" r))))) =>
      String "034" (unescapeHtml r)
  | String "&" (String "#" (String "0" (String "3" (String "9" (String ";" r))))) =>
      String "'" (unescapeHtml r)
  | String c r => String c (unescapeHtml r)
  | EmptyString => EmptyString
  end%char.

(** ** [JSON.stringify] on a string *)

Definition hex_digit (n : nat) : ascii :=
  if (n <? 10)%nat then ascii_of_nat (48 + n) else ascii_of_nat (87 + n).

(** [\u00XX] with lower-case hexadecimal digits, for the other controls. *)
Definition unicode_escape (c : ascii) : string :=
  "\u00" +:+ str1 (hex_digit (nat_of_ascii c / 16)) +:+ str1 (hex_digit (nat_of_ascii c mod 16)).

Definition json_char (c : ascii) : string :=
  match c with
  | "008"%char => "\b"
  | "009"%char => "\t"
  | "010"%char => "\n"
  | "012"%char => "\f"
  | "013"%char => "\r"
  | "034"%char => "\" +:+ DQ
  | "\"%char => "\\"
  | _ => if (nat_of_ascii c <? 32)%nat then unicode_escape c else str1 c
  end.

Fixpoint json_body (s : string) : string :=
  match s with
  | EmptyString => EmptyString
  | String c s' => json_char c +:+ json_body s'
  end.

Definition JSON_stringify (s : string) : string := DQ +:+ json_body s +:+ DQ.

(** The lexer of a JSON (and JavaScript) string literal: given the text
    after the opening quote, the string the literal denotes and the text
    after its closing quote. *)
Definition hex_val (c : ascii) : option nat :=
  let k := nat_of_ascii c in
  if (48 <=? k) && (k <=? 57) then Some (k - 48)
  else if (97 <=? k) && (k <=? 102) then Some (k - 87)
  else if (65 <=? k) && (k <=? 70) then Some (k - 55)
  else None.

Definition hex4 (a b c d : ascii) : option ascii :=
  match hex_val a, hex_val b, hex_val c, hex_val d with
  | Some x, Some y, Some z, Some w =>
      let n := ((x * 16 + y) * 16 + z) * 16 + w in
      if (n <? 256)%nat then Some (ascii_of_nat n) else None
  | _, _, _, _ => None
  end.

Definition lex_cons (c : ascii) (o : option (string * string)) : option (string * string) :=
  match o with Some (v, r) => Some (String c v, r) | None => None end.

Fixpoint json_lex (s : string) : option (string * string) :=
  match s with
  | EmptyString => None
  | String "034" r => Some (EmptyString, r)
  | String "\" (String e r) =>
      match e with
      | "034" => lex_cons "034" (json_lex r) | "\" => lex_cons "\" (json_lex r)
      | "/" => lex_cons "/" (json_lex r)
      | "b" => lex_cons "008" (json_lex r) | "f" => lex_cons "012" (json_lex r)
      | "n" => lex_cons "010" (json_lex r) | "r" => lex_cons "013" (json_lex r)
      | "t" => lex_cons "009" (json_lex r)
      | "u" =>
          match r with
          | String a (String b (String c (String d r'))) =>
              match hex4 a b c d with
              | Some x => lex_cons x (json_lex r')
              | None => None
              end
          | _ => None
          end
      | _ => None
      end
  | String c r => if (nat_of_ascii c <? 32)%nat then None else lex_cons c (json_lex r)
  end%char.

(** [JSON.parse] on a string literal: the literal must be the whole text. *)
Definition JSON_parse_string (s : string) : option string :=
  match s with
  | String "034" r =>
      match json_lex r with
      | Some (v, EmptyString) => Some v
      | _ => None
      end
  | _ => None
  end%char.

(** ** Per-character facts, by the 256 cases of a character *)

Lemma escapeHtml_char c : escapeHtml (str1 c) = escape_char c.
Proof. revert c. ascii_cases. Qed.

Lemma escape_char_safe d :
  forallb (fun c => negb (has_char c (escape_char d))) ["<"; ">"; "034"; "'"]%char = true.
Proof. revert d. ascii_cases. Qed.

Lemma unescape_escape_char c r : unescapeHtml (escape_char c +:+ r) = String c (unescapeHtml r).
Proof. revert c r. ascii_cases_conv. Qed.

Lemma json_lex_char c r : json_lex (json_char c +:+ r) = lex_cons c (json_lex r).
Proof. revert c r. ascii_cases_conv. Qed.

Lemma has_char_json_char c : has_char "<" (json_char c) = bool_decide ("<"%char = c).
Proof. revert c. ascii_cases. Qed.

(** ** Theorems *)

Lemma escapeHtml_app a b : escapeHtml (a +:+ b) = escapeHtml a +:+ escapeHtml b.
Proof. unfold escapeHtml. by rewrite !replace_all_char_app. Qed.

Lemma escapeHtml_as_ref s : escapeHtml s = escape_ref s.
Proof.
  induction s as [|c s IH]; [done|].
  change (String c s) with (str1 c +:+ s).
  by rewrite escapeHtml_app, escapeHtml_char, IH.
Qed.

(** C8: the five chained replacements of [escapeHtml] compute the
    single-pass entity encoding: each character is replaced by its own
    entity, and no entity produced by an earlier replacement is escaped
    again (because [&] is replaced first). *)
Theorem escapeHtml_ref s : escapeHtml s = escape_ref s.
Proof. exact (escapeHtml_as_ref s). Qed.

Lemma has_char_escape_ref c s :
  c ∈ ["<"; ">"; "034"; "'"]%char -> has_char c (escape_ref s) = false.
Proof.
  intros Hc. induction s as [|d s IH]; simpl; [done|].
  rewrite has_char_app, IH, orb_false_r.
  pose proof (escape_char_safe d) as Hd. rewrite forallb_forall in Hd.
  apply negb_true_iff, Hd. by apply list_elem_of_In.
Qed.

(** C26: what [escapeHtml] returns holds no [<], [>], double quote or
    single quote, so interpolated into an attribute value or element
    content it can neither close the attribute nor open a tag. *)
Theorem escapeHtml_safe s c :
  c ∈ ["<"; ">"; "034"; "'"]%char -> has_char c (escapeHtml s) = false.
Proof. rewrite escapeHtml_as_ref. apply has_char_escape_ref. Qed.

Lemma escapeHtml_no_lt s : has_char "<" (escapeHtml s) = false.
Proof. rewrite escapeHtml_as_ref. apply has_char_escape_ref. by left. Qed.

(** C27: the browser decodes an escaped attribute value back to the
    original string: the frame is loaded from the address the code chose. *)
Theorem escapeHtml_roundtrip s : unescapeHtml (escapeHtml s) = s.
Proof.
  rewrite escapeHtml_as_ref. induction s as [|c s IH]; [done|].
  simpl. by rewrite unescape_escape_char, IH.
Qed.

(** The lexer reads back a literal's body and stops at its closing quote. *)
Lemma json_lex_body s r : json_lex (json_body s +:+ DQ +:+ r) = Some (s, r).
Proof.
  induction s as [|c s IH]; [done|]. cbn [json_body]. by rewrite sapp_assoc, json_lex_char, IH.
Qed.

(** The JSON string literal the template embeds parses back to the
    string it encodes, for every ASCII string (quotes, backslashes and
    control characters included). *)
Theorem JSON_roundtrip s : JSON_parse_string (JSON_stringify s) = Some s.
Proof.
  unfold JSON_stringify, JSON_parse_string.
  change (DQ +:+ json_body s +:+ DQ) with (String "034" (json_body s +:+ DQ +:+ EmptyString)); lazy beta iota.
  by rewrite json_lex_body.
Qed.

Lemma has_char_JSON_lt s : has_char "<" (JSON_stringify s) = has_char "<" s.
Proof.
  unfold JSON_stringify. simpl. rewrite has_char_app. simpl. rewrite orb_false_r.
  induction s as [|c s IH]; [done|]. simpl. by rewrite has_char_app, IH, has_char_json_char.
Qed.

Lemma escapeHtml_safe_witness :
  "<"%char ∈ ["<"; ">"; "034"; "'"]%char /\ has_char "<" (escapeHtml "<iframe src=x>") = false.
Proof. split; [by left|]. apply escapeHtml_safe. by left. Defined.
