(* ===== verification/Debounce.v ===== *)
(** * The change streamer: [debounce] (extension.ts:260-266) on Node's timers

    [debounce(fn, delayMs)] returns a function that keeps the handle of
    its last timer in a captured variable: each call clears that timer and
    sets a new one, so only the last call of a burst runs [fn].  The
    extension wraps [sendUpdate] with it (lines 66-77), calls it once at
    creation (line 80) and on every change of the document (lines 82-85).

    Node's timers are modelled by [TimerQueue]: a clock in milliseconds,
    the next handle, and the pending timers in insertion order.
    [setTimeout] normalises its delay as Node does (a delay outside
    [1, 2^31-1] becomes 1 ms), [clearTimeout] removes a handle (a handle
    already fired or cleared is ignored), and [pop_due] takes the timer due
    first, the earliest set among equal deadlines.

    [Stream] isolates one session's streamer: the debounced send of one
    document, its current text and version, and the snapshots posted.
    Its theorems are the spec's streaming properties (section 8). *)

From S2P Require Import Prelude.

Local Open Scope Z_scope.

(** ** Node's timers *)

Section Timers.
Context {A : Type}.

Record Timer := mkTimer {
  tm_id : nat;
  tm_due : Z;
  tm_cb : A
}.

Record TimerQueue := mkQueue {
  q_now : Z;
  q_next : nat;
  q_timers : list Timer
}.

Definition TIMEOUT_MAX : Z := 2 ^ 31 - 1.

(** [after *= 1; if (!(after >= 1 && after <= TIMEOUT_MAX)) after = 1]. *)
Definition timer_delay (after : Z) : Z :=
  if (1 <=? after) && (after <=? TIMEOUT_MAX) then after else 1.

Definition setTimeout (q : TimerQueue) (cb : A) (after : Z) : nat * TimerQueue :=
  (q_next q,
   mkQueue (q_now q) (S (q_next q))
     (q_timers q ++ [mkTimer (q_next q) (q_now q + timer_delay after) cb])).

Definition clearTimeout (q : TimerQueue) (h : nat) : TimerQueue :=
  mkQueue (q_now q) (q_next q) (filter (fun t => tm_id t <> h) (q_timers q)).

(** The pending timer due first; among equal deadlines the one set first. *)
Fixpoint earliest (ts : list Timer) : option Timer :=
  match ts with
  | [] => None
  | t :: rest =>
      match earliest rest with
      | Some t' => if (tm_due t' <? tm_due t)%Z then Some t' else Some t
      | None => Some t
      end
  end.

(** Fire the first timer due at or before [t]: the clock moves to its
    deadline and the timer leaves the queue. *)
Definition pop_due (t : Z) (q : TimerQueue) : option (Timer * TimerQueue) :=
  match earliest (q_timers q) with
  | Some tm =>
      if (tm_due tm <=? t)%Z then
        Some (tm, mkQueue (Z.max (q_now q) (tm_due tm)) (q_next q)
                    (filter (fun x => tm_id x <> tm_id tm) (q_timers q)))
      else None
  | None => None
  end.

(** Let the clock run to the next deadline and fire that timer. *)
Definition pop_next (q : TimerQueue) : option (Timer * TimerQueue) :=
  match earliest (q_timers q) with
  | Some tm => pop_due (tm_due tm) q
  | None => None
  end.

(** [let timer; return (...args) => { if (timer) clearTimeout(timer);
    timer = setTimeout(() => fn.apply(this, args), delayMs); }]: one call
    of the debounced function, given its captured [timer]. *)
Definition debounce_call (timer : option nat) (q : TimerQueue) (cb : A) (delayMs : Z)
    : option nat * TimerQueue :=
  let q1 := match timer with Some h => clearTimeout q h | None => q end in
  let '(h, q2) := setTimeout q1 cb delayMs in
  (Some h, q2).
End Timers.

Arguments Timer : clear implicits.
Arguments TimerQueue : clear implicits.

(** ** One document's streamer *)

(** The document as [sendUpdate] reads it when the timer fires. *)
Record DocState := mkDocState {
  doc_text : string;
  doc_version : Z
}.

Record Stream := mkStream {
  st_queue : TimerQueue unit;
  st_timer : option nat;     (** the debounce closure's [timer] *)
  st_delay : Z;              (** [debounceMs] *)
  st_doc : DocState;         (** the document now *)
  st_sent : list DocState    (** the snapshots posted, oldest first *)
}.

Definition set_queue (st : Stream) (q : TimerQueue unit) : Stream :=
  mkStream q (st_timer st) (st_delay st) (st_doc st) (st_sent st).

(** The timer's callback: post the current text and version. *)
Definition fire (st : Stream) (q : TimerQueue unit) : Stream :=
  mkStream q (st_timer st) (st_delay st) (st_doc st) (st_sent st ++ [st_doc st]).

(** Let the clock run to [t], firing every timer due by then. *)
Fixpoint run_until (fuel : nat) (t : Z) (st : Stream) : Stream :=
  match fuel with
  | O => st
  | S f =>
      match pop_due t (st_queue st) with
      | Some (_, q) => run_until f t (fire st q)
      | None => st
      end
  end.

Definition advance (t : Z) (st : Stream) : Stream :=
  let st' := run_until (length (q_timers (st_queue st))) t st in
  let q := st_queue st' in
  set_queue st' (mkQueue (Z.max (q_now q) t) (q_next q) (q_timers q)).

(** [sendUpdate()]: the debounced call. *)
Definition sendUpdate (st : Stream) : Stream :=
  let '(timer, q) := debounce_call (st_timer st) (st_queue st) tt (st_delay st) in
  mkStream q timer (st_delay st) (st_doc st) (st_sent st).

(** A change notification at time [t] carrying the document's new state. *)
Definition on_change (t : Z) (d : DocState) (st : Stream) : Stream :=
  let st1 := advance t st in
  sendUpdate (mkStream (st_queue st1) (st_timer st1) (st_delay st1) d (st_sent st1)).

Fixpoint on_changes (evs : list (Z * DocState)) (st : Stream) : Stream :=
  match evs with
  | [] => st
  | (t, d) :: rest => on_changes rest (on_change t d st)
  end.

(** Wait until every pending timer has fired. *)
Definition flush (st : Stream) : Stream :=
  run_until (length (q_timers (st_queue st))) (q_now (st_queue st) + TIMEOUT_MAX) st.

(** The streamer of a session just opened at time [now]: the initial
    [sendUpdate()] of line 80 is already scheduled. *)
Definition stream_open (now : Z) (delayMs : Z) (d : DocState) : Stream :=
  sendUpdate (mkStream (mkQueue now 0 []) None delayMs d []).

(** ** Lemmas: the streamer has at most one pending timer *)

(** No send is pending. *)
Definition quiet (st : Stream) : Prop := q_timers (st_queue st) = [].

(** One send is pending, due at [due], and the closure holds its handle. *)
Definition pending (st : Stream) (due : Z) : Prop :=
  exists h, q_timers (st_queue st) = [mkTimer h due tt] /\ st_timer st = Some h.

Definition at_most_one (st : Stream) : Prop := quiet st \/ exists due, pending st due.

Lemma timer_delay_bounds a : 1 <= timer_delay a <= TIMEOUT_MAX.
Proof.
  unfold timer_delay, TIMEOUT_MAX.
  destruct (Z.leb_spec 1 a), (Z.leb_spec a (2 ^ 31 - 1)); simpl; lia.
Qed.

Lemma sendUpdate_pending st :
  at_most_one st ->
  pending (sendUpdate st) (q_now (st_queue st) + timer_delay (st_delay st)) /\
  q_now (st_queue (sendUpdate st)) = q_now (st_queue st) /\
  st_doc (sendUpdate st) = st_doc st /\ st_sent (sendUpdate st) = st_sent st /\
  st_delay (sendUpdate st) = st_delay st.
Proof.
  destruct st as [[now nxt ts] timer delay doc sent].
  unfold at_most_one, quiet, pending, sendUpdate, debounce_call; simpl.
  intros [->|(due & h & -> & ->)]; simpl.
  - destruct timer; simpl; split_and!; eauto.
  - rewrite filter_cons_False by (simpl; auto). simpl. split_and!; eauto.
Qed.

Lemma advance_before st due t :
  pending st due -> t < due ->
  advance t st = set_queue st (mkQueue (Z.max (q_now (st_queue st)) t) (q_next (st_queue st))
                                 (q_timers (st_queue st))).
Proof.
  intros (h & Hq & Ht) Hlt. unfold advance. rewrite Hq. simpl.
  unfold pop_due. rewrite Hq. simpl. destruct (Z.leb_spec due t); [lia|]. simpl. by rewrite Hq.
Qed.

Lemma advance_quiet st t :
  quiet st ->
  advance t st = set_queue st (mkQueue (Z.max (q_now (st_queue st)) t) (q_next (st_queue st)) []).
Proof. unfold quiet, advance. intros Hq. rewrite Hq. simpl. by rewrite <- Hq. Qed.

Lemma advance_due st due t :
  pending st due -> due <= t ->
  advance t st = set_queue (fire st (mkQueue (Z.max (q_now (st_queue st)) due) (q_next (st_queue st)) []))
                   (mkQueue (Z.max (Z.max (q_now (st_queue st)) due) t) (q_next (st_queue st)) []).
Proof.
  intros (h & Hq & Ht) Hle. unfold advance. rewrite Hq. simpl.
  unfold pop_due. rewrite Hq. simpl. destruct (Z.leb_spec due t); [|lia].
  simpl. by rewrite filter_cons_False by (simpl; auto).
Qed.

#[export] Hint Unfold quiet pending at_most_one : yp.

(** A change within the pending window restarts it and sends nothing. *)
Lemma on_change_within st due t d :
  pending st due -> q_now (st_queue st) <= t < due ->
  pending (on_change t d st) (t + timer_delay (st_delay st)) /\
  q_now (st_queue (on_change t d st)) = t /\ st_doc (on_change t d st) = d /\
  st_sent (on_change t d st) = st_sent st /\ st_delay (on_change t d st) = st_delay st.
Proof.
  intros Hp Ht. unfold on_change. rewrite (advance_before st due) by (done || lia).
  destruct (sendUpdate_pending (mkStream (mkQueue (Z.max (q_now (st_queue st)) t)
      (q_next (st_queue st)) (q_timers (st_queue st))) (st_timer st) (st_delay st) d (st_sent st)))
    as (Hp' & Hn & Hd & Hs & Hl); [right; destruct Hp as (h & Hq & Hh); exists due, h; done|].
  simpl in *. replace (Z.max (q_now (st_queue st)) t) with t in * by lia. auto.
Qed.

(** A change with no send pending schedules one and sends nothing. *)
Lemma on_change_quiet st t d :
  quiet st -> q_now (st_queue st) <= t ->
  pending (on_change t d st) (t + timer_delay (st_delay st)) /\
  q_now (st_queue (on_change t d st)) = t /\ st_doc (on_change t d st) = d /\
  st_sent (on_change t d st) = st_sent st /\ st_delay (on_change t d st) = st_delay st.
Proof.
  intros Hq Ht. unfold on_change. rewrite advance_quiet by done.
  destruct (sendUpdate_pending (mkStream (mkQueue (Z.max (q_now (st_queue st)) t)
      (q_next (st_queue st)) []) (st_timer st) (st_delay st) d (st_sent st)))
    as (Hp' & Hn & Hd & Hs & Hl); [by left|].
  simpl in *. replace (Z.max (q_now (st_queue st)) t) with t in * by lia. auto.
Qed.

(** A change after the pending send's deadline: that send fires first,
    with the document as it was, then a new one is scheduled. *)
Lemma on_change_after st due t d :
  pending st due -> q_now (st_queue st) <= due <= t ->
  pending (on_change t d st) (t + timer_delay (st_delay st)) /\
  q_now (st_queue (on_change t d st)) = t /\ st_doc (on_change t d st) = d /\
  st_sent (on_change t d st) = st_sent st ++ [st_doc st] /\ st_delay (on_change t d st) = st_delay st.
Proof.
  intros Hp Ht. unfold on_change. rewrite (advance_due st due) by (done || lia).
  match goal with |- context [sendUpdate ?s] =>
    destruct (sendUpdate_pending s) as (Hp' & Hn & Hd & Hs & Hl); [by left|] end.
  simpl in *. replace (Z.max (Z.max (q_now (st_queue st)) due) t) with t in * by lia. auto.
Qed.

Lemma flush_pending st due :
  pending st due -> q_now (st_queue st) <= due <= q_now (st_queue st) + TIMEOUT_MAX ->
  st_sent (flush st) = st_sent st ++ [st_doc st].
Proof.
  intros (h & Hq & Hh) Hd. unfold flush. rewrite Hq. simpl.
  unfold pop_due. rewrite Hq. simpl.
  destruct (Z.leb_spec due (q_now (st_queue st) + TIMEOUT_MAX)); [|lia]. done.
Qed.

(** ** The streaming theorems *)

(** The times of a burst: each notification no earlier than the one
    before and within [D] of it. *)
Fixpoint burst_within (D t : Z) (evs : list (Z * DocState)) : Prop :=
  match evs with
  | [] => True
  | (t', _) :: rest => t <= t' < t + D /\ burst_within D t' rest
  end.

Lemma burst_invariant evs st :
  pending st (q_now (st_queue st) + timer_delay (st_delay st)) ->
  burst_within (timer_delay (st_delay st)) (q_now (st_queue st)) evs ->
  pending (on_changes evs st) (q_now (st_queue (on_changes evs st)) + timer_delay (st_delay st)) /\
  st_sent (on_changes evs st) = st_sent st /\
  st_doc (on_changes evs st) = List.last (map snd evs) (st_doc st) /\
  st_delay (on_changes evs st) = st_delay st.
Proof.
  revert st. induction evs as [|[t d] evs IH]; intros st Hp Hb; [simpl; done|].
  cbn [on_changes map]. destruct Hb as [Ht Hb].
  destruct (on_change_within st _ t d Hp ltac:(lia)) as (Hp' & Hn & Hd & Hs & Hl).
  set (st' := on_change t d st) in *.
  assert (pending st' (q_now (st_queue st') + timer_delay (st_delay st'))) as Hp2
    by (by rewrite Hn, Hl).
  assert (burst_within (timer_delay (st_delay st')) (q_now (st_queue st')) evs) as Hb2
    by (by rewrite Hn, Hl).
  destruct (IH _ Hp2 Hb2) as (Hp'' & Hs' & Hd' & Hl').
  rewrite Hl in Hp'', Hl'. rewrite Hs', Hs, Hd', Hd, Hl'. split_and!; try done.
  by rewrite last_cons_default.
Qed.

(** The snapshots a burst started with no send pending leaves once the
    timers have run. *)
Lemma burst_flush_sent st t1 d1 rest :
  quiet st -> q_now (st_queue st) <= t1 ->
  burst_within (timer_delay (st_delay st)) t1 rest ->
  st_sent (flush (on_changes ((t1, d1) :: rest) st)) = st_sent st ++ [List.last (map snd rest) d1].
Proof.
  intros Hq Ht Hb. simpl.
  destruct (on_change_quiet st t1 d1 Hq Ht) as (Hp & Hn & Hd & Hs & Hl).
  set (st' := on_change t1 d1 st) in *.
  assert (pending st' (q_now (st_queue st') + timer_delay (st_delay st'))) as Hp2
    by (by rewrite Hn, Hl).
  assert (burst_within (timer_delay (st_delay st')) (q_now (st_queue st')) rest) as Hb2
    by (by rewrite Hn, Hl).
  destruct (burst_invariant rest _ Hp2 Hb2) as (Hp' & Hs' & Hd' & Hl').
  pose proof (timer_delay_bounds (st_delay st')).
  rewrite (flush_pending _ _ Hp') by lia. by rewrite Hs', Hs, Hd', Hd.
Qed.

(** C9: a burst of change notifications, each within [debounceMs] of the
    one before, starting when no send is pending, produces exactly one
    snapshot once the timers have run, and it carries the document state
    of the last notification (spec section 8). *)
Theorem burst_sends_last st t1 d1 rest :
  quiet st -> q_now (st_queue st) <= t1 ->
  burst_within (timer_delay (st_delay st)) t1 rest ->
  st_sent (flush (on_changes ((t1, d1) :: rest) st)) = st_sent st ++ [List.last (map snd rest) d1].
Proof. apply burst_flush_sent. Qed.

(** C28: two notifications at least the debounce window apart produce two
    snapshots, the document state at each (spec section 8). *)
Theorem spaced_sends_both st t1 d1 t2 d2 :
  quiet st -> q_now (st_queue st) <= t1 -> t1 + timer_delay (st_delay st) <= t2 ->
  st_sent (flush (on_changes [(t1, d1); (t2, d2)] st)) = st_sent st ++ [d1; d2].
Proof.
  intros Hq Ht1 Ht2. simpl.
  destruct (on_change_quiet st t1 d1 Hq Ht1) as (Hp & Hn & Hd & Hs & Hl).
  destruct (on_change_after _ _ t2 d2 Hp ltac:(pose proof (timer_delay_bounds (st_delay st)); lia))
    as (Hp' & Hn' & Hd' & Hs' & Hl').
  pose proof (timer_delay_bounds (st_delay (on_change t1 d1 st))).
  rewrite (flush_pending _ _ Hp') by lia.
  rewrite Hs', Hs, Hd', Hd. by rewrite <- app_assoc.
Qed.

Lemma advance_at_most_one st t :
  at_most_one st -> at_most_one (advance t st).
Proof.
  intros [Hq|[due Hp]].
  - left. rewrite advance_quiet by done. done.
  - destruct (Z.lt_ge_cases t due).
    + right. exists due. rewrite (advance_before _ due) by done.
      destruct Hp as (h & Hq & Hh). by exists h.
    + left. by rewrite (advance_due _ due).
Qed.

Lemma on_change_at_most_one st t d :
  at_most_one st -> at_most_one (on_change t d st).
Proof.
  intros H. unfold on_change. right. eexists. apply sendUpdate_pending.
  by apply advance_at_most_one.
Qed.

Lemma on_changes_at_most_one evs st : at_most_one st -> at_most_one (on_changes evs st).
Proof.
  revert st. induction evs as [|[t d] evs IH]; intros st Hst; simpl; [done|].
  by apply IH, on_change_at_most_one.
Qed.

(** C29: the streamer never has more than one send pending: from the
    session's opening through any sequence of change notifications, the
    timer queue holds at most one timer, and it is the one whose handle the
    debounce closure keeps (so the next call cancels it). *)
Theorem stream_at_most_one_timer now delayMs d evs :
  at_most_one (on_changes evs (stream_open now delayMs d)).
Proof.
  apply on_changes_at_most_one. unfold stream_open. right. eexists. apply sendUpdate_pending. by left.
Qed.


(** ** Termination: the fuel of [run_until] is enough *)

Lemma earliest_in {A} (ts : list (Timer A)) tm : earliest ts = Some tm -> In tm ts.
Proof.
  induction ts as [|t ts IH]; simpl; [done|].
  destruct (earliest ts) as [t'|]; [case_match|]; intros [= <-]; auto.
Qed.

(** Each timer that fires leaves the queue. *)
Lemma pop_due_shrinks {A} t (q : TimerQueue A) tm q' :
  pop_due t q = Some (tm, q') -> (length (q_timers q') < length (q_timers q))%nat.
Proof.
  unfold pop_due. destruct (earliest (q_timers q)) as [tm0|] eqn:He; [|done].
  case_match; [|done]. intros [= <- <-]. simpl.
  apply (length_filter_lt _ _ tm0); [apply list_elem_of_In; by apply earliest_in|].
  by intros ?.
Qed.

(** [run_until] stops with no timer due: given at least as much fuel as
    there are pending timers, the loop fires every timer due by [t]. *)
Lemma run_until_no_due fuel t st :
  (length (q_timers (st_queue st)) <= fuel)%nat -> pop_due t (st_queue (run_until fuel t st)) = None.
Proof.
  revert st. induction fuel as [|f IH]; intros st Hf; simpl.
  - destruct (q_timers (st_queue st)) eqn:Hq; [|simpl in Hf; lia].
    unfold pop_due. by rewrite Hq.
  - destruct (pop_due t (st_queue st)) as [[tm q]|] eqn:Hp; [|done].
    apply IH. simpl. apply pop_due_shrinks in Hp. lia.
Qed.

(** Whether a timer is due does not depend on the clock. *)
Lemma pop_due_now {A} t n n' nx (ts : list (Timer A)) :
  pop_due t (mkQueue n nx ts) = None -> pop_due t (mkQueue n' nx ts) = None.
Proof. unfold pop_due. simpl. destruct (earliest ts); [case_match|]; done. Qed.


(** ** The queue's handles are unique *)

(** Two pending timers with one handle are one timer, and every handle
    is below the next one [setTimeout] returns. *)
Definition q_ok {A} (q : TimerQueue A) : Prop :=
  (forall t1 t2, In t1 (q_timers q) -> In t2 (q_timers q) -> tm_id t1 = tm_id t2 -> t1 = t2) /\
  (forall t, In t (q_timers q) -> (tm_id t < q_next q)%nat).

Section Handles.
Context {A : Type}.
Implicit Types (q : TimerQueue A).

Lemma q_ok_filter q P `{!forall x, Decision (P x)} :
  q_ok q -> q_ok (mkQueue (q_now q) (q_next q) (filter P (q_timers q))).
Proof.
  intros [Hi Hn]. split; simpl.
  - intros t1 t2 H1%list_elem_of_In H2%list_elem_of_In.
    apply list_elem_of_filter in H1 as [_ H1%list_elem_of_In], H2 as [_ H2%list_elem_of_In]. by apply Hi.
  - intros t Ht%list_elem_of_In. apply list_elem_of_filter in Ht as [_ Ht%list_elem_of_In]. by apply Hn.
Qed.

Lemma setTimeout_ok q cb after : q_ok q -> q_ok (setTimeout q cb after).2.
Proof.
  intros [Hi Hn]. split; simpl.
  - intros t1 t2 [H1|[<-|[]]]%in_app_or [H2|[<-|[]]]%in_app_or; simpl; [by apply Hi| | |done];
      [intros Heq; specialize (Hn _ H1)|intros Heq; specialize (Hn _ H2)]; lia.
  - intros t [Ht|[<-|[]]]%in_app_or; simpl; [specialize (Hn _ Ht)|]; lia.
Qed.

Lemma clearTimeout_ok q h : q_ok q -> q_ok (clearTimeout q h).
Proof. apply q_ok_filter. Qed.

Lemma debounce_call_ok timer q cb delayMs : q_ok q -> q_ok (debounce_call timer q cb delayMs).2.
Proof.
  intros Hq. unfold debounce_call.
  assert (q_ok (match timer with Some h => clearTimeout q h | None => q end)) as H1
    by (destruct timer; [by apply clearTimeout_ok|done]).
  pose proof (setTimeout_ok _ cb delayMs H1). by destruct (setTimeout _ _ _).
Qed.

Lemma pop_due_ok t q tm q' : q_ok q -> pop_due t q = Some (tm, q') -> q_ok q'.
Proof.
  intros Hq. unfold pop_due. case_match; [|done]. case_match; [|done]. intros [= _ <-].
  destruct (q_ok_filter q (fun x => tm_id x <> tm_id t0) Hq) as [Hi Hn]. split; [exact Hi|exact Hn].
Qed.

(** A pending timer that leaves the queue when a timer fires is the one
    that fired. *)
Lemma pop_due_gone t q tm q' x :
  q_ok q -> pop_due t q = Some (tm, q') -> In x (q_timers q) ->
  x = tm \/ In x (q_timers q').
Proof.
  intros [Hi _]. unfold pop_due. destruct (earliest (q_timers q)) as [tm0|] eqn:He; [|done].
  case_match; [|done]. intros [= <- <-] Hx. simpl.
  destruct (decide (tm_id x = tm_id tm0)) as [Heq|Hne].
  - left. apply Hi; [done|by apply earliest_in|done].
  - right. apply list_elem_of_In, list_elem_of_filter. split; [done|by apply list_elem_of_In].
Qed.

End Handles.

(** ** Renaming the callbacks of a queue

    The world keeps one queue for all sessions, each timer's callback
    naming its session; a single session's streamer has [unit] callbacks.
    [qmap] renames the callbacks; every operation on the queue commutes
    with it. *)

Section Map.
Context {A B : Type} (f : A -> B).

Definition tmap (tm : Timer A) : Timer B := mkTimer (tm_id tm) (tm_due tm) (f (tm_cb tm)).

Definition qmap (q : TimerQueue A) : TimerQueue B := mkQueue (q_now q) (q_next q) (map tmap (q_timers q)).

Lemma earliest_map ts : earliest (map tmap ts) = tmap <$> earliest ts.
Proof.
  induction ts as [|t ts IH]; [done|]. simpl. rewrite IH.
  destruct (earliest ts) as [t'|]; simpl; [|done]. by case_match.
Qed.

Lemma filter_id_map h ts :
  filter (fun x => tm_id x <> h) (map tmap ts) = map tmap (filter (fun x => tm_id x <> h) ts).
Proof.
  induction ts as [|t ts IH]; [done|]. simpl. rewrite !filter_cons. simpl.
  case_decide; simpl; by rewrite IH.
Qed.

Lemma pop_due_map t q :
  pop_due t (qmap q) = (fun p => (tmap p.1, qmap p.2)) <$> pop_due t q.
Proof.
  unfold pop_due, qmap. simpl. rewrite earliest_map.
  destruct (earliest (q_timers q)) as [tm|]; simpl; [|done].
  case_match; simpl; [|done]. by rewrite filter_id_map.
Qed.

Lemma clearTimeout_map q h : clearTimeout (qmap q) h = qmap (clearTimeout q h).
Proof. unfold clearTimeout, qmap. simpl. by rewrite filter_id_map. Qed.

Lemma setTimeout_map q cb d :
  setTimeout (qmap q) (f cb) d = ((setTimeout q cb d).1, qmap (setTimeout q cb d).2).
Proof. unfold setTimeout, qmap. simpl. by rewrite map_app. Qed.

Lemma debounce_call_map timer q cb d :
  debounce_call timer (qmap q) (f cb) d = ((debounce_call timer q cb d).1, qmap (debounce_call timer q cb d).2).
Proof.
  unfold debounce_call.
  replace (match timer with Some h => clearTimeout (qmap q) h | None => qmap q end)
    with (qmap (match timer with Some h => clearTimeout q h | None => q end))
    by (destruct timer; [by rewrite clearTimeout_map|done]).
  by rewrite setTimeout_map.
Qed.

End Map.

(** No timer due by [t]: every pending deadline is after [t]. *)
Lemma earliest_min {A} (ts : list (Timer A)) tm x :
  earliest ts = Some tm -> In x ts -> (tm_due tm <= tm_due x)%Z.
Proof.
  revert tm. induction ts as [|t ts IH]; intros tm; simpl; [done|].
  destruct (earliest ts) as [t'|] eqn:He.
  - pose proof (IH t' eq_refl) as Ht'.
    destruct (Z.ltb_spec (tm_due t') (tm_due t)); intros [= <-] [<-|Hx];
      try specialize (Ht' Hx); lia.
  - intros [= <-] [<-|Hx]; [lia|]. by destruct ts; [|simpl in He; destruct (earliest ts); [case_match|]].
Qed.

Lemma pop_due_none_after {A} t (q : TimerQueue A) :
  pop_due t q = None -> Forall (fun tm => (t < tm_due tm)%Z) (q_timers q).
Proof.
  unfold pop_due. destruct (earliest (q_timers q)) as [tm|] eqn:He.
  - destruct (Z.leb_spec (tm_due tm) t); [done|]. intros _.
    apply Forall_forall. intros x Hx%list_elem_of_In. pose proof (earliest_min _ _ _ He Hx). lia.
  - intros _. destruct (q_timers q) as [|t0 ts]; [constructor|].
    simpl in He. destruct (earliest ts); [case_match|]; discriminate.
Qed.

(** ** The theorems at a concrete stream *)

(** A session opened at time 0 with a 300 ms window, its initial snapshot
    already sent. *)
Definition sample_stream : Stream := flush (stream_open 0 300 (mkDocState "a: 0" 1)).

Lemma burst_sends_last_witness :
  quiet sample_stream /\ q_now (st_queue sample_stream) <= 1000 /\
  burst_within (timer_delay (st_delay sample_stream)) 1000
    [(1100, mkDocState "a: 2" 3); (1399, mkDocState "a: 3" 4)] /\
  st_sent (flush (on_changes [(1000, mkDocState "a: 1" 2); (1100, mkDocState "a: 2" 3);
                              (1399, mkDocState "a: 3" 4)] sample_stream)) =
    st_sent sample_stream ++ [mkDocState "a: 3" 4].
Proof.
  assert (timer_delay (st_delay sample_stream) = 300) as Hd by reflexivity.
  assert (q_now (st_queue sample_stream) <= 1000) as Hn by (vm_compute; discriminate).
  assert (burst_within (timer_delay (st_delay sample_stream)) 1000
            [(1100, mkDocState "a: 2" 3); (1399, mkDocState "a: 3" 4)]) as Hb
    by (rewrite Hd; simpl; lia).
  split_and!; [reflexivity|exact Hn|exact Hb|]. by apply burst_sends_last.
Defined.

Lemma spaced_sends_both_witness :
  quiet sample_stream /\ q_now (st_queue sample_stream) <= 1000 /\
  1000 + timer_delay (st_delay sample_stream) <= 1300 /\
  st_sent (flush (on_changes [(1000, mkDocState "a: 1" 2); (1300, mkDocState "a: 2" 3)] sample_stream)) =
    st_sent sample_stream ++ [mkDocState "a: 1" 2; mkDocState "a: 2" 3].
Proof.
  assert (q_now (st_queue sample_stream) <= 1000) as Hn by (vm_compute; discriminate).
  assert (1000 + timer_delay (st_delay sample_stream) <= 1300) as Hs by (vm_compute; discriminate).
  split_and!; [reflexivity|exact Hn|exact Hs|]. by apply spaced_sends_both.
Defined.
