(* ===== verification/DemoServer.v ===== *)
(** * The ephemeral demo server: [startDemoServer] (extension.ts:221-258)

    The server answers every request with [handle_request]: the path is
    the request URL before its first [?] ([/] when the URL is missing or
    empty); any path other than [/] and [/index.html] gets 404, and those
    two get the demo file as read at that request (200) or, when the read
    fails, 500.  The file is read again on every request: [handle_request]
    takes the outcome of that read as an argument.

    Starting the server is asynchronous: [listen(0, "127.0.0.1")] later
    succeeds with a kernel-chosen port or fails.  [start_outcome] is what
    the awaited [startDemoServer] then returns or throws, given how the bind
    ended; [demo_url] is the address it reports. *)

From S2P Require Import Prelude Url Origin Host Resolver.

(** ** Requests and responses *)

Record Response := mkResponse {
  res_status : N;
  res_headers : list (string * string);
  res_body : string
}.

(** [req.url ? req.url.split("?")[0] : "/"]: a missing or empty URL is
    falsy. *)
Definition url_path (url : option string) : string :=
  match url with
  | Some u => if String.eqb u EmptyString then "/" else before_char "?" u
  | None => "/"
  end.

(** Lines 226-242; [readFile] is the outcome of [fs.readFile(demoPath)] at
    this request. *)
Definition handle_request (url : option string) (readFile : Res string) : Response :=
  let urlPath := url_path url in
  if negb (String.eqb urlPath "/") && negb (String.eqb urlPath "/index.html") then
    mkResponse 404 [] "Not Found"
  else
    match readFile with
    | Ok html => mkResponse 200 [("Content-Type", "text/html; charset=utf-8")] html
    | Throw _ => mkResponse 500 [] "Failed to load demo"
    end.

(** [demoFile] (line 224): the demo page inside the extension;
    [demoFile.fsPath] is the path itself in this model of URIs. *)
Definition demoFile (context : ExtensionContext) : string :=
  joinPath (extensionUri context) ["src"; "demo"; "index.html"].

(** The server [http.createServer] builds (lines 221-242): each request
    reads [demoPath] anew through [fs], the file system at that moment. *)
Definition demo_server (fs : string -> Res string) (context : ExtensionContext) (url : option string)
    : Response :=
  handle_request url (fs (demoFile context)).

(** ** Starting the server *)

(** How [listen(0, "127.0.0.1")] ends: bound to a port (and [address()]
    then reports it, or reports nothing), or an [error] event. *)
Inductive BindOutcome :=
  | Bound (port : N)
  | BoundNoAddress
  | BindError (msg : string).

(** [`http://127.0.0.1:${addr.port}/index.html`]. *)
Definition demo_url (port : N) : string :=
  "http://127.0.0.1:" +:+ show_N port +:+ "/index.html".

(** What the awaited [startDemoServer] yields (lines 244-257): the server's
    port and URL, or the exception (with no address the server is closed
    before the throw). *)
Definition start_outcome (b : BindOutcome) : Res (N * string) :=
  match b with
  | Bound port => Ok (port, demo_url port)
  | BoundNoAddress => Throw "Demo server failed to bind"
  | BindError msg => Throw msg
  end.

(** Whether the server is left listening after [startDemoServer] ends. *)
Definition start_leaves_listening (b : BindOutcome) : bool :=
  match b with Bound _ => true | _ => false end.

(** ** Routing *)

(** C33: the query string is ignored: a request for [u?q], where [u] is
    a non-empty path without [?], is answered as the request for [u]
    (spec section 4.3, [/index.html?v=2] serves the demo page). *)
Theorem handle_request_ignores_query u q readFile :
  u <> EmptyString -> has_char "?" u = false ->
  handle_request (Some (u +:+ "?" +:+ q)) readFile = handle_request (Some u) readFile.
Proof.
  intros Hu Hq.
  assert (before_char "?" u = u) as Hb.
  { rewrite <- (sapp_nil_r u) at 1. rewrite before_char_skip by done. apply sapp_nil_r. }
  assert (before_char "?" (u +:+ "?" +:+ q) = u) as Hb'.
  { rewrite before_char_skip by done. simpl. rewrite ?decide_True by done. apply sapp_nil_r. }
  assert (String.eqb u EmptyString = false) as Hu' by (by apply String.eqb_neq).
  assert (String.eqb (u +:+ "?" +:+ q) EmptyString = false) as Hu''.
  { apply String.eqb_neq. destruct u; [done|discriminate]. }
  unfold handle_request, url_path. by rewrite Hu', Hu'', Hb, Hb'.
Qed.

Lemma handle_request_ignores_query_witness :
  "/index.html" <> EmptyString /\ has_char "?" "/index.html" = false /\
  handle_request (Some ("/index.html" +:+ "?" +:+ "v=2")) (Ok "<p>demo</p>") =
    handle_request (Some "/index.html") (Ok "<p>demo</p>").
Proof.
  split; [discriminate|]. split; [reflexivity|].
  apply handle_request_ignores_query; [discriminate|reflexivity].
Defined.


(** ** The address the server reports *)

(** C35: the address [startDemoServer] reports parses, with the WHATWG
    parser, to the loopback host and the bound port ([None] for port 80,
    the default of [http]), so its origin is [http://127.0.0.1:<port>]:
    the origin the resolver pins the relay to (spec section 8). *)
Theorem demo_url_parse port :
  (port <= 65535)%N ->
  Whatwg.parse (demo_url port) =
    Some (mkUrl "http" "127.0.0.1" (if decide (port = 80%N) then None else Some port) "/index.html") /\
  origin (mkUrl "http" "127.0.0.1" (if decide (port = 80%N) then None else Some port) "/index.html") =
    "http://127.0.0.1" +:+ (if decide (port = 80%N) then EmptyString else ":" +:+ show_N port).
Proof.
  intros Hp.
  assert (all_chars auth_char (show_N port) = true) as Ha
    by exact (all_chars_impl _ _ _ is_digit_auth (show_N_digits port)).
  split.
  - unfold Whatwg.parse, demo_url.
    rewrite strip_c0_visible, remove_tab_newline_visible.
    2, 3: rewrite !all_chars_app, (all_chars_impl _ _ _ auth_visible Ha); reflexivity.
    change ("http://127.0.0.1:" +:+ show_N port +:+ "/index.html")
      with ("http" +:+ String ":" ("//" +:+ "127.0.0.1:" +:+ show_N port +:+ String "/" "index.html")).
    rewrite scheme_start_read by reflexivity.
    change (is_special "http") with true. change (String.eqb "http" "file") with false.
    cbn iota beta. rewrite skip_slashes_lead by reflexivity.
    change ("127.0.0.1:" +:+ show_N port +:+ String "/" "index.html")
      with (("127.0.0.1:" +:+ show_N port) +:+ String "/" "index.html").
    rewrite split_authority_slash by (rewrite all_chars_app, Ha; reflexivity).
    rewrite after_last_at_all by (rewrite all_chars_app, Ha; reflexivity).
    change (EmptyString +:+ "127.0.0.1:" +:+ show_N port) with ("127.0.0.1" +:+ String ":" (show_N port)).
    rewrite split_colon_port by reflexivity. cbn iota beta zeta.
    change (toLowerCase "127.0.0.1") with "127.0.0.1".
    change (String.eqb "127.0.0.1" EmptyString || negb (host_ok "127.0.0.1")) with false.
    cbn iota. rewrite parse_port_show by done.
    change (default_port "http") with (Some (Some 80%N)).
    destruct (decide (port = 80%N)) as [->|Hne]; [by rewrite decide_True|].
    rewrite decide_False; [done|]. intros [= <-]. done.
  - unfold origin. simpl. by case_decide.
Qed.

Lemma demo_url_parse_witness :
  (54321 <= 65535)%N /\
  Whatwg.parse (demo_url 54321) =
    Some (mkUrl "http" "127.0.0.1" (if decide (54321%N = 80%N) then None else Some 54321%N) "/index.html") /\
  origin (mkUrl "http" "127.0.0.1" (if decide (54321%N = 80%N) then None else Some 54321%N) "/index.html") =
    "http://127.0.0.1" +:+ (if decide (54321%N = 80%N) then EmptyString else ":" +:+ show_N 54321).
Proof. split; [lia|]. apply demo_url_parse. lia. Defined.

(** ** The served page is the bundled page *)

(** C37: the demo server and the bundled fallback show one file.  On its
    two page routes the demo server answers with the content of the file
    that the bundled fallback of [resolveAppSrc] loads through the
    webview (the same path, though the two calls spell it differently),
    and with 500 when reading it fails. *)
Theorem demo_server_serves_bundled_page webview fs context url :
  url_path url = "/" \/ url_path url = "/index.html" ->
  src (bundledAppSrc webview context) = asWebviewUri webview (demoFile context) /\
  demo_server fs context url =
    match fs (demoFile context) with
    | Ok html => mkResponse 200 [("Content-Type", "text/html; charset=utf-8")] html
    | Throw _ => mkResponse 500 [] "Failed to load demo"
    end.
Proof.
  intros Hu. split; [unfold bundledAppSrc, demoFile; simpl; by rewrite joinPath_demo_same|].
  unfold demo_server, handle_request.
  destruct Hu as [-> | ->]; reflexivity.
Qed.

Lemma demo_server_serves_bundled_page_witness :
  url_path (Some "/index.html?v=2") = "/index.html" /\
  src (bundledAppSrc sample_webview (mkContext "file:///ext")) =
    asWebviewUri sample_webview (demoFile (mkContext "file:///ext")) /\
  demo_server (fun p => if String.eqb p "/file:/ext/src/demo/index.html" then Ok "<p>demo</p>" else Throw "ENOENT")
    (mkContext "file:///ext") (Some "/index.html?v=2") =
    mkResponse 200 [("Content-Type", "text/html; charset=utf-8")] "<p>demo</p>".
Proof.
  split; [reflexivity|].
  exact (demo_server_serves_bundled_page sample_webview
           (fun p => if String.eqb p "/file:/ext/src/demo/index.html" then Ok "<p>demo</p>" else Throw "ENOENT")
           (mkContext "file:///ext") (Some "/index.html?v=2") (or_intror eq_refl)).
Defined.
