(* ===== verification/Webview.v ===== *)
(** * The embedding policy builder: [getWebviewHtml] and [getNonce]
    (extension.ts:143-219 and 268-273)

    [getWebviewHtml] asks the resolver for the frame address, the
    [frame-src] value and the target origin, mints a nonce, and fills the
    page template: a Content-Security-Policy meta tag that allows only the
    nonce'd inline script and frames from the resolved origin, a status bar,
    the iframe, and the relay script that forwards each [yaml:update]
    message to the iframe with [postMessage(msg, targetOrigin)].

    The template's static text is kept verbatim in [tpl0] .. [tpl9], the
    text between its nine interpolations.  Rocq string literals of this
    library hold no double quote, so the text is written with a backtick
    in place of each double quote (a JavaScript template literal cannot
    contain a backtick) and [q] puts the quotes back.  Strings are byte
    strings: the three non-ASCII characters of the status bar are their
    UTF-8 bytes.

    [Math.random()] is modelled by a sequence of draws [rand]: V8 returns a
    multiple of 2^-52 in [0, 1), given here by its numerator.  The index
    [Math.floor(Math.random() * 62)] is computed exactly; floating-point
    rounding of the product may move it up by one at a boundary but never
    to 62, since the exact product is at least 62 * 2^-52 below 62. *)

From S2P Require Import Prelude Url Host Resolver Escape.

Local Open Scope Z_scope.

(** ** [getNonce] *)

Definition possible : string :=
  "ABCDEFGHIJKLMNOPQRSTUVWXYZabcdefghijklmnopqrstuvwxyz0123456789".

(** [String.prototype.charAt]: the empty string out of range. *)
Definition charAt (s : string) (i : Z) : string :=
  if 0 <=? i then
    match String.get (Z.to_nat i) s with Some c => str1 c | None => EmptyString end
  else EmptyString.

Definition RANDOM_DENOM : Z := 2 ^ 52.

(** [Math.floor(Math.random() * len)] for the draw with numerator [m]. *)
Definition random_index (m len : Z) : Z := (m * len) / RANDOM_DENOM.

(** The loop body [text += possible.charAt(Math.floor(Math.random() *
    possible.length))], the [i]-th draw being [rand (draw + i)]. *)
Definition nonce_step (rand : nat -> Z) (draw : nat) (text : string) (i : nat) : string :=
  text +:+ charAt possible (random_index (rand (draw + i)%nat) (Z.of_nat (String.length possible))).

(** [let text = ""; for (let i = 0; i < 32; i++) ...; return text]. *)
Definition getNonce (rand : nat -> Z) (draw : nat) : string :=
  fold_left (nonce_step rand draw) (seq 0 32) EmptyString.

(** ** The page template *)

(** Put the double quotes back in a template piece. *)
Definition q (s : string) : string := replace_all_char BQ DQ s.

(** The UTF-8 bytes of the status bar's three non-ASCII characters
    (U+00E2, U+20AC, U+201D). *)
Definition em_dash_mojibake : string :=
  String "195" (String "162" (String "226" (String "130" (String "172"
    (String "226" (String "128" (String "157" EmptyString)))))))%char.

Definition tpl0 : string := q "<!DOCTYPE html>
<html lang=`en`>
<head>
  <meta charset=`UTF-8` />
  <meta http-equiv=`Content-Security-Policy`
    content=`
      default-src 'none';
      img-src ".

Definition tpl1 : string := q " https: data:;
      style-src 'unsafe-inline' ".

Definition tpl2 : string := q ";
      script-src 'nonce-".

Definition tpl3 : string := q "';
      frame-src ".

Definition tpl4 : string := q ";
    ` />
  <meta name=`viewport` content=`width=device-width, initial-scale=1.0` />
  <title>YAML Iframe Preview</title>
  <style>
    html, body { height: 100%; padding: 0; margin: 0; }
    .wrap { height: 100%; display: flex; flex-direction: column; }
    .bar {
      padding: 8px 10px;
      font-family: system-ui, -apple-system, Segoe UI, Roboto, sans-serif;
      font-size: 12px;
      border-bottom: 1px solid rgba(127,127,127,0.2);
      display: flex;
      gap: 10px;
      align-items: center;
      justify-content: space-between;
    }
    .muted { opacity: 0.75; }
    iframe { flex: 1; width: 100%; border: 0; }
    code { font-family: ui-monospace, SFMono-Regular, Menlo, Monaco, Consolas, monospace; }
  </style>
</head>
<body>
  <div class=`wrap`>
    <div class=`bar`>
      <div>
        <strong>Mode:</strong>
        <code>".

Definition tpl5 : string :=
  q "</code>
        <span class=`muted`>" +:+ em_dash_mojibake +:+ " ".

Definition tpl6 : string := q "</span>
      </div>
      <div class=`muted`>Forwarding YAML via <code>postMessage</code></div>
    </div>

    <iframe id=`app` src=`".

Definition tpl7 : string := q "`></iframe>
  </div>

  <script nonce=`".

Definition tpl8 : string := q "`>
    const iframe = document.getElementById('app');

    // Extension -> Webview: receive YAML updates
    window.addEventListener('message', (event) => {
      const msg = event.data;
      if (!msg || msg.type !== 'yaml:update') return;

      // Webview -> Iframe: forward YAML
      iframe?.contentWindow?.postMessage(msg, ".

Definition tpl9 : string := q ");
    });
  </script>
</body>
</html>".

(** Lines 143-219.  The nonce is minted first, then [resolveAppSrc] is
    called (it may throw), then the template is filled. *)
Definition getWebviewHtml `{URLParser} (rand : nat -> Z) (draw : nat) (webview : Webview)
    (context : ExtensionContext) (remoteUrl : string) (demoUrl : option string)
    (allowHttp : bool) : Res string :=
  let nonce := getNonce rand draw in
  app <- resolveAppSrc webview context remoteUrl demoUrl allowHttp ;;
  Ok (tpl0 +:+ cspSource webview +:+ tpl1 +:+ cspSource webview +:+ tpl2 +:+ nonce +:+
      tpl3 +:+ frameSrcCsp app +:+ tpl4 +:+
      escapeHtml (if isHttpsUrl remoteUrl then "remote" else "local") +:+ tpl5 +:+
      escapeHtml (if isHttpsUrl remoteUrl then remoteUrl else "src/demo/index.html") +:+ tpl6 +:+
      escapeHtml (src app) +:+ tpl7 +:+ nonce +:+ tpl8 +:+
      JSON_stringify (targetOrigin app) +:+ tpl9).

(** ** The nonce *)

Definition is_alnum (c : ascii) : bool := is_alpha c || is_digit c.

Lemma all_chars_get p s k c : String.get k s = Some c -> all_chars p s = true -> p c = true.
Proof.
  revert k. induction s as [|d s IH]; intros [|k]; simpl; try done.
  - intros [= ->] [? _]%andb_prop. done.
  - intros Hk [_ Hs]%andb_prop. exact (IH _ Hk Hs).
Qed.

(** [charAt] returns nothing but characters of its string. *)
Lemma all_chars_charAt p s i : all_chars p s = true -> all_chars p (charAt s i) = true.
Proof.
  intros Hs. unfold charAt. destruct (0 <=? i); [|done].
  destruct (String.get _ s) as [c|] eqn:Hc; [|done].
  simpl. rewrite (all_chars_get p s _ c Hc Hs). done.
Qed.

Lemma all_chars_getNonce p rand draw :
  all_chars p possible = true -> all_chars p (getNonce rand draw) = true.
Proof.
  intros Hp. unfold getNonce.
  assert (all_chars p EmptyString = true) as H0 by done. revert H0.
  generalize EmptyString as text. generalize (seq 0 32) as l.
  induction l as [|i l IH]; intros text Ht; simpl; [done|].
  apply IH. unfold nonce_step. rewrite all_chars_app, Ht. by apply all_chars_charAt.
Qed.

Lemma charAt_possible i :
  0 <= i < 62 -> exists c, charAt possible i = str1 c /\ is_alnum c = true.
Proof.
  intros Hi.
  assert (forallb (fun k => match String.get k possible with Some c => is_alnum c | None => false end)
            (seq 0 62) = true) as HF by reflexivity.
  rewrite forallb_forall in HF. specialize (HF (Z.to_nat i) ltac:(apply in_seq; lia)).
  unfold charAt. destruct (Z.leb_spec 0 i); [|lia].
  destruct (String.get _ possible) as [c|]; [|done]. by exists c.
Qed.

Lemma random_index_bounds m : 0 <= m < RANDOM_DENOM -> 0 <= random_index m 62 < 62.
Proof.
  intros Hm. unfold random_index, RANDOM_DENOM in *. split.
  - apply Z.div_pos; lia.
  - apply Z.div_lt_upper_bound; lia.
Qed.

Lemma nonce_fold rand draw l text :
  (forall i, 0 <= rand i < RANDOM_DENOM) ->
  String.length (fold_left (nonce_step rand draw) l text) = (String.length text + length l)%nat /\
  all_chars is_alnum (fold_left (nonce_step rand draw) l text) = all_chars is_alnum text.
Proof.
  intros Hr. revert text. induction l as [|i l IH]; intros text; simpl; [split; [lia|done]|].
  destruct (IH (nonce_step rand draw text i)) as [-> ->].
  destruct (charAt_possible (random_index (rand (draw + i)%nat) 62)) as (c & Hc & Ha);
    [by apply random_index_bounds|].
  unfold nonce_step. change (Z.of_nat (String.length possible)) with 62.
  rewrite Hc, sapp_length, all_chars_app. simpl. rewrite Ha, andb_true_r. split; [lia|done].
Qed.

(** C31: with draws as [Math.random] returns them (in [0, 1)), the nonce is
    32 characters, each a letter or a digit: a valid CSP nonce, and the loop
    never reads past the end of [possible]. *)
Theorem getNonce_ok rand draw :
  (forall i, 0 <= rand i < RANDOM_DENOM) ->
  String.length (getNonce rand draw) = 32%nat /\ all_chars is_alnum (getNonce rand draw) = true.
Proof. intros Hr. unfold getNonce. by destruct (nonce_fold rand draw (seq 0 32) EmptyString Hr) as [-> ->]. Qed.

Lemma getNonce_ok_witness :
  (forall i, 0 <= (fun _ : nat => 0) i < RANDOM_DENOM) /\
  String.length (getNonce (fun _ => 0) 0) = 32%nat /\ all_chars is_alnum (getNonce (fun _ => 0) 0) = true.
Proof.
  assert (forall i, 0 <= (fun _ : nat => 0) i < RANDOM_DENOM) as H by (intros; unfold RANDOM_DENOM; lia).
  split; [exact H|]. exact (getNonce_ok (fun _ => 0) 0 H).
Defined.

(** ** The page *)

(** The template with every interpolation empty. *)
Definition page_skeleton : string :=
  tpl0 +:+ tpl1 +:+ tpl2 +:+ tpl3 +:+ tpl4 +:+ tpl5 +:+ tpl6 +:+ tpl7 +:+ tpl8 +:+ tpl9.

(** How an HTML parser reads the CSP meta tag: the text after the first
    [content=] and its opening double quote, up to the next double quote. *)
Fixpoint starts_with (pat s : string) : bool :=
  match pat, s with
  | EmptyString, _ => true
  | String c pat', String d s' => bool_decide (c = d) && starts_with pat' s'
  | String _ _, EmptyString => false
  end.

Fixpoint sdrop (n : nat) (s : string) : string :=
  match n, s with
  | O, _ => s
  | S n', String _ s' => sdrop n' s'
  | S _, EmptyString => EmptyString
  end.

Fixpoint find_after (pat s : string) : option string :=
  if starts_with pat s then Some (sdrop (String.length pat) s)
  else match s with
       | EmptyString => None
       | String _ s' => find_after pat s'
       end.

Definition content_attr (html : string) : option string :=
  match find_after ("content=" +:+ DQ) html with
  | Some r => Some (before_char "034" r)
  | None => None
  end.

(** The policy the template means to set: its directives up to the
    [frame-src] value, then that value and the end of the directive. *)
Definition csp_head (cspSrc nonce : string) : string :=
  "
      default-src 'none';
      img-src " +:+ cspSrc +:+ " https: data:;
      style-src 'unsafe-inline' " +:+ cspSrc +:+ ";
      script-src 'nonce-" +:+ nonce +:+ "';
      frame-src ".

Definition intended_csp (cspSrc nonce frameSrc : string) : string :=
  csp_head cspSrc nonce +:+ frameSrc +:+ ";
    ".

(** ** Lemmas on the page *)

Lemma count_zero c s : has_char c s = false -> count_char c s = 0%nat.
Proof. apply has_char_count. Qed.

Lemma has_char_all_chars c s :
  has_char c s = negb (all_chars (fun d => negb (bool_decide (c = d))) s).
Proof. induction s as [|d s IH]; simpl; [done|]. rewrite IH. by destruct (bool_decide _), (all_chars _ _). Qed.

Lemma getNonce_no_char c rand draw :
  has_char c possible = false -> has_char c (getNonce rand draw) = false.
Proof.
  rewrite !has_char_all_chars. intros Hp. apply negb_false_iff in Hp.
  by rewrite all_chars_getNonce.
Qed.

Lemma starts_with_app pat a b :
  (String.length pat <= String.length a)%nat -> starts_with pat (a +:+ b) = starts_with pat a.
Proof.
  revert a. induction pat as [|c pat IH]; intros [|d a]; simpl; try done; [lia|].
  intros Hl. rewrite IH by lia. done.
Qed.

Section PageTheorems.
Context `{URLParserLaws}.

Lemma frameSrc_no_char c webview context remoteUrl demoUrl allowHttp app :
  forbidden_host_char c = true -> c <> ":"%char -> c <> "/"%char ->
  has_char c (cspSource webview +:+ " vscode-resource:") = false ->
  resolveAppSrc webview context remoteUrl demoUrl allowHttp = Ok app ->
  has_char c (frameSrcCsp app) = false /\ (targetOrigin app = "*" \/ has_char c (targetOrigin app) = false).
Proof.
  intros Hc H1 H2 Hw [->|(u & Hu & -> & ->)]%resolveAppSrc_shape.
  - simpl. by split; [|left].
  - rewrite (origin_no_forbidden _ _ _ Hu) by done. by split; [|right].
Qed.

(** C7: no markup can be injected into the page.  Whatever the remote
    URL, the demo-server address and the nonce, the page has exactly the
    [<] characters of its template (provided the host's CSP source token
    has none): every interpolated value is escaped, a URL origin, a nonce
    of letters and digits, or a JSON string literal of an origin, so no
    interpolation opens a tag or closes the relay script. *)
Theorem page_markup_fixed rand draw webview context remoteUrl demoUrl allowHttp html :
  has_char "<" (cspSource webview) = false ->
  getWebviewHtml rand draw webview context remoteUrl demoUrl allowHttp = Ok html ->
  count_char "<" html = count_char "<" page_skeleton.
Proof.
  intros Hw. unfold getWebviewHtml.
  destruct (resolveAppSrc _ _ _ _ _) as [app|e] eqn:Happ; [|done].
  intros Hh%Ok_inj. subst html.
  destruct (frameSrc_no_char "<" webview context remoteUrl demoUrl allowHttp app eq_refl
              ltac:(done) ltac:(done) ltac:(by rewrite has_char_app, Hw) Happ) as [Hf Ht].
  assert (has_char "<" (JSON_stringify (targetOrigin app)) = false) as Hj
    by (rewrite has_char_JSON_lt; destruct Ht as [Ht|Ht]; rewrite Ht; done).
  pose proof (getNonce_no_char "<" rand draw eq_refl) as Hn.
  unfold page_skeleton. rewrite !count_char_app.
  rewrite !(count_zero _ _ Hw), !(count_zero _ _ Hn), (count_zero _ _ Hf), (count_zero _ _ Hj),
    !(count_zero _ _ (escapeHtml_no_lt _)).
  lia.
Qed.

Lemma find_after_tpl0 r :
  find_after ("content=" +:+ DQ) (tpl0 +:+ r) =
  Some ("
      default-src 'none';
      img-src " +:+ r).
Proof. reflexivity. Qed.

(** C24: the policy the browser enforces is the one the template means.
    When neither the host's CSP source token nor the resolved [frame-src]
    value holds a double quote, the [content] attribute of the CSP meta
    tag, read as an HTML parser reads it, is exactly: nothing by default,
    images and styles from the host, scripts only with this page's nonce,
    frames only from the resolved source. *)
Theorem csp_as_intended rand draw webview context remoteUrl demoUrl allowHttp app html :
  has_char "034" (cspSource webview) = false ->
  has_char "034" (frameSrcCsp app) = false ->
  resolveAppSrc webview context remoteUrl demoUrl allowHttp = Ok app ->
  getWebviewHtml rand draw webview context remoteUrl demoUrl allowHttp = Ok html ->
  content_attr html = Some (intended_csp (cspSource webview) (getNonce rand draw) (frameSrcCsp app)).
Proof.
  intros Hw Hf Happ. unfold getWebviewHtml. rewrite Happ. intros Hh%Ok_inj. subst html.
  pose proof (getNonce_no_char "034" rand draw eq_refl) as Hn.
  unfold content_attr. rewrite find_after_tpl0. f_equal.
  rewrite (before_char_skip _ (String "010" _)) by reflexivity.
  rewrite (before_char_skip _ (cspSource webview)) by done.
  rewrite (before_char_skip _ tpl1) by reflexivity.
  rewrite (before_char_skip _ (cspSource webview)) by done.
  rewrite (before_char_skip _ tpl2) by reflexivity.
  rewrite (before_char_skip _ (getNonce rand draw)) by done.
  rewrite (before_char_skip _ tpl3) by reflexivity.
  rewrite (before_char_skip _ (frameSrcCsp app)) by done.
  rewrite (before_char_stop _ tpl4) by reflexivity.
  unfold intended_csp, csp_head. rewrite !sapp_assoc. reflexivity.
Qed.
End PageTheorems.

(** A remote URL whose host holds a double quote: the WHATWG host grammar
    admits it (the quote is not a forbidden host code point). *)
Definition quote_host_url : string := "https://a" +:+ DQ +:+ "b.example/".


(** ** The page theorems at a concrete page *)

Definition sample_remote : string := "https://app.example/preview".

Lemma page_markup_fixed_witness :
  has_char "<" (cspSource sample_webview) = false /\
  exists html, getWebviewHtml (fun _ => 0) 0 sample_webview sample_context sample_remote None false = Ok html /\
    count_char "<" html = count_char "<" page_skeleton.
Proof.
  split; [reflexivity|]. eexists. split; [reflexivity|].
  apply (page_markup_fixed (fun _ => 0) 0 sample_webview sample_context sample_remote None false);
    reflexivity.
Defined.

Lemma csp_as_intended_witness :
  exists app html,
    resolveAppSrc sample_webview sample_context sample_remote None false = Ok app /\
    getWebviewHtml (fun _ => 0) 0 sample_webview sample_context sample_remote None false = Ok html /\
    has_char "034" (cspSource sample_webview) = false /\ has_char "034" (frameSrcCsp app) = false /\
    content_attr html = Some (intended_csp (cspSource sample_webview) (getNonce (fun _ => 0) 0) (frameSrcCsp app)).
Proof.
  do 2 eexists. split_and!; [reflexivity|reflexivity|reflexivity|reflexivity|].
  apply (csp_as_intended (fun _ => 0) 0 sample_webview sample_context sample_remote None false);
    reflexivity.
Defined.
