(* ===== verification/Extension.v ===== *)
(** * The extension: [activate] and the open command (extension.ts:7-97)

    [activate] keeps [previewByDoc], a map from a document's URI to its
    preview's panel and change subscription, and registers the command.
    The command is an [async] function with two suspension points: the
    [await] of [showTextDocument] (line 36) and, when the remote URL is not
    https, the [await] of [startDemoServer] (line 59), which waits for
    [listen] to bind.  Other events (more commands, document changes,
    timers, the user closing panels) run while it is suspended.

    The model is a world of the host's and the extension's state ([World])
    and one handler per event ([handle]): the command's synchronous
    segments between its awaits are [open_command] (lines 11-36),
    [resume_show] (lines 38-62) and [resume_bind] with [finish] (lines
    59-93); a document change runs the listeners of lines 82-85; a timer
    runs the debounced [sendUpdate] of lines 66-77; closing a panel runs
    the handler of lines 87-91.  [reachable] is the closure of the initial
    world under the handlers, in any order the event loop may deliver the
    events.

    Host behaviour taken from VS Code: setting [webview.html] or calling
    [reveal] on a disposed panel throws; [postMessage] to a disposed
    webview resolves to [false] and delivers nothing; [onDidDispose] fires
    once.  The panel's title and creation options are not modelled. *)

From S2P Require Import Prelude Url Host Resolver Escape Debounce DemoServer Webview.

Local Open Scope Z_scope.

(** ** The host's objects *)

(** A text document: a live object, read when a snapshot is sent. *)
Record TextDocument := mkDoc {
  td_uri : string;            (** [uri.toString()] *)
  td_fsPath : string;         (** [uri.fsPath] *)
  td_fileName : string;
  td_languageId : string;
  td_text : string;           (** [getText()] *)
  td_version : Z
}.

(** The settings as [cfg.get] returns them. *)
Record Config := mkConfig {
  cfg_remoteUrl : string;
  cfg_debounceMs : Z;
  cfg_allowHttp : bool
}.

(** The [yaml:update] message (lines 67-76). *)
Record Payload := mkPayload {
  pl_yaml : string;
  pl_uri : string;
  pl_fileName : string;
  pl_languageId : string;
  pl_version : Z
}.

Record Message := mkMessage {
  msg_type : string;
  msg_payload : Payload
}.

(** A webview panel.  [pn_key] records which document's command created
    it (for the statements only: the code does not read it). *)
Record Panel := mkPanel {
  pn_key : string;
  pn_alive : bool;
  pn_html : option string;
  pn_reveals : nat;
  pn_inbox : list Message      (** messages delivered to the webview *)
}.

Inductive ServerState :=
  | Binding
  | Listening (port : N)
  | Closed.

(** The variables an invocation's closures capture once its panel is set
    up: the key, the panel, the subscription, [demoServer], the debounce
    closure's [timer] and its delay. *)
Record Session := mkSession {
  ss_key : string;
  ss_panel : nat;
  ss_listener : nat;
  ss_server : option nat;
  ss_timer : option nat;
  ss_delay : Z
}.

(** Where a suspended invocation waits. *)
Inductive Stage :=
  | AwaitShow
  | AwaitBind (panel : nat) (cfg : Config) (server : nat).

Record Invocation := mkInv {
  inv_key : string;
  inv_stage : Stage
}.

(** A value of [previewByDoc]: [{ panel, disposable }]. *)
Record Entry := mkEntry {
  e_panel : nat;
  e_disposable : nat
}.

Inductive LogEntry :=
  | Info (msg : string)
  | Warning (msg : string)
  | Rejected (msg : string)     (** the command's promise rejected *)
  | Dropped (panel : nat).      (** [postMessage] to a disposed webview *)

(** ** The world *)

Record World := mkWorld {
  w_docs : gmap string TextDocument;   (** the open documents, by [uri.toString()] *)
  w_active : option string;   (** the active editor's document *)
  w_config : Config;   (** the [yamlIframePreview] settings *)
  w_panels : gmap nat Panel;   (** webview panels, by creation number *)
  w_servers : gmap nat ServerState;   (** demo servers, by creation number *)
  w_listeners : list (nat * (string * nat));   (** [onDidChangeTextDocument] listeners in registration order: handle, key and session *)
  w_hooks : gmap nat nat;   (** [onDidDispose] handlers: panel to session *)
  w_timers : TimerQueue nat;   (** Node's timers; a callback names its session *)
  w_sessions : gmap nat Session;   (** the closures of completed invocations *)
  w_pending : gmap nat Invocation;   (** invocations suspended at an [await] *)
  w_registry : gmap string Entry;   (** [previewByDoc] *)
  w_next : nat;   (** the next fresh number *)
  w_draw : nat;   (** draws of [Math.random] used so far *)
  w_log : list LogEntry   (** notices shown and errors thrown *)
}.

Definition upd_docs (g : gmap string TextDocument -> gmap string TextDocument) (w : World) : World :=
  mkWorld (g (w_docs w)) (w_active w) (w_config w) (w_panels w) (w_servers w) (w_listeners w) (w_hooks w) (w_timers w) (w_sessions w) (w_pending w) (w_registry w) (w_next w) (w_draw w) (w_log w).

Definition upd_active (g : option string -> option string) (w : World) : World :=
  mkWorld (w_docs w) (g (w_active w)) (w_config w) (w_panels w) (w_servers w) (w_listeners w) (w_hooks w) (w_timers w) (w_sessions w) (w_pending w) (w_registry w) (w_next w) (w_draw w) (w_log w).

Definition upd_config (g : Config -> Config) (w : World) : World :=
  mkWorld (w_docs w) (w_active w) (g (w_config w)) (w_panels w) (w_servers w) (w_listeners w) (w_hooks w) (w_timers w) (w_sessions w) (w_pending w) (w_registry w) (w_next w) (w_draw w) (w_log w).

Definition upd_panels (g : gmap nat Panel -> gmap nat Panel) (w : World) : World :=
  mkWorld (w_docs w) (w_active w) (w_config w) (g (w_panels w)) (w_servers w) (w_listeners w) (w_hooks w) (w_timers w) (w_sessions w) (w_pending w) (w_registry w) (w_next w) (w_draw w) (w_log w).

Definition upd_servers (g : gmap nat ServerState -> gmap nat ServerState) (w : World) : World :=
  mkWorld (w_docs w) (w_active w) (w_config w) (w_panels w) (g (w_servers w)) (w_listeners w) (w_hooks w) (w_timers w) (w_sessions w) (w_pending w) (w_registry w) (w_next w) (w_draw w) (w_log w).

Definition upd_listeners (g : list (nat * (string * nat)) -> list (nat * (string * nat))) (w : World) : World :=
  mkWorld (w_docs w) (w_active w) (w_config w) (w_panels w) (w_servers w) (g (w_listeners w)) (w_hooks w) (w_timers w) (w_sessions w) (w_pending w) (w_registry w) (w_next w) (w_draw w) (w_log w).

Definition upd_hooks (g : gmap nat nat -> gmap nat nat) (w : World) : World :=
  mkWorld (w_docs w) (w_active w) (w_config w) (w_panels w) (w_servers w) (w_listeners w) (g (w_hooks w)) (w_timers w) (w_sessions w) (w_pending w) (w_registry w) (w_next w) (w_draw w) (w_log w).

Definition upd_timers (g : TimerQueue nat -> TimerQueue nat) (w : World) : World :=
  mkWorld (w_docs w) (w_active w) (w_config w) (w_panels w) (w_servers w) (w_listeners w) (w_hooks w) (g (w_timers w)) (w_sessions w) (w_pending w) (w_registry w) (w_next w) (w_draw w) (w_log w).

Definition upd_sessions (g : gmap nat Session -> gmap nat Session) (w : World) : World :=
  mkWorld (w_docs w) (w_active w) (w_config w) (w_panels w) (w_servers w) (w_listeners w) (w_hooks w) (w_timers w) (g (w_sessions w)) (w_pending w) (w_registry w) (w_next w) (w_draw w) (w_log w).

Definition upd_pending (g : gmap nat Invocation -> gmap nat Invocation) (w : World) : World :=
  mkWorld (w_docs w) (w_active w) (w_config w) (w_panels w) (w_servers w) (w_listeners w) (w_hooks w) (w_timers w) (w_sessions w) (g (w_pending w)) (w_registry w) (w_next w) (w_draw w) (w_log w).

Definition upd_registry (g : gmap string Entry -> gmap string Entry) (w : World) : World :=
  mkWorld (w_docs w) (w_active w) (w_config w) (w_panels w) (w_servers w) (w_listeners w) (w_hooks w) (w_timers w) (w_sessions w) (w_pending w) (g (w_registry w)) (w_next w) (w_draw w) (w_log w).

Definition upd_next (g : nat -> nat) (w : World) : World :=
  mkWorld (w_docs w) (w_active w) (w_config w) (w_panels w) (w_servers w) (w_listeners w) (w_hooks w) (w_timers w) (w_sessions w) (w_pending w) (w_registry w) (g (w_next w)) (w_draw w) (w_log w).

Definition upd_draw (g : nat -> nat) (w : World) : World :=
  mkWorld (w_docs w) (w_active w) (w_config w) (w_panels w) (w_servers w) (w_listeners w) (w_hooks w) (w_timers w) (w_sessions w) (w_pending w) (w_registry w) (w_next w) (g (w_draw w)) (w_log w).

Definition upd_log (g : list LogEntry -> list LogEntry) (w : World) : World :=
  mkWorld (w_docs w) (w_active w) (w_config w) (w_panels w) (w_servers w) (w_listeners w) (w_hooks w) (w_timers w) (w_sessions w) (w_pending w) (w_registry w) (w_next w) (w_draw w) (g (w_log w)).

Definition set_html (pn : Panel) (html : string) : Panel :=
  mkPanel (pn_key pn) (pn_alive pn) (Some html) (pn_reveals pn) (pn_inbox pn).
Definition set_dead (pn : Panel) : Panel :=
  mkPanel (pn_key pn) false (pn_html pn) (pn_reveals pn) (pn_inbox pn).
Definition add_reveal (pn : Panel) : Panel :=
  mkPanel (pn_key pn) (pn_alive pn) (pn_html pn) (S (pn_reveals pn)) (pn_inbox pn).
Definition deliver (pn : Panel) (m : Message) : Panel :=
  mkPanel (pn_key pn) (pn_alive pn) (pn_html pn) (pn_reveals pn) (pn_inbox pn ++ [m]).
Definition set_timer (ss : Session) (t : option nat) : Session :=
  mkSession (ss_key ss) (ss_panel ss) (ss_listener ss) (ss_server ss) t (ss_delay ss).
Definition set_content (d : TextDocument) (text : string) (version : Z) : TextDocument :=
  mkDoc (td_uri d) (td_fsPath d) (td_fileName d) (td_languageId d) text version.

Definition init_world (docs : gmap string TextDocument) (active : option string) (c : Config) : World :=
  mkWorld docs active c ∅ ∅ [] ∅ (mkQueue 0 0 []) ∅ ∅ ∅ 0 0 [].

Definition log (e : LogEntry) (w : World) : World := upd_log (fun l => l ++ [e]) w.

Definition fresh (w : World) : nat * World := (w_next w, upd_next S w).

(** ** The handlers *)

Section Handlers.
Context `{URLParser}.

(** Every panel's webview (its [cspSource] and [asWebviewUri]), the
    extension's context, and the draws of [Math.random]. *)
Variable host : Webview.
Variable context : ExtensionContext.
Variable rand : nat -> Z.

(** Lines 18-21. *)
Definition isYaml (doc : TextDocument) : bool :=
  String.eqb (td_languageId doc) "yaml" ||
  endsWith (toLowerCase (td_fsPath doc)) ".yml" ||
  endsWith (toLowerCase (td_fsPath doc)) ".yaml".

(** Lines 51-54: [Math.max(0, debounceMs)]; the rest as read. *)
Definition read_config (c : Config) : Config :=
  mkConfig (cfg_remoteUrl c) (Z.max 0 (cfg_debounceMs c)) (cfg_allowHttp c).

(** [panel.reveal(...)]: throws on a disposed panel. *)
Definition reveal (p : nat) (w : World) : World :=
  match w_panels w !! p with
  | Some pn =>
      if pn_alive pn then upd_panels (<[p := add_reveal pn]>) w
      else log (Rejected "Webview is disposed") w
  | None => w
  end.

(** The synchronous end of the command, lines 64-93: the page, the
    debounced sender and its initial call, the change subscription, the
    dispose handler and the registry entry.  The nonce takes 32 draws. *)
Definition finish (i : nat) (key : string) (p : nat) (c : Config) (server : option nat)
    (demoUrl : option string) (w : World) : World :=
  let w0 := upd_draw (Nat.add 32) (upd_pending (delete i) w) in
  match getWebviewHtml rand (w_draw w) host context (cfg_remoteUrl c) demoUrl (cfg_allowHttp c) with
  | Throw e => log (Rejected e) w0
  | Ok html =>
      match w_panels w0 !! p with
      | Some pn =>
          if pn_alive pn then
            let w1 := upd_panels (<[p := set_html pn html]>) w0 in
            let '(sid, w2) := fresh w1 in
            let '(timer, q) := debounce_call None (w_timers w2) sid (cfg_debounceMs c) in
            let w3 := upd_timers (fun _ => q) w2 in
            let '(d, w4) := fresh w3 in
            let w5 := upd_listeners (fun l => l ++ [(d, (key, sid))]) w4 in
            let w6 := upd_hooks (<[p := sid]>) w5 in
            let w7 := upd_sessions (<[sid := mkSession key p d server timer (cfg_debounceMs c)]>) w6 in
            upd_registry (<[key := mkEntry p d]>) w7
          else log (Rejected "Webview is disposed") w0
      | None => w0
      end
  end.

(** Lines 11-36, up to the first [await]. *)
Definition open_command (w : World) : World :=
  match w_active w with
  | None => log (Info "No active editor.") w
  | Some u =>
      match w_docs w !! u with
      | None => log (Info "No active editor.") w
      | Some doc =>
          if negb (isYaml doc) then
            log (Warning "Open a YAML (.yml/.yaml) file to use this preview.") w
          else
            let key := td_uri doc in
            match w_registry w !! key with
            | Some e => reveal (e_panel e) w
            | None =>
                let '(i, w1) := fresh w in
                upd_pending (<[i := mkInv key AwaitShow]>) w1
            end
      end
  end.

(** Lines 38-62, after [showTextDocument] resolves: the panel, the
    settings, and the demo server when the remote URL is not https. *)
Definition resume_show (i : nat) (w : World) : World :=
  match w_pending w !! i with
  | Some (mkInv key AwaitShow) =>
      let '(p, w1) := fresh w in
      let w2 := upd_panels (<[p := mkPanel key true None 0 []]>) w1 in
      let c := read_config (w_config w2) in
      if negb (isHttpsUrl (cfg_remoteUrl c)) then
        let '(s, w3) := fresh w2 in
        upd_pending (<[i := mkInv key (AwaitBind p c s)]>) (upd_servers (<[s := Binding]>) w3)
      else finish i key p c None None w2
  | _ => w
  end.

(** After [listen] ends: on success the command goes on (line 60); a
    rejection ends it, leaving the panel open. *)
Definition resume_bind (i : nat) (b : BindOutcome) (w : World) : World :=
  match w_pending w !! i with
  | Some (mkInv key (AwaitBind p c s)) =>
      match start_outcome b with
      | Ok (port, url) =>
          finish i key p c (Some s) (Some url) (upd_servers (<[s := Listening port]>) w)
      | Throw e => log (Rejected e) (upd_pending (delete i) (upd_servers (<[s := Closed]>) w))
      end
  | _ => w
  end.

(** [sendUpdate()] of session [sid]: the debounced call. *)
Definition send_update (sid : nat) (w : World) : World :=
  match w_sessions w !! sid with
  | Some ss =>
      let '(timer, q) := debounce_call (ss_timer ss) (w_timers w) sid (ss_delay ss) in
      upd_sessions (<[sid := set_timer ss timer]>) (upd_timers (fun _ => q) w)
  | None => w
  end.

(** An edit: the document changes, then every listener runs (line 83
    ignores other documents). *)
Definition change_document (u text : string) (version : Z) (w : World) : World :=
  match w_docs w !! u with
  | Some doc =>
      let w1 := upd_docs (<[u := set_content doc text version]>) w in
      fold_left (fun w' (l : nat * (string * nat)) =>
                   if String.eqb l.2.1 u then send_update l.2.2 w' else w')
        (w_listeners w1) w1
  | None => w
  end.

Definition snapshot (doc : TextDocument) : Message :=
  mkMessage "yaml:update"
    (mkPayload (td_text doc) (td_uri doc) (td_fileName doc) (td_languageId doc) (td_version doc)).

(** [panel.webview.postMessage(m)]. *)
Definition post_message (p : nat) (m : Message) (w : World) : World :=
  match w_panels w !! p with
  | Some pn => if pn_alive pn then upd_panels (<[p := deliver pn m]>) w else log (Dropped p) w
  | None => w
  end.

(** The next timer fires: its session's [sendUpdate] body (lines 67-76). *)
Definition fire_timer (w : World) : World :=
  match pop_next (w_timers w) with
  | Some (tm, q) =>
      let w1 := upd_timers (fun _ => q) w in
      match w_sessions w1 !! tm_cb tm with
      | Some ss =>
          match w_docs w1 !! ss_key ss with
          | Some doc => post_message (ss_panel ss) (snapshot doc) w1
          | None => w1
          end
      | None => w1
      end
  | None => w
  end.

(** Time passes, up to the next deadline at most. *)
Definition tick (t : Z) (w : World) : World :=
  let q := w_timers w in
  if (q_now q <=? t) && forallb (fun tm => t <=? tm_due tm) (q_timers q) then
    upd_timers (fun _ => mkQueue t (q_next q) (q_timers q)) w
  else w.

(** The user (or the host) closes panel [p]: it is disposed, and its
    [onDidDispose] handler runs once (lines 87-91): unsubscribe, close the
    server, delete the key. *)
Definition dispose_panel (p : nat) (w : World) : World :=
  match w_panels w !! p with
  | Some pn =>
      if pn_alive pn then
        let w1 := upd_panels (<[p := set_dead pn]>) w in
        match w_hooks w1 !! p with
        | Some sid =>
            match w_sessions w1 !! sid with
            | Some ss =>
                let w2 := upd_listeners (filter (fun l => l.1 <> ss_listener ss)) (upd_hooks (delete p) w1) in
                let w3 := match ss_server ss with
                          | Some s => upd_servers (<[s := Closed]>) w2
                          | None => w2
                          end in
                upd_registry (delete (ss_key ss)) w3
            | None => w1
            end
        | None => w1
        end
      else w
  | None => w
  end.

Inductive Event :=
  | Open
  | ShowDone (i : nat)
  | BindDone (i : nat) (b : BindOutcome)
  | Change (u text : string) (version : Z)
  | Tick (t : Z)
  | Fire
  | Dispose (p : nat)
  | SetActive (u : option string)
  | SetConfig (c : Config).

Definition handle (e : Event) (w : World) : World :=
  match e with
  | Open => open_command w
  | ShowDone i => resume_show i w
  | BindDone i b => resume_bind i b w
  | Change u text v => change_document u text v w
  | Tick t => tick t w
  | Fire => fire_timer w
  | Dispose p => dispose_panel p w
  | SetActive u => upd_active (fun _ => u) w
  | SetConfig c => upd_config (fun _ => c) w
  end.

Definition run (evs : list Event) (w : World) : World := fold_left (fun w e => handle e w) evs w.

(** The worlds the event loop can reach from [w0]. *)
Inductive reachable (w0 : World) : World -> Prop :=
  | reach_init : reachable w0 w0
  | reach_step w e : reachable w0 w -> reachable w0 (handle e w).

End Handlers.

(** ** Observations *)

(** Panel [p] is a live preview of document [k]: created for [k], not
    disposed, its page set and its dispose handler registered. *)
Definition is_live (w : World) (k : string) (p : nat) : bool :=
  match w_panels w !! p, w_hooks w !! p with
  | Some pn, Some _ => String.eqb (pn_key pn) k && pn_alive pn && bool_decide (is_Some (pn_html pn))
  | _, _ => false
  end.

(** The spec's session invariant (section 3): at most one live preview per
    document. *)
Definition one_preview_per_doc (w : World) : Prop :=
  forall k p1 p2, is_live w k p1 = true -> is_live w k p2 = true -> p1 = p2.

(** Server [s] listens and no session or suspended invocation owns it:
    nothing in the extension can ever close it. *)
Definition orphan_server (w : World) (s : nat) : Prop :=
  (exists port, w_servers w !! s = Some (Listening port)) /\
  (forall sid ss, w_sessions w !! sid = Some ss -> ss_server ss <> Some s) /\
  (forall i inv, w_pending w !! i = Some inv -> forall p c, inv_stage inv <> AwaitBind p c s).

Lemma run_app `{URLParser} host context rand evs1 evs2 w :
  run host context rand (evs1 ++ evs2) w = run host context rand evs2 (run host context rand evs1 w).
Proof. apply fold_left_app. Qed.

Lemma run_reachable `{URLParser} host context rand evs w0 :
  reachable host context rand w0 (run host context rand evs w0).
Proof.
  induction evs as [|e evs IH] using rev_ind; [constructor|].
  rewrite run_app. simpl. by constructor.
Qed.

(** ** A sample workspace, for the concrete runs *)

Definition sample_doc : TextDocument :=
  mkDoc "file:///w/a.yaml" "/w/a.yaml" "/w/a.yaml" "yaml" "a: 1" 1.

Definition sample_world (c : Config) : World :=
  init_world {[ td_uri sample_doc := sample_doc ]} (Some (td_uri sample_doc)) c.

Definition sample_config : Config := mkConfig EmptyString 300 true.

Definition sample_run (c : Config) (evs : list Event) : World :=
  run sample_webview sample_context (fun _ => 0) evs (sample_world c).

(** ** What the event loop can do: concrete runs *)

Definition race_trace : list Event :=
  [Open; Open; ShowDone 0; ShowDone 1; BindDone 0 (Bound 5000); BindDone 1 (Bound 5001)].






