(* ===== verification/Relay.v ===== *)
(** * The relay script inside the page (extension.ts:205-216)

    The page's only script listens for the messages the extension posts
    to the webview and forwards each [yaml:update] message to the iframe
    with [postMessage(msg, targetOrigin)], the target being a JSON string
    literal the template interpolates.  The browser delivers it only when
    the target is [*] or when the origin it denotes is the origin of the
    iframe's document ([window_postMessage], HTML standard, window post
    message steps; a target that does not parse throws a [SyntaxError]).

    [script_target] reads the target out of the page text the way the
    browser does: the first [<script] element, the end of its start tag,
    the call, and the string literal.  [script_target_page] proves it reads
    the resolver's [targetOrigin] back from every page [getWebviewHtml]
    builds; [relay_delivers_to_resolved_origin] composes the resolver, the
    page, the script and the browser.  [relay_all] dispatches a whole
    inbox to the listener, in order, as the webview does. *)

From S2P Require Import Prelude Url Origin Host Resolver Escape Webview Extension.

(** ** The browser's [window.postMessage] *)

Section Browser.
Context `{URLParser}.

(** [w.postMessage(message, targetOrigin)] called from a window of origin
    [callerOrigin] on a window whose document has origin [targetDoc]:
    whether the message is delivered, or the exception thrown. *)
Definition window_postMessage (targetOrigin callerOrigin targetDoc : string) : Res bool :=
  if String.eqb targetOrigin "*" then Ok true
  else if String.eqb targetOrigin "/" then Ok (String.eqb callerOrigin targetDoc)
  else
    match parse_url targetOrigin with
    | Some u => Ok (String.eqb (origin u) targetDoc)
    | None => Throw "SyntaxError"
    end.

(** The handler of lines 208-215, for the target its script was compiled
    with.  [data] is [event.data], [None] standing for a falsy value;
    [frame] is the origin of the iframe's document, [None] when
    [iframe?.contentWindow] is null.  The result is the message delivered
    to the iframe, if any. *)
Definition relay_handler (target pageOrigin : string) (data : option Message)
    (frame : option string) : Res (option Message) :=
  match data with
  | None => Ok None
  | Some msg =>
      if negb (String.eqb (msg_type msg) "yaml:update") then Ok None
      else
        match frame with
        | None => Ok None
        | Some fo =>
            delivered <- window_postMessage target pageOrigin fo ;;
            Ok (if delivered then Some msg else None)
        end
  end.

(** The webview dispatches the messages posted to it one by one, in the
    order posted, each to the listener; an exception thrown by the
    listener ends the dispatch.  The result is what reaches the iframe,
    in order. *)
Fixpoint relay_all (target pageOrigin : string) (inbox : list Message) (frame : option string)
    : Res (list Message) :=
  match inbox with
  | [] => Ok []
  | m :: rest =>
      d <- relay_handler target pageOrigin (Some m) frame ;;
      r <- relay_all target pageOrigin rest frame ;;
      Ok (option_list d ++ r)
  end.

End Browser.

(** ** Reading the script's target out of the page *)

(** The string a JavaScript string literal at the start of [r] denotes. *)
Definition literal_value (r : string) : option string :=
  match r with
  | String "034" r' => fst <$> json_lex r'
  | _ => None
  end%char.

(** The first [<script] start tag, its end, the call, then the literal. *)
Definition script_target (html : string) : option string :=
  ((find_after "<script" html ≫= find_after ">") ≫= find_after "postMessage(msg, ") ≫= literal_value.

(** No position of [a] starts a match, whatever follows [a]: no non-empty
    suffix of [a] is a prefix of [pat] or has [pat] as a prefix. *)
Fixpoint clear_of (pat a : string) : bool :=
  match a with
  | EmptyString => true
  | String _ a' => negb (starts_with pat a) && negb (starts_with a pat) && clear_of pat a'
  end.

(** ** Lemmas on the reading *)

Lemma starts_with_mismatch pat s b :
  starts_with pat s = false -> starts_with s pat = false -> starts_with pat (s +:+ b) = false.
Proof.
  revert s. induction pat as [|c pat IH]; intros [|d s]; simpl; try done.
  destruct (decide (c = d)) as [<-|Hne].
  - rewrite !bool_decide_true by done. apply IH.
  - by rewrite bool_decide_false.
Qed.

Lemma find_after_clear pat a b : clear_of pat a = true -> find_after pat (a +:+ b) = find_after pat b.
Proof.
  induction a as [|c a IH]; [done|].
  intros [[H1 H2]%andb_prop Ha]%andb_prop. apply negb_true_iff in H1, H2.
  change (String c a +:+ b) with (String c (a +:+ b)). simpl.
  change (String c (a +:+ b)) with (String c a +:+ b).
  rewrite starts_with_mismatch by done. by apply IH.
Qed.

Lemma find_after_head c p x b :
  has_char c x = false -> find_after (String c p) (x +:+ b) = find_after (String c p) b.
Proof.
  induction x as [|d x IH]; [done|]. simpl.
  intros [Hd Hx]%orb_false_iff. rewrite Hd. simpl. by apply IH.
Qed.

Lemma tpl_clear_script :
  forallb (clear_of "<script") [tpl0; tpl1; tpl2; tpl3; tpl4; tpl5; tpl6] = true.
Proof. vm_compute. reflexivity. Qed.

Lemma find_after_tpl7 r : find_after "<script" (tpl7 +:+ r) = Some (" nonce=" +:+ DQ +:+ r).
Proof. reflexivity. Qed.

Lemma find_after_tag_end r : find_after ">" (" nonce=" +:+ DQ +:+ r) = find_after ">" r.
Proof. reflexivity. Qed.

Lemma tpl8_read r : find_after ">" (tpl8 +:+ r) ≫= find_after "postMessage(msg, " = Some r.
Proof. reflexivity. Qed.

Lemma literal_value_json t r : literal_value (JSON_stringify t +:+ r) = Some t.
Proof.
  unfold JSON_stringify, literal_value.
  change ((DQ +:+ json_body t +:+ DQ) +:+ r) with (String "034" ((json_body t +:+ DQ) +:+ r)).
  lazy beta iota. by rewrite sapp_assoc, json_lex_body.
Qed.

(** ** The script of every page targets the resolved origin *)

Section Page.
Context `{URLParserLaws}.

Lemma script_target_page rand draw webview context remoteUrl demoUrl allowHttp app html :
  has_char "<" (cspSource webview) = false ->
  resolveAppSrc webview context remoteUrl demoUrl allowHttp = Ok app ->
  getWebviewHtml rand draw webview context remoteUrl demoUrl allowHttp = Ok html ->
  script_target html = Some (targetOrigin app).
Proof.
  intros Hw Happ. unfold getWebviewHtml. rewrite Happ. intros Hh%Ok_inj. subst html.
  destruct (frameSrc_no_char "<" webview context remoteUrl demoUrl allowHttp app eq_refl
              ltac:(done) ltac:(done) ltac:(by rewrite has_char_app, Hw) Happ) as [Hf _].
  pose proof (getNonce_no_char "<" rand draw eq_refl) as Hn.
  pose proof (getNonce_no_char ">" rand draw eq_refl) as Hn'.
  unfold script_target.
  (* the seven template pieces before the script tag, each followed by an
     interpolation without [<] *)
  do 7 (rewrite find_after_clear by (vm_compute; reflexivity);
        rewrite find_after_head by (first [done | apply escapeHtml_no_lt])).
  rewrite find_after_tpl7. cbn [mbind option_bind].
  rewrite find_after_tag_end, find_after_head by done.
  rewrite tpl8_read. cbn [mbind option_bind]. apply literal_value_json.
Qed.

End Page.

(** ** What the browser does with the resolved target *)

Lemma origin_not_slash u : origin u <> "/".
Proof.
  unfold origin. case_match; [|discriminate].
  intros Ho. apply (f_equal String.length) in Ho. rewrite !sapp_length in Ho. simpl in Ho. lia.
Qed.

Lemma has_char_colon_origin u : has_tuple_origin (url_scheme u) = true -> has_char ":" (origin u) = true.
Proof. unfold origin. intros ->. rewrite has_char_app. simpl. by rewrite orb_true_r. Qed.

Section Post.
Context `{URLOriginLaws}.

(** Posting to the serialized origin of a parsed URL: delivered exactly to
    documents of that origin, and a [SyntaxError] for an opaque origin. *)
Lemma post_to_origin s u caller fo :
  parse_url s = Some u ->
  window_postMessage (origin u) caller fo =
    if has_tuple_origin (url_scheme u) then Ok (String.eqb (origin u) fo) else Throw "SyntaxError".
Proof.
  intros Hp. unfold window_postMessage.
  rewrite (proj2 (String.eqb_neq _ _) (origin_not_wildcard u)),
    (proj2 (String.eqb_neq _ _) (origin_not_slash u)).
  destruct (has_tuple_origin (url_scheme u)) eqn:Ht.
  - destruct (parse_origin s u Hp Ht) as (u' & -> & Ho). by rewrite Ho.
  - unfold origin. rewrite Ht. by rewrite parse_null.
Qed.

(** The relay on a target the resolver can produce: the wildcard or a
    serialized origin. *)
Lemma relay_handler_resolved target pageOrigin m fo :
  (target = "*" \/ exists s u, parse_url s = Some u /\ target = origin u) ->
  msg_type m = "yaml:update" ->
  relay_handler target pageOrigin (Some m) (Some fo) =
    if String.eqb target "null" then Throw "SyntaxError"
    else Ok (if String.eqb target "*" || String.eqb target fo then Some m else None).
Proof.
  intros Ht Hm. unfold relay_handler. rewrite Hm. simpl.
  destruct Ht as [->|(s & u & Hu & ->)]; [done|].
  rewrite (post_to_origin _ _ _ _ Hu), (proj2 (String.eqb_neq _ _) (origin_not_wildcard u)). simpl.
  destruct (has_tuple_origin (url_scheme u)) eqn:Ht.
  - rewrite (proj2 (String.eqb_neq (origin u) "null")); [done|].
    intros Hn. pose proof (has_char_colon_origin u Ht) as Hc. by rewrite Hn in Hc.
  - unfold origin at 1. by rewrite Ht.
Qed.

(** The whole inbox through the relay: everything in order, or nothing,
    or a [SyntaxError] at the first message. *)
Lemma relay_all_resolved target pageOrigin inbox fo :
  (target = "*" \/ exists s u, parse_url s = Some u /\ target = origin u) ->
  Forall (fun m => msg_type m = "yaml:update") inbox ->
  relay_all target pageOrigin inbox (Some fo) =
    if String.eqb target "null" && negb (bool_decide (inbox = [])) then Throw "SyntaxError"
    else Ok (if String.eqb target "*" || String.eqb target fo then inbox else []).
Proof.
  intros Ht. induction 1 as [|m inbox Hm Hf IH]; cbn [relay_all].
  - rewrite andb_false_r. by destruct (_ || _).
  - rewrite (relay_handler_resolved _ _ _ _ Ht Hm).
    destruct (String.eqb target "null"); [done|]. cbn [andb negb] in IH |- *. rewrite IH.
    by destruct (_ || _).
Qed.

End Post.

(** ** End to end: resolver, page, relay script, browser *)

Section Delivery.
Context `{Hlaws : URLParserLaws} `{Horigin : !URLOriginLaws}.

(** C12: a snapshot the extension posts to the webview reaches the iframe
    only as the resolver decided.  For every page [getWebviewHtml] builds
    (the host's CSP source token holding no [<]), the relay script reads
    back the resolved target origin, and it delivers a [yaml:update]
    message to the iframe always when the target is the wildcard (bundled
    page), and otherwise exactly when the iframe's document has the target
    origin; an opaque target ([null]) makes the relay throw. *)
Theorem relay_delivers_to_resolved_origin rand draw webview context remoteUrl demoUrl allowHttp
    app html pageOrigin m fo :
  has_char "<" (cspSource webview) = false ->
  resolveAppSrc webview context remoteUrl demoUrl allowHttp = Ok app ->
  getWebviewHtml rand draw webview context remoteUrl demoUrl allowHttp = Ok html ->
  msg_type m = "yaml:update" ->
  exists target, script_target html = Some target /\
    relay_handler target pageOrigin (Some m) (Some fo) =
      if String.eqb (targetOrigin app) "*" then Ok (Some m)
      else if String.eqb (targetOrigin app) "null" then Throw "SyntaxError"
      else Ok (if String.eqb (targetOrigin app) fo then Some m else None).
Proof.
  intros Hw Happ Hh Hm. exists (targetOrigin app). split; [by eapply script_target_page|].
  unfold relay_handler. rewrite Hm. simpl.
  destruct (resolveAppSrc_shape _ _ _ _ _ _ Happ) as [->|(u & Hu & _ & ->)]; [done|].
  rewrite (post_to_origin _ _ _ _ Hu), (proj2 (String.eqb_neq _ _) (origin_not_wildcard u)).
  destruct (has_tuple_origin (url_scheme u)) eqn:Ht.
  - rewrite (proj2 (String.eqb_neq (origin u) "null")); [done|].
    intros Hn. pose proof (has_char_colon_origin u Ht) as Hc. by rewrite Hn in Hc.
  - unfold origin at 1. by rewrite Ht.
Qed.

End Delivery.

(** ** The theorem at a concrete page *)

Lemma relay_delivers_to_resolved_origin_witness :
  exists app html,
    resolveAppSrc sample_webview sample_context sample_remote None false = Ok app /\
    getWebviewHtml (fun _ => 0%Z) 0 sample_webview sample_context sample_remote None false = Ok html /\
    has_char "<" (cspSource sample_webview) = false /\ msg_type (snapshot sample_doc) = "yaml:update" /\
    exists target, script_target html = Some target /\
      relay_handler target "vscode-webview://panel" (Some (snapshot sample_doc)) (Some "https://evil.example") =
        if String.eqb (targetOrigin app) "*" then Ok (Some (snapshot sample_doc))
        else if String.eqb (targetOrigin app) "null" then Throw "SyntaxError"
        else Ok (if String.eqb (targetOrigin app) "https://evil.example" then Some (snapshot sample_doc) else None).
Proof.
  do 2 eexists. split_and!; [reflexivity|reflexivity|reflexivity|reflexivity|].
  apply (relay_delivers_to_resolved_origin (fun _ => 0%Z) 0 sample_webview sample_context sample_remote
           None false); reflexivity.
Defined.
