(* ===== verification/Invariants.v ===== *)
(** * Invariants of the extension's world

    The well-formedness [wf] of a world relates the registry
    ([previewByDoc]), the dispose handlers, the change subscriptions, the
    sessions' closures, the panels and the suspended invocations.  Every
    handler preserves it ([wf_handle]), so it holds in every reachable
    world.  It is stated on views of panels (key, liveness, whether the page
    is set) and of sessions (key, panel, subscription), so that the handlers
    that touch only documents, timers, inboxes, reveals or the log preserve
    it through one transfer lemma ([wf_transfer]).

    What it gives on every reachable world is proved in [Properties.v]. *)

From S2P Require Import Prelude Url Host Resolver Escape Debounce DemoServer Webview Extension.

Local Open Scope Z_scope.

(** ** Views and the invariant *)

Definition panel_view (pn : Panel) : string * bool * bool :=
  (pn_key pn, pn_alive pn, bool_decide (is_Some (pn_html pn))).

Definition sess_view (ss : Session) : string * nat * nat :=
  (ss_key ss, ss_panel ss, ss_listener ss).

Definition PV (w : World) (p : nat) : option (string * bool * bool) := panel_view <$> w_panels w !! p.
Definition SV (w : World) (sid : nat) : option (string * nat * nat) := sess_view <$> w_sessions w !! sid.

(** Each invocation suspended at the bind owns a panel that has no
    dispose handler yet, was created for its document, and is owned by no
    other suspended invocation. *)
Definition pending_ok (w : World) (pm : gmap nat Invocation) : Prop :=
  forall i inv p c s, pm !! i = Some inv -> inv_stage inv = AwaitBind p c s ->
    w_hooks w !! p = None /\ (exists a h, PV w p = Some (inv_key inv, a, h)) /\
    (forall j inv' c' s', pm !! j = Some inv' -> inv_stage inv' = AwaitBind p c' s' -> j = i).

Record wf (w : World) : Prop := {
  wf_panels_fresh p : is_Some (PV w p) -> (p < w_next w)%nat;
  wf_sessions_fresh sid k p d : SV w sid = Some (k, p, d) -> (sid < w_next w)%nat /\ (d < w_next w)%nat;
  wf_listeners d k sid : In (d, (k, sid)) (w_listeners w) -> exists p, SV w sid = Some (k, p, d);
  wf_hooks p sid : w_hooks w !! p = Some sid ->
    exists k d, SV w sid = Some (k, p, d) /\ PV w p = Some (k, true, true) /\ In (d, (k, sid)) (w_listeners w);
  wf_registry k e : w_registry w !! k = Some e ->
    exists sid, w_hooks w !! e_panel e = Some sid /\ SV w sid = Some (k, e_panel e, e_disposable e);
  wf_pending : pending_ok w (w_pending w);
  wf_listener_inj sid1 sid2 k1 k2 p1 p2 d :
    SV w sid1 = Some (k1, p1, d) -> SV w sid2 = Some (k2, p2, d) -> sid1 = sid2
}.

(** Two worlds with the same structure: same views, hooks, registry,
    subscriptions and suspended invocations, and no fewer fresh numbers
    used. *)
Record same_structure (w w' : World) : Prop := {
  ss_pv p : PV w p = PV w' p;
  ss_sv sid : SV w sid = SV w' sid;
  ss_hooks : w_hooks w = w_hooks w';
  ss_registry : w_registry w = w_registry w';
  ss_listeners : w_listeners w = w_listeners w';
  ss_pending : w_pending w = w_pending w';
  ss_next : (w_next w <= w_next w')%nat
}.

Lemma wf_transfer w w' : wf w -> same_structure w w' -> wf w'.
Proof.
  intros Hw [Hpv Hsv Hh Hr Hl Hp Hn]. split.
  - intros p. rewrite <- Hpv. intros ?%(wf_panels_fresh _ Hw). lia.
  - intros sid k p d. rewrite <- Hsv. intros ?%(wf_sessions_fresh _ Hw). lia.
  - intros d k sid. rewrite <- Hl, <- Hsv. apply (wf_listeners _ Hw).
  - intros p sid. rewrite <- Hh. intros Hs. destruct (wf_hooks _ Hw _ _ Hs) as (k & d & ? & ? & ?).
    exists k, d. by rewrite <- Hpv, <- Hsv, <- Hl.
  - intros k e. rewrite <- Hr. intros Hs. destruct (wf_registry _ Hw _ _ Hs) as (sid & ? & ?).
    exists sid. by rewrite <- Hh, <- Hsv.
  - intros i inv p c s. rewrite <- Hp. intros Hi Hs.
    destruct (wf_pending _ Hw _ _ _ _ _ Hi Hs) as (? & (a & h & ?) & Hu).
    split_and!; [by rewrite <- Hh|exists a, h; by rewrite <- Hpv|exact Hu].
  - intros sid1 sid2 k1 k2 p1 p2 d. rewrite <- !Hsv. apply (wf_listener_inj _ Hw).
Qed.

#[export] Hint Resolve wf_transfer : yp.

Lemma same_structure_refl w : same_structure w w.
Proof. by split. Qed.

Lemma same_structure_trans w1 w2 w3 :
  same_structure w1 w2 -> same_structure w2 w3 -> same_structure w1 w3.
Proof.
  intros [] []. split; intros; try congruence. lia.
Qed.

Lemma init_wf docs active c : wf (init_world docs active c).
Proof.
  split; unfold PV, SV; simpl; intros *; rewrite ?lookup_empty; simpl;
    try (intros [? ?]; discriminate); try discriminate; try done.
Qed.

(** ** Views after updates *)

Lemma PV_insert w p pn q :
  PV (upd_panels (<[p := pn]>) w) q = if decide (p = q) then Some (panel_view pn) else PV w q.
Proof. unfold PV. simpl. rewrite lookup_insert. by case_decide. Qed.

Lemma SV_insert w sid ss q :
  SV (upd_sessions (<[sid := ss]>) w) q = if decide (sid = q) then Some (sess_view ss) else SV w q.
Proof. unfold SV. simpl. rewrite lookup_insert. by case_decide. Qed.

Lemma same_structure_panel w p pn pn' :
  w_panels w !! p = Some pn -> panel_view pn' = panel_view pn ->
  same_structure w (upd_panels (<[p := pn']>) w).
Proof.
  intros Hp Hv. split; try done. intros q. rewrite PV_insert.
  case_decide; subst; [|done]. unfold PV. by rewrite Hp, Hv.
Qed.

Lemma same_structure_session w sid ss ss' :
  w_sessions w !! sid = Some ss -> sess_view ss' = sess_view ss ->
  same_structure w (upd_sessions (<[sid := ss']>) w).
Proof.
  intros Hs Hv. split; try done. intros q. rewrite SV_insert.
  case_decide; subst; [|done]. unfold SV. by rewrite Hs, Hv.
Qed.

(** Updates of the documents, timers, servers, log, draws, active editor,
    settings, and a step of the fresh counter keep the structure. *)
Lemma same_structure_docs w g : same_structure w (upd_docs g w).
Proof. by split. Qed.
Lemma same_structure_timers w g : same_structure w (upd_timers g w).
Proof. by split. Qed.
Lemma same_structure_servers w g : same_structure w (upd_servers g w).
Proof. by split. Qed.
Lemma same_structure_log w e : same_structure w (log e w).
Proof. by split. Qed.
Lemma same_structure_draw w g : same_structure w (upd_draw g w).
Proof. by split. Qed.
Lemma same_structure_active w g : same_structure w (upd_active g w).
Proof. by split. Qed.
Lemma same_structure_config w g : same_structure w (upd_config g w).
Proof. by split. Qed.

#[export] Hint Resolve same_structure_refl same_structure_docs same_structure_timers
  same_structure_servers same_structure_log same_structure_draw same_structure_active
  same_structure_config : yp.

(** ** The handlers that keep the structure *)

Section Handlers.
Context `{URLParser}.
Variables (host : Webview) (context : ExtensionContext) (rand : nat -> Z).

Lemma reveal_structure p w : same_structure w (reveal p w).
Proof.
  unfold reveal. destruct (w_panels w !! p) as [pn|] eqn:Hp; [|auto with yp].
  destruct (pn_alive pn); [|auto with yp]. by apply (same_structure_panel _ _ pn).
Qed.

Lemma post_message_structure p m w : same_structure w (post_message p m w).
Proof.
  unfold post_message. destruct (w_panels w !! p) as [pn|] eqn:Hp; [|auto with yp].
  destruct (pn_alive pn); [|auto with yp]. by apply (same_structure_panel _ _ pn).
Qed.

Lemma fire_timer_structure w : same_structure w (fire_timer w).
Proof.
  unfold fire_timer. destruct (pop_next (w_timers w)) as [[tm q]|]; [|auto with yp].
  eapply same_structure_trans; [apply same_structure_timers|].
  repeat case_match; auto using post_message_structure with yp.
Qed.

Lemma send_update_structure sid w : same_structure w (send_update sid w).
Proof.
  unfold send_update. destruct (w_sessions w !! sid) as [ss|] eqn:Hs; [|auto with yp].
  destruct (debounce_call _ _ _ _) as [t q].
  eapply same_structure_trans; [apply (same_structure_timers _ (fun _ => q))|].
  by apply (same_structure_session _ _ ss).
Qed.

Lemma listeners_run_structure u ls w :
  same_structure w (fold_left (fun w' (l : nat * (string * nat)) =>
                       if String.eqb l.2.1 u then send_update l.2.2 w' else w') ls w).
Proof.
  revert w. induction ls as [|l ls IH]; intros w; simpl; [auto with yp|].
  eapply same_structure_trans; [|apply IH].
  destruct (String.eqb _ _); [apply send_update_structure|apply same_structure_refl].
Qed.

Lemma change_document_structure u text v w : same_structure w (change_document u text v w).
Proof.
  unfold change_document. destruct (w_docs w !! u) as [doc|]; [|auto with yp].
  eapply same_structure_trans; [apply same_structure_docs|]. apply listeners_run_structure.
Qed.

Lemma tick_structure t w : same_structure w (tick t w).
Proof. unfold tick. case_match; auto with yp. Qed.

Lemma same_structure_next w : same_structure w (upd_next S w).
Proof. split; simpl; try done. lia. Qed.

End Handlers.

(** ** Suspended invocations *)

Lemma wf_upd_pending w g : wf w -> pending_ok w (g (w_pending w)) -> wf (upd_pending g w).
Proof.
  intros Hw Hp. destruct Hw. split; try done.
Qed.

Lemma pending_ok_delete w pm i : pending_ok w pm -> pending_ok w (delete i pm).
Proof.
  intros Hp j inv p c s Hj Hs. rewrite lookup_delete in Hj. case_decide; [done|].
  destruct (Hp _ _ _ _ _ Hj Hs) as (? & ? & Hu). split_and!; [done|done|].
  intros j' inv' c' s' Hj'. rewrite lookup_delete in Hj'. case_decide; [done|]. by apply Hu.
Qed.

Lemma pending_ok_show w pm i k : pending_ok w pm -> pending_ok w (<[i := mkInv k AwaitShow]> pm).
Proof.
  intros Hp j inv p c s Hj Hs. rewrite lookup_insert in Hj. case_decide; [by simplify_eq|].
  destruct (Hp _ _ _ _ _ Hj Hs) as (? & ? & Hu). split_and!; [done|done|].
  intros j' inv' c' s' Hj'. rewrite lookup_insert in Hj'. case_decide; [by simplify_eq|]. by apply Hu.
Qed.

Lemma pending_ok_bind w pm i k p c s a h :
  pending_ok w pm -> w_hooks w !! p = None -> PV w p = Some (k, a, h) ->
  (forall j inv c' s', pm !! j = Some inv -> inv_stage inv = AwaitBind p c' s' -> j = i) ->
  pending_ok w (<[i := mkInv k (AwaitBind p c s)]> pm).
Proof.
  intros Hp Hh Hv Hu j inv p' c' s' Hj Hs. rewrite lookup_insert in Hj.
  destruct (decide (i = j)) as [<-|Hij].
  - simplify_eq/=. split_and!; [done|eauto|].
    intros j2 inv2 c2 s2 Hj2. rewrite lookup_insert in Hj2.
    destruct (decide (i = j2)); [done|]. by apply Hu.
  - destruct (Hp _ _ _ _ _ Hj Hs) as (? & ? & Hu'). split_and!; [done|done|].
    intros j2 inv2 c2 s2 Hj2 Hs2. rewrite lookup_insert in Hj2.
    destruct (decide (i = j2)) as [<-|Hij2].
    + simplify_eq/=. exfalso. apply Hij. symmetry. exact (Hu _ _ _ _ Hj Hs).
    + exact (Hu' _ _ _ _ Hj2 Hs2).
Qed.

(** ** A new panel *)

Lemma pending_ok_transfer w w' pm :
  pending_ok w pm -> w_hooks w' = w_hooks w ->
  (forall p, is_Some (PV w p) -> PV w' p = PV w p) -> pending_ok w' pm.
Proof.
  intros Hp Hh Hpv i inv p c s Hi Hs. destruct (Hp _ _ _ _ _ Hi Hs) as (? & (a & h & Hv) & Hu).
  split_and!; [by rewrite Hh| |done]. exists a, h. rewrite Hpv; [done|]. by rewrite Hv.
Qed.

Lemma wf_new_panel w pn : wf w -> wf (upd_panels (<[w_next w := pn]>) (upd_next S w)).
Proof.
  intros Hw.
  assert (forall q, is_Some (PV w q) -> PV (upd_panels (<[w_next w := pn]>) (upd_next S w)) q = PV w q)
    as Hold.
  { intros q Hq. rewrite PV_insert. apply (wf_panels_fresh _ Hw) in Hq.
    rewrite decide_False by lia. done. }
  destruct Hw as [F1 F2 F3 F4 F5 F6 F7]. split; simpl.
  - intros q. rewrite PV_insert. case_decide; [lia|]. intros ?%F1. lia.
  - intros sid k p d ?%F2. lia.
  - exact F3.
  - intros p sid Hs. destruct (F4 _ _ Hs) as (k & d & Hsv & Hpv & Hin).
    exists k, d. rewrite Hold by (by rewrite Hpv). done.
  - exact F5.
  - eapply pending_ok_transfer; [exact F6|done|exact Hold].
  - apply F7.
Qed.

(** ** Registering a session (the end of [finish]) *)

Lemma wf_register w w' i key p N :
  wf w -> N = w_next w ->
  (exists h, PV w p = Some (key, true, h)) -> w_hooks w !! p = None ->
  (forall j inv c' s', w_pending w !! j = Some inv -> inv_stage inv = AwaitBind p c' s' -> j = i) ->
  (forall q, PV w' q = if decide (p = q) then Some (key, true, true) else PV w q) ->
  (forall q, SV w' q = if decide (N = q) then Some (key, p, S N) else SV w q) ->
  w_listeners w' = w_listeners w ++ [(S N, (key, N))] ->
  w_hooks w' = <[p := N]> (w_hooks w) ->
  w_registry w' = <[key := mkEntry p (S N)]> (w_registry w) ->
  w_pending w' = delete i (w_pending w) ->
  w_next w' = S (S N) ->
  wf w'.
Proof.
  intros Hw -> [h0 Hp] Hnohook Huniq Hpv Hsv Hl Hh Hr Hpend Hn.
  pose proof (wf_panels_fresh _ Hw p ltac:(by rewrite Hp)) as Hpfresh.
  assert (forall q, is_Some (SV w q) -> q <> w_next w) as Hsfresh.
  { intros q [[[k p'] d] Hq]. apply (wf_sessions_fresh _ Hw) in Hq. lia. }
  split; rewrite ?Hl, ?Hh, ?Hr, ?Hpend, ?Hn.
  - intros q. rewrite Hpv. case_decide; [lia|]. intros ?%(wf_panels_fresh _ Hw). lia.
  - intros sid k p' d. rewrite Hsv. case_decide; [intros [= <- <- <-]; lia|].
    intros ?%(wf_sessions_fresh _ Hw). lia.
  - intros d k sid [Hin|[[= <- <- <-]|[]]]%in_app_or.
    + destruct (wf_listeners _ Hw _ _ _ Hin) as [p' Hs]. exists p'.
      rewrite Hsv, decide_False; [done|]. intros <-. apply (Hsfresh (w_next w)); [by rewrite Hs|done].
    + exists p. rewrite Hsv. by rewrite decide_True.
  - intros p' sid. rewrite lookup_insert. case_decide as Hpp.
    + intros [= <-]. subst p'. exists key, (S (w_next w)). rewrite Hsv, Hpv, !decide_True by done.
      split_and!; [done|done|]. apply in_or_app. right. by left.
    + intros Hs. destruct (wf_hooks _ Hw _ _ Hs) as (k & d & Hs1 & Hp1 & Hin).
      exists k, d. rewrite Hsv, Hpv, !decide_False; [|done|].
      * split_and!; [done|done|]. apply in_or_app. by left.
      * intros <-. apply (Hsfresh (w_next w)); [by rewrite Hs1|done].
  - intros k e. rewrite lookup_insert. case_decide as Hk.
    + intros [= <-]. subst k. exists (w_next w). simpl. rewrite lookup_insert, decide_True by done.
      rewrite Hsv, decide_True by done. done.
    + intros He. destruct (wf_registry _ Hw _ _ He) as (sid & Hs & Hsv1).
      exists sid. rewrite lookup_insert, decide_False.
      * rewrite Hsv, decide_False; [done|]. intros <-. apply (Hsfresh (w_next w)); [by rewrite Hsv1|done].
      * intros Hpe. rewrite Hpe in Hnohook. congruence.
  - intros j inv p' c s. rewrite lookup_delete. case_decide as Hij; [done|].
    intros Hj Hs. destruct (wf_pending _ Hw _ _ _ _ _ Hj Hs) as (Hh1 & (a & h & Hv) & Hu).
    assert (p <> p') as Hpp by (intros <-; apply Hij; symmetry; exact (Huniq _ _ _ _ Hj Hs)).
    split_and!.
    + by rewrite Hh, lookup_insert, decide_False.
    + exists a, h. by rewrite Hpv, decide_False.
    + intros j2 inv2 c2 s2. rewrite lookup_delete. case_decide; [done|]. apply Hu.
  - intros sid1 sid2 k1 k2 p1 p2 d. rewrite !Hsv.
    case_decide as H1; case_decide as H2; try congruence.
    + intros [= <- <- <-] Hs2. apply (wf_sessions_fresh _ Hw) in Hs2. lia.
    + intros Hs1 [= <- <- <-]. apply (wf_sessions_fresh _ Hw) in Hs1. lia.
    + apply (wf_listener_inj _ Hw).
Qed.

(** ** Each handler preserves [wf] *)

Section Steps.
Context `{URLParser}.
Variables (host : Webview) (context : ExtensionContext) (rand : nat -> Z).

Lemma wf_finish i key p c server url w pn :
  wf w -> w_panels w !! p = Some pn -> pn_key pn = key -> w_hooks w !! p = None ->
  (forall j inv c' s', w_pending w !! j = Some inv -> inv_stage inv = AwaitBind p c' s' -> j = i) ->
  wf (finish host context rand i key p c server url w).
Proof.
  intros Hw Hp Hk Hh Hu. unfold finish.
  assert (wf (upd_draw (Nat.add 32) (upd_pending (delete i) w))) as Hw0.
  { eapply wf_transfer; [|apply same_structure_draw].
    apply wf_upd_pending; [done|]. apply pending_ok_delete, Hw. }
  destruct (getWebviewHtml _ _ _ _ _ _ _) as [html|e];
    [|eapply wf_transfer; [exact Hw0|apply same_structure_log]].
  simpl. rewrite Hp. destruct (pn_alive pn) eqn:Ha;
    [|eapply wf_transfer; [exact Hw0|apply same_structure_log]].
  destruct (debounce_call None (w_timers w) (w_next w) (cfg_debounceMs c)) as [timer q].
  eapply (wf_register w _ i key p (w_next w)); try done.
  - exists (bool_decide (is_Some (pn_html pn))). unfold PV. rewrite Hp. simpl.
    unfold panel_view. by rewrite Hk, Ha.
  - intros q'. unfold PV. simpl. rewrite lookup_insert.
    case_decide; [|done]. unfold panel_view. simpl. by rewrite Hk, Ha.
  - intros q'. unfold SV. simpl. rewrite lookup_insert. by case_decide.
Qed.

Lemma wf_open_command w : wf w -> wf (open_command w).
Proof.
  intros Hw. unfold open_command, fresh.
  repeat case_match;
    try solve [eapply wf_transfer; [exact Hw|auto using reveal_structure with yp]].
  apply wf_upd_pending.
  - eapply wf_transfer; [exact Hw|apply same_structure_next].
  - apply pending_ok_show. eapply pending_ok_transfer; [apply Hw|done|done].
Qed.

Lemma wf_resume_show i w : wf w -> wf (resume_show host context rand i w).
Proof.
  intros Hw. unfold resume_show.
  destruct (w_pending w !! i) as [[key [|p c s]]|] eqn:Hi; [|done|done]. simpl.
  set (w2 := upd_panels (<[w_next w := mkPanel key true None 0 []]>) (upd_next S w)).
  assert (wf w2) as Hw2 by (by apply wf_new_panel).
  assert (forall q, is_Some (PV w q) -> q <> w_next w) as Hfresh
    by (intros q ?%(wf_panels_fresh _ Hw); lia).
  assert (w_hooks w2 !! w_next w = None) as Hnohook.
  { destruct (w_hooks w2 !! w_next w) as [sid|] eqn:Hs; [|done].
    destruct (wf_hooks _ Hw _ _ Hs) as (k & d & _ & Hpv & _).
    exfalso. apply (Hfresh (w_next w)); [by rewrite Hpv|done]. }
  assert (forall j inv c' s', w_pending w2 !! j = Some inv -> inv_stage inv = AwaitBind (w_next w) c' s' -> False)
    as Hnobind.
  { intros j inv c' s' Hj Hs. destruct (wf_pending _ Hw _ _ _ _ _ Hj Hs) as (_ & (a & h & Hv) & _).
    apply (Hfresh (w_next w)); [by rewrite Hv|done]. }
  destruct (negb (isHttpsUrl _)).
  - apply wf_upd_pending.
    + eapply wf_transfer; [exact Hw2|].
      eapply same_structure_trans; [apply same_structure_next|apply same_structure_servers].
    + eapply pending_ok_bind with (a := true) (h := false).
      * eapply pending_ok_transfer; [apply Hw2|done|done].
      * exact Hnohook.
      * unfold PV. simpl. by rewrite lookup_insert_eq.
      * intros j inv c' s' Hj Hs. exfalso. exact (Hnobind j inv c' s' Hj Hs).
  - apply (wf_finish _ _ _ _ _ _ _ (mkPanel key true None 0 [])); try done.
    + simpl. by rewrite lookup_insert_eq.
    + intros j inv c' s' Hj Hs. exfalso. exact (Hnobind j inv c' s' Hj Hs).
Qed.

Lemma wf_resume_bind i b w : wf w -> wf (resume_bind host context rand i b w).
Proof.
  intros Hw. unfold resume_bind.
  destruct (w_pending w !! i) as [[key [|p c s]]|] eqn:Hi; [done| |done].
  destruct (wf_pending _ Hw _ _ _ _ _ Hi eq_refl) as (Hh & (a & h & Hv) & Hu).
  destruct (start_outcome b) as [[port url]|e].
  - unfold PV in Hv. destruct (w_panels w !! p) as [pn|] eqn:Hp; [|done]. simpl in Hv.
    injection Hv as Hk _ _.
    apply (wf_finish _ _ _ _ _ _ _ pn); try done.
    eapply wf_transfer; [exact Hw|apply same_structure_servers].
  - eapply wf_transfer; [|apply same_structure_log].
    apply wf_upd_pending; [eapply wf_transfer; [exact Hw|apply same_structure_servers]|].
    apply pending_ok_delete. eapply pending_ok_transfer; [apply Hw|done|done].
Qed.

Lemma wf_kill_unhooked w p pn :
  wf w -> w_panels w !! p = Some pn -> w_hooks w !! p = None ->
  wf (upd_panels (<[p := set_dead pn]>) w).
Proof.
  intros Hw Hp Hh.
  assert (forall q a h, PV (upd_panels (<[p := set_dead pn]>) w) q = Some (a, true, h) ->
            PV w q = Some (a, true, h)) as Hlive.
  { intros q a h. rewrite PV_insert. case_decide; [done|done]. }
  destruct Hw as [F1 F2 F3 F4 F5 F6 F7]. split; simpl; try done.
  - intros q. rewrite PV_insert. case_decide; [subst; intros _; apply F1; unfold PV; rewrite Hp; by eexists|apply F1].
  - intros q sid Hs. destruct (F4 _ _ Hs) as (k & d & ? & Hv & ?). exists k, d.
    rewrite PV_insert, decide_False; [done|]. intros ->; congruence.
  - intros i inv p' c s Hi Hs. destruct (F6 _ _ _ _ _ Hi Hs) as (Hh' & (a & h & Hv) & Hu).
    split_and!; [done| |done]. rewrite PV_insert. case_decide; subst; [|eauto].
    unfold PV in Hv. rewrite Hp in Hv. injection Hv as Hk _ _.
    eexists false, _. unfold panel_view. simpl. by rewrite Hk.
Qed.

Lemma PV_ext w w' q : w_panels w = w_panels w' -> PV w q = PV w' q.
Proof. unfold PV. by intros ->. Qed.

(** Closing a hooked panel: the panel dies, its hook and subscription go,
    its server (if any) is closed and its registry entry is removed. *)
Lemma wf_teardown w p pn sid ss g :
  wf w -> w_panels w !! p = Some pn -> w_hooks w !! p = Some sid -> w_sessions w !! sid = Some ss ->
  wf (upd_registry (delete (ss_key ss)) (upd_servers g
       (upd_listeners (filter (fun l => l.1 <> ss_listener ss))
         (upd_hooks (delete p) (upd_panels (<[p := set_dead pn]>) w))))).
Proof.
  intros Hw Hp Hh Hs.
  destruct (wf_hooks _ Hw _ _ Hh) as (k & d & Hsv & Hpv & Hin).
  unfold SV in Hsv. rewrite Hs in Hsv. injection Hsv as Hk Hsp Hd.
  assert (forall q, q <> p -> PV (upd_panels (<[p := set_dead pn]>) w) q = PV w q) as Hother.
  { intros q Hq. rewrite PV_insert, decide_False; [done|congruence]. }
  match goal with |- wf ?W =>
    assert (forall q, PV W q = PV (upd_panels (<[p := set_dead pn]>) w) q) as HPV by reflexivity end.
  destruct Hw as [F1 F2 F3 F4 F5 F6 F7]. split; intros *; rewrite ?HPV; simpl.
  - rewrite PV_insert. case_decide; [subst; intros _; apply F1; unfold PV; rewrite Hp; by eexists|apply F1].
  - apply F2.
  - intros Hl. apply list_elem_of_In, list_elem_of_filter in Hl as [_ Hl].
    apply F3, list_elem_of_In, Hl.
  - intros Hq. rewrite lookup_delete in Hq. case_decide as Hqp; [done|].
    destruct (F4 _ _ Hq) as (k' & d' & Hsv' & Hpv' & Hin'). exists k', d'.
    rewrite Hother by congruence. split_and!; [done|done|].
    apply list_elem_of_In, list_elem_of_filter. split; [|by apply list_elem_of_In].
    simpl. intros ->. assert (sid0 = sid) as ->.
    { eapply F7; [exact Hsv'|]. unfold SV. rewrite Hs. reflexivity. }
    unfold SV in Hsv'. rewrite Hs in Hsv'. injection Hsv' as _ Hq'. congruence.
  - intros He. rewrite lookup_delete in He. case_decide as Hkk; [done|].
    destruct (F5 _ _ He) as (sid0 & Hh' & Hsv'). exists sid0. split; [|done].
    rewrite lookup_delete, decide_False; [done|]. intros Hep. rewrite <- Hep in Hh'.
    rewrite Hh in Hh'. injection Hh' as <-. unfold SV in Hsv'. rewrite Hs in Hsv'.
    injection Hsv' as Hk' _ _. congruence.
  - intros i inv p0 c s' Hi Hst. destruct (F6 _ _ _ _ _ Hi Hst) as (Hh' & Hv' & Hu).
    assert (p0 <> p) as Hne by congruence.
    split_and!; [|by rewrite HPV, Hother|done]. simpl. by rewrite lookup_delete, decide_False by congruence.
  - apply F7.
Qed.

Lemma wf_dispose_panel p w : wf w -> wf (dispose_panel p w).
Proof.
  intros Hw. unfold dispose_panel.
  destruct (w_panels w !! p) as [pn|] eqn:Hp; [|done].
  destruct (pn_alive pn); [|done]. simpl.
  destruct (w_hooks w !! p) as [sid|] eqn:Hh; [|by apply wf_kill_unhooked].
  destruct (w_sessions w !! sid) as [ss|] eqn:Hs.
  - destruct (ss_server ss) as [s|].
    + exact (wf_teardown _ _ _ _ _ _ Hw Hp Hh Hs).
    + eapply wf_transfer; [exact (wf_teardown _ _ _ _ _ (fun x => x) Hw Hp Hh Hs)|].
      split; reflexivity.
  - destruct (wf_hooks _ Hw _ _ Hh) as (? & ? & Hsv & _). unfold SV in Hsv. by rewrite Hs in Hsv.
Qed.

Lemma wf_handle e w : wf w -> wf (handle host context rand e w).
Proof.
  intros Hw. destruct e; simpl.
  - by apply wf_open_command.
  - by apply wf_resume_show.
  - by apply wf_resume_bind.
  - eapply wf_transfer; [exact Hw|apply change_document_structure].
  - eapply wf_transfer; [exact Hw|apply tick_structure].
  - eapply wf_transfer; [exact Hw|apply fire_timer_structure].
  - by apply wf_dispose_panel.
  - eapply wf_transfer; [exact Hw|apply same_structure_active].
  - eapply wf_transfer; [exact Hw|apply same_structure_config].
Qed.

Lemma wf_reachable docs active c w :
  reachable host context rand (init_world docs active c) w -> wf w.
Proof. induction 1; [apply init_wf|by apply wf_handle]. Qed.

End Steps.
