(* ===== verification/Properties.v ===== *)
(** * What the invariant gives: properties of every reachable world

    From [wf] ([Invariants.v]) and two facts about how handlers touch
    panels: a registry entry always names a live preview whose change
    subscription is active ([registry_live]); a disposed panel is never
    written again, so no page, reveal or message reaches it
    ([disposed_panel_frozen]); re-running the command on a registered
    document only reveals its panel ([reopen_reveals]); closing a
    registered preview releases its subscription, its server and its key
    ([close_tears_down]). *)

From S2P Require Import Prelude Url Host Resolver Escape Debounce DemoServer Webview Extension Invariants.

(** ** Disposed panels stay as they are *)

(** Every disposed panel of [w] is found unchanged in [w']. *)
Definition dead_frozen (w w' : World) : Prop :=
  forall p pn, w_panels w !! p = Some pn -> pn_alive pn = false -> w_panels w' !! p = Some pn.

Lemma dead_frozen_refl w : dead_frozen w w.
Proof. by intros p pn. Qed.

Lemma dead_frozen_trans w1 w2 w3 : dead_frozen w1 w2 -> dead_frozen w2 w3 -> dead_frozen w1 w3.
Proof. intros H12 H23 p pn Hp Ha. apply H23; [by apply H12|done]. Qed.

Lemma dead_frozen_same w w' : w_panels w' = w_panels w -> dead_frozen w w'.
Proof. intros Heq p pn. by rewrite Heq. Qed.

Lemma dead_frozen_live w q pn x :
  w_panels w !! q = Some pn -> pn_alive pn = true -> dead_frozen w (upd_panels (<[q := x]>) w).
Proof.
  intros Hq Ha p pn' Hp Ha'. simpl. rewrite lookup_insert, decide_False; [done|].
  intros ->. congruence.
Qed.

Lemma dead_frozen_new w q x : w_panels w !! q = None -> dead_frozen w (upd_panels (<[q := x]>) w).
Proof.
  intros Hq p pn' Hp Ha'. simpl. rewrite lookup_insert, decide_False; [done|].
  intros ->. congruence.
Qed.

#[export] Hint Resolve dead_frozen_refl dead_frozen_live dead_frozen_new : yp.
#[export] Hint Extern 1 (dead_frozen _ _) => (apply dead_frozen_same; reflexivity) : yp.

Section Handlers.
Context `{URLParser}.
Variables (host : Webview) (context : ExtensionContext) (rand : nat -> Z).

Lemma reveal_frozen p w : dead_frozen w (reveal p w).
Proof. unfold reveal. repeat case_match; eauto with yp. Qed.

Lemma post_message_frozen p m w : dead_frozen w (post_message p m w).
Proof. unfold post_message. repeat case_match; eauto with yp. Qed.

Lemma finish_frozen i key p c server url w :
  dead_frozen w (finish host context rand i key p c server url w).
Proof.
  unfold finish, fresh. case_match; [|auto with yp].
  destruct (w_panels _ !! p) as [pn|] eqn:Hp; [|auto with yp].
  destruct (pn_alive pn) eqn:Ha; [|auto with yp].
  repeat case_match; simplify_eq/=.
  eapply dead_frozen_trans; [eapply dead_frozen_live; [exact Hp|exact Ha]|].
  apply dead_frozen_same. reflexivity.
Qed.

Lemma send_update_frozen sid w : dead_frozen w (send_update sid w).
Proof. unfold send_update. repeat case_match; auto with yp. Qed.

Lemma change_document_frozen u text v w : dead_frozen w (change_document u text v w).
Proof.
  unfold change_document. case_match; [|auto with yp].
  match goal with |- dead_frozen _ (fold_left _ (w_listeners ?w1) _) =>
    apply (dead_frozen_trans _ w1); [auto with yp|]; generalize (w_listeners w1) as ls; generalize w1 end.
  intros w1 ls. revert w1.
  induction ls as [|l ls IH]; intros w1; simpl; [auto with yp|].
  eapply dead_frozen_trans; [|apply IH]. case_match; [apply send_update_frozen|auto with yp].
Qed.

Lemma fire_timer_frozen w : dead_frozen w (fire_timer w).
Proof.
  unfold fire_timer. destruct (pop_next (w_timers w)) as [[tm q]|]; [|auto with yp].
  apply (dead_frozen_trans _ (upd_timers (fun _ => q) w)); [auto with yp|].
  repeat case_match; auto using post_message_frozen with yp.
Qed.

Lemma handle_frozen e w : wf w -> dead_frozen w (handle host context rand e w).
Proof.
  intros Hw. destruct e; simpl.
  - unfold open_command, fresh. repeat case_match; auto using reveal_frozen with yp.
  - unfold resume_show, fresh.
    destruct (w_pending w !! i) as [[key [|]]|]; try apply dead_frozen_refl.
    assert (w_panels w !! w_next w = None) as Hn.
    { destruct (w_panels w !! w_next w) eqn:Hn; [|done]. exfalso.
      assert (is_Some (PV w (w_next w))) as Hs by (unfold PV; rewrite Hn; by eexists).
      apply (wf_panels_fresh _ Hw) in Hs. lia. }
    apply (dead_frozen_trans _ (upd_next S w)); [auto with yp|].
    eapply dead_frozen_trans; [apply dead_frozen_new, Hn|].
    case_match; simpl; [auto with yp|apply finish_frozen].
  - unfold resume_bind. repeat case_match; try apply dead_frozen_refl.
    + eapply dead_frozen_trans; [|apply finish_frozen]. auto with yp.
    + auto with yp.
  - apply change_document_frozen.
  - unfold tick. case_match; auto with yp.
  - apply fire_timer_frozen.
  - unfold dispose_panel. repeat case_match; simplify_eq/=; try apply dead_frozen_refl;
      try solve [eapply dead_frozen_trans; [eapply dead_frozen_live; eauto|]; auto with yp].
  - auto with yp.
  - auto with yp.
Qed.

End Handlers.

(** ** What a registry entry guarantees *)

Lemma registered_panel w k e :
  wf w -> w_registry w !! k = Some e ->
  exists pn sid ss,
    w_panels w !! e_panel e = Some pn /\ pn_key pn = k /\ pn_alive pn = true /\ is_Some (pn_html pn) /\
    w_hooks w !! e_panel e = Some sid /\ w_sessions w !! sid = Some ss /\
    ss_key ss = k /\ ss_panel ss = e_panel e /\ ss_listener ss = e_disposable e /\
    In (e_disposable e, (k, sid)) (w_listeners w).
Proof.
  intros Hw He. destruct (wf_registry _ Hw _ _ He) as (sid & Hh & Hsv).
  destruct (wf_hooks _ Hw _ _ Hh) as (k' & d & Hsv' & Hpv & Hin).
  rewrite Hsv in Hsv'. simplify_eq.
  unfold SV in Hsv. destruct (w_sessions w !! sid) as [ss|] eqn:Hs; [|done].
  unfold PV in Hpv. destruct (w_panels w !! e_panel e) as [pn|] eqn:Hp; [|done].
  simplify_eq/=. unfold panel_view, sess_view in *. simplify_eq.
  exists pn, sid, ss. split_and!; try done. by eapply bool_decide_eq_true_1.
Qed.

Lemma reachable_run `{URLParser} host context rand w0 w evs :
  reachable host context rand w0 w -> reachable host context rand w0 (run host context rand evs w).
Proof.
  revert w. induction evs as [|e evs IH]; intros w Hr; simpl; [done|].
  apply IH. by constructor.
Qed.

(** ** Theorems *)

Section Claims.
Context `{URLParser}.
Variables (host : Webview) (context : ExtensionContext) (rand : nat -> Z).
Variables (docs : gmap string TextDocument) (active : option string) (c : Config).

(** C1: in every reachable world, the registry ([previewByDoc]) names
    only live previews of the right document: the panel was created for
    that document, is not disposed, has its page, has its dispose handler
    registered, and its change subscription (the entry's disposable) is
    subscribed for that document. *)
Theorem registry_live w k e :
  reachable host context rand (init_world docs active c) w ->
  w_registry w !! k = Some e ->
  is_live w k (e_panel e) = true /\ exists sid, In (e_disposable e, (k, sid)) (w_listeners w).
Proof.
  intros Hr He.
  destruct (registered_panel _ _ _ (wf_reachable _ _ _ _ _ _ _ Hr) He)
    as (pn & sid & ss & Hp & Hk & Ha & Hh & Hho & _ & _ & _ & _ & Hin).
  split; [|eauto]. unfold is_live. rewrite Hp, Hho, Hk, Ha, String.eqb_refl.
  by apply bool_decide_eq_true_2.
Qed.


(** C4: running the command again on a registered YAML document only
    reveals its panel (lines 28-33): the world is otherwise unchanged, and
    the reveal never hits a disposed panel. *)
Theorem reopen_reveals w u doc e :
  reachable host context rand (init_world docs active c) w ->
  w_active w = Some u -> w_docs w !! u = Some doc -> isYaml doc = true ->
  w_registry w !! td_uri doc = Some e ->
  exists pn, w_panels w !! e_panel e = Some pn /\ pn_alive pn = true /\
    handle host context rand Open w = upd_panels (<[e_panel e := add_reveal pn]>) w.
Proof.
  intros Hr Hu Hd Hy He.
  destruct (registered_panel _ _ _ (wf_reachable _ _ _ _ _ _ _ Hr) He)
    as (pn & _ & _ & Hp & _ & Ha & _).
  exists pn. split_and!; [done|done|]. simpl. unfold open_command.
  rewrite Hu, Hd, Hy. simpl. rewrite He. unfold reveal. by rewrite Hp, Ha.
Qed.

(** C2: closing a registered preview tears it down (lines 87-91): the
    panel is disposed, its dispose handler and its change subscription are
    gone, its server (if it had one) is closed, and its document's key is
    removed from the registry. *)
Theorem close_tears_down w k e :
  reachable host context rand (init_world docs active c) w ->
  w_registry w !! k = Some e ->
  let w' := handle host context rand (Dispose (e_panel e)) w in
  w_registry w' !! k = None /\ w_hooks w' !! e_panel e = None /\
  (forall l, In l (w_listeners w') -> l.1 <> e_disposable e) /\
  (exists pn, w_panels w' !! e_panel e = Some pn /\ pn_alive pn = false) /\
  (forall sid ss s, w_hooks w !! e_panel e = Some sid -> w_sessions w !! sid = Some ss ->
     ss_server ss = Some s -> w_servers w' !! s = Some Closed).
Proof.
  intros Hr He w'.
  destruct (registered_panel _ _ _ (wf_reachable _ _ _ _ _ _ _ Hr) He)
    as (pn & sid & ss & Hp & _ & Ha & _ & Hh & Hs & Hk & _ & Hd & _).
  unfold w'. simpl. unfold dispose_panel. rewrite Hp, Ha. simpl. rewrite Hh, Hs.
  destruct (ss_server ss) as [s0|] eqn:Hsv; simpl;
    (split_and!; [by rewrite Hk, lookup_delete_eq | by rewrite lookup_delete_eq | | | ]).
  all: try (intros l Hl; apply list_elem_of_In, list_elem_of_filter in Hl as [Hl _]; by rewrite <- Hd).
  all: try (eexists; split; [by rewrite lookup_insert_eq|done]).
  all: intros sid' ss' s [= <-] Hs'; rewrite Hs in Hs'; injection Hs' as <-; rewrite Hsv.
  - intros [= <-]. by rewrite lookup_insert_eq.
  - done.
Qed.

End Claims.

(** ** The command's notices (lines 12-26) *)

Definition yaml_warning : string := "Open a YAML (.yml/.yaml) file to use this preview.".

(** The test of lines 18-21: the declared language, or the lower-cased
    path ending in [.yml] or [.yaml]. *)
Lemma isYaml_spec doc :
  isYaml doc = true <->
  td_languageId doc = "yaml" \/ (exists p, toLowerCase (td_fsPath doc) = p +:+ ".yml") \/
  (exists p, toLowerCase (td_fsPath doc) = p +:+ ".yaml").
Proof. unfold isYaml. rewrite !orb_true_iff, String.eqb_eq, !endsWith_spec. tauto. Qed.

Lemma reveal_log p w :
  w_log (reveal p w) = w_log w \/ w_log (reveal p w) = w_log w ++ [Rejected "Webview is disposed"].
Proof. unfold reveal. repeat case_match; auto. Qed.

Section Notices.
Context `{URLParser}.

(** C39: the command refuses exactly the documents the spec calls not
    YAML (section 5): with an active document, the command shows the
    warning and leaves the world otherwise as it was if and only if the
    document's language is not [yaml] and its path, lower-cased, ends in
    neither [.yml] nor [.yaml].  Every other outcome of the command
    (revealing, or starting a new preview) leaves no warning. *)
Theorem open_command_warns_iff_not_yaml w u doc :
  w_active w = Some u -> w_docs w !! u = Some doc ->
  open_command w = log (Warning yaml_warning) w <->
  ~ (td_languageId doc = "yaml" \/ (exists p, toLowerCase (td_fsPath doc) = p +:+ ".yml") \/
     (exists p, toLowerCase (td_fsPath doc) = p +:+ ".yaml")).
Proof.
  intros Ha Hd. rewrite <- isYaml_spec. unfold open_command. rewrite Ha, Hd.
  destruct (isYaml doc); simpl; [|split; [by intros _|done]].
  split; [|intros Hn; by contradiction Hn].
  intros Heq%(f_equal w_log). exfalso. simpl in Heq.
  repeat case_match; simplify_eq/=.
  - destruct (reveal_log (e_panel e) w) as [Hl|Hl]; rewrite Hl in Heq.
    + apply (f_equal length) in Heq. rewrite length_app in Heq. simpl in Heq. lia.
    + by apply app_inj_tail in Heq as [_ ?].
  - apply (f_equal length) in Heq. rewrite length_app in Heq. simpl in Heq. lia.
Qed.

End Notices.

(** ** The theorems at a concrete run *)

(** The sample document opened with an insecure remote URL: invocation 0,
    panel 1, server 2 (bound at port 5000), session 3, subscription 4. *)
Definition sample_opened : World :=
  sample_run sample_config [Open; ShowDone 0; BindDone 0 (Bound 5000)].

Definition sample_closed : World :=
  sample_run sample_config [Open; ShowDone 0; BindDone 0 (Bound 5000); Dispose 1].

Definition closed_panel : Panel :=
  default (mkPanel EmptyString false None 0 []) (w_panels sample_closed !! 1%nat).

Lemma registry_live_witness :
  w_registry sample_opened !! td_uri sample_doc = Some (mkEntry 1 4) /\
  is_live sample_opened (td_uri sample_doc) 1 = true /\
  exists sid, In (4%nat, (td_uri sample_doc, sid)) (w_listeners sample_opened).
Proof.
  split; [vm_compute; reflexivity|].
  apply (registry_live sample_webview sample_context (fun _ => 0%Z)
           {[ td_uri sample_doc := sample_doc ]} (Some (td_uri sample_doc)) sample_config sample_opened
           (td_uri sample_doc) (mkEntry 1 4)); [apply run_reachable|vm_compute; reflexivity].
Defined.


Lemma reopen_reveals_witness :
  exists pn, w_panels sample_opened !! 1%nat = Some pn /\ pn_alive pn = true /\
    handle sample_webview sample_context (fun _ => 0%Z) Open sample_opened =
      upd_panels (<[1%nat := add_reveal pn]>) sample_opened.
Proof.
  apply (reopen_reveals sample_webview sample_context (fun _ => 0%Z)
           {[ td_uri sample_doc := sample_doc ]} (Some (td_uri sample_doc)) sample_config sample_opened
           (td_uri sample_doc) sample_doc (mkEntry 1 4));
    [apply run_reachable|vm_compute; reflexivity..].
Defined.

Lemma close_tears_down_witness :
  w_registry sample_opened !! td_uri sample_doc = Some (mkEntry 1 4) /\
  let w' := handle sample_webview sample_context (fun _ => 0%Z) (Dispose 1) sample_opened in
  w_registry w' !! td_uri sample_doc = None /\ w_hooks w' !! 1%nat = None /\
  (forall l, In l (w_listeners w') -> l.1 <> 4%nat) /\
  (exists pn, w_panels w' !! 1%nat = Some pn /\ pn_alive pn = false) /\
  (forall sid ss s, w_hooks sample_opened !! 1%nat = Some sid -> w_sessions sample_opened !! sid = Some ss ->
     ss_server ss = Some s -> w_servers w' !! s = Some Closed).
Proof.
  split; [vm_compute; reflexivity|].
  apply (close_tears_down sample_webview sample_context (fun _ => 0%Z)
           {[ td_uri sample_doc := sample_doc ]} (Some (td_uri sample_doc)) sample_config sample_opened
           (td_uri sample_doc) (mkEntry 1 4)); [apply run_reachable|vm_compute; reflexivity].
Defined.

(** An upper-case [.YML] file declared as plain text is accepted; a
    [.yaml.txt] file is refused. *)
Definition upper_yml : TextDocument := mkDoc "file:///w/B.YML" "/w/B.YML" "/w/B.YML" "plaintext" "b: 1" 1.
Definition yaml_txt : TextDocument := mkDoc "file:///w/c.yaml.txt" "/w/c.yaml.txt" "/w/c.yaml.txt" "plaintext" "c" 1.

Lemma open_command_warns_iff_not_yaml_witness :
  let w1 := init_world {[ td_uri upper_yml := upper_yml ]} (Some (td_uri upper_yml)) sample_config in
  let w2 := init_world {[ td_uri yaml_txt := yaml_txt ]} (Some (td_uri yaml_txt)) sample_config in
  (open_command w1 = log (Warning yaml_warning) w1 <->
   ~ (td_languageId upper_yml = "yaml" \/ (exists p, toLowerCase (td_fsPath upper_yml) = p +:+ ".yml") \/
      (exists p, toLowerCase (td_fsPath upper_yml) = p +:+ ".yaml"))) /\
  open_command w1 <> log (Warning yaml_warning) w1 /\
  (open_command w2 = log (Warning yaml_warning) w2 <->
   ~ (td_languageId yaml_txt = "yaml" \/ (exists p, toLowerCase (td_fsPath yaml_txt) = p +:+ ".yml") \/
      (exists p, toLowerCase (td_fsPath yaml_txt) = p +:+ ".yaml"))) /\
  open_command w2 = log (Warning yaml_warning) w2.
Proof.
  intros w1 w2.
  assert (open_command w1 = log (Warning yaml_warning) w1 <->
   ~ (td_languageId upper_yml = "yaml" \/ (exists p, toLowerCase (td_fsPath upper_yml) = p +:+ ".yml") \/
      (exists p, toLowerCase (td_fsPath upper_yml) = p +:+ ".yaml"))) as H1
    by (apply (open_command_warns_iff_not_yaml w1 (td_uri upper_yml)); reflexivity).
  split_and!; [exact H1| |apply (open_command_warns_iff_not_yaml w2 (td_uri yaml_txt)); reflexivity|].
  - rewrite H1. intros Hn. apply Hn. right. left. by exists "/w/b".
  - vm_compute. reflexivity.
Defined.
