(* ===== verification/Sequential.v ===== *)
(** * Sequential use: the registry is exact

    [concurrent_opens_two_previews] shows that two invocations of the
    command interleaved at their awaits break the spec's session invariant.
    This file shows that the interleaving is the only way to break it: when
    the command is never run while another invocation of it is suspended
    ([reachable_seq]), every live preview is registered under its document
    and there is at most one per document.

    The invariant [seq_ok] adds to [wf]: a panel with a dispose handler is
    the one registered under its session's document; a suspended
    invocation's document is not registered; two suspended invocations are
    for different documents. *)

From S2P Require Import Prelude Url Host Resolver Escape Debounce DemoServer Webview Extension Invariants.

(** ** The invariant *)

Definition hooked_registered (w : World) : Prop :=
  forall p sid k q d, w_hooks w !! p = Some sid -> SV w sid = Some (k, q, d) ->
    exists e, w_registry w !! k = Some e /\ e_panel e = p.

Definition pending_unregistered (w : World) : Prop :=
  forall i inv, w_pending w !! i = Some inv -> w_registry w !! inv_key inv = None.

Definition pending_keys_unique (w : World) : Prop :=
  forall i j inv inv', w_pending w !! i = Some inv -> w_pending w !! j = Some inv' ->
    inv_key inv = inv_key inv' -> i = j.

Record seq_ok (w : World) : Prop := {
  sq_hooked : hooked_registered w;
  sq_pending : pending_unregistered w;
  sq_unique : pending_keys_unique w
}.

(** ** The schedules without overlapping commands *)

Section Schedule.
Context `{URLParser}.
Variables (host : Webview) (context : ExtensionContext) (rand : nat -> Z).

(** The worlds reached when the command only runs with no invocation of it
    suspended. *)
Inductive reachable_seq (w0 : World) : World -> Prop :=
  | rseq_init : reachable_seq w0 w0
  | rseq_step w e : reachable_seq w0 w -> (e = Open -> w_pending w = ∅) ->
      reachable_seq w0 (handle host context rand e w).

(** Whether a list of events is such a schedule from [w]. *)
Fixpoint seq_schedule (evs : list Event) (w : World) : bool :=
  match evs with
  | [] => true
  | e :: evs' =>
      match e with Open => bool_decide (w_pending w = ∅) | _ => true end &&
      seq_schedule evs' (handle host context rand e w)
  end.

End Schedule.

(** ** Lemmas *)

Lemma seq_same w w' :
  w_hooks w' = w_hooks w -> w_sessions w' = w_sessions w -> w_registry w' = w_registry w ->
  w_pending w' = w_pending w -> seq_ok w -> seq_ok w'.
Proof.
  intros Hh Hs Hr Hp [H1 H2 H3].
  assert (forall q, SV w' q = SV w q) as Hsv by (intros q; unfold SV; by rewrite Hs).
  split; unfold hooked_registered, pending_unregistered, pending_keys_unique in *;
    rewrite ?Hh, ?Hr, ?Hp; [|done|done].
  intros p sid k q d. rewrite Hsv. apply H1.
Qed.

Lemma seq_transfer w w' : same_structure w w' -> seq_ok w -> seq_ok w'.
Proof.
  intros [Hpv Hsv Hh Hr Hl Hp Hn] [H1 H2 H3].
  split; unfold hooked_registered, pending_unregistered, pending_keys_unique in *;
    rewrite <- ?Hh, <- ?Hr, <- ?Hp; [|done|done].
  intros p sid k q d. rewrite <- Hsv. apply H1.
Qed.

Lemma seq_delete_pending w i : seq_ok w -> seq_ok (upd_pending (delete i) w).
Proof.
  intros [H1 H2 H3].
  split; unfold hooked_registered, pending_unregistered, pending_keys_unique in *; simpl; [done| |].
  - intros j inv. rewrite lookup_delete. case_decide; [done|]. apply H2.
  - intros j j' inv inv'. rewrite !lookup_delete. do 2 (case_decide; [done|]). apply H3.
Qed.

Lemma seq_restage w i inv st :
  w_pending w !! i = Some inv -> seq_ok w -> seq_ok (upd_pending (<[i := mkInv (inv_key inv) st]>) w).
Proof.
  intros Hi [H1 H2 H3].
  split; unfold hooked_registered, pending_unregistered, pending_keys_unique in *; simpl; [done| |].
  - intros j inv'. rewrite lookup_insert. case_decide; [intros [= <-]; simpl; by apply (H2 i)|apply H2].
  - intros j j' inv1 inv2. rewrite !lookup_insert.
    case_decide; case_decide; subst; [done| | |apply H3];
      intros Hj1 Hj2 Hk; simplify_eq/=; [symmetry|]; eapply H3; eauto.
Qed.

#[export] Hint Resolve seq_delete_pending : yp.

(** The end of [finish]: the suspended invocation [i] for [key] registers
    panel [p] with the fresh session [N]. *)
Lemma seq_register w w' i inv p N d :
  wf w -> seq_ok w -> N = w_next w -> w_pending w !! i = Some inv ->
  (forall q, SV w' q = if decide (N = q) then Some (inv_key inv, p, d) else SV w q) ->
  w_hooks w' = <[p := N]> (w_hooks w) ->
  w_registry w' = <[inv_key inv := mkEntry p d]> (w_registry w) ->
  w_pending w' = delete i (w_pending w) ->
  seq_ok w'.
Proof.
  intros Hw [H1 H2 H3] -> Hi Hsv Hh Hr Hp.
  split; unfold hooked_registered, pending_unregistered, pending_keys_unique in *;
    rewrite ?Hh, ?Hr, ?Hp.
  - intros q sid k q' d'. rewrite lookup_insert, Hsv. case_decide as Hpq.
    + intros [= <-]. rewrite decide_True by done. intros [= <- _ _].
      rewrite lookup_insert, decide_True by done. by eexists.
    + intros Hq. destruct (wf_hooks _ Hw _ _ Hq) as (k0 & d0 & Hs0 & _).
      rewrite decide_False; [|intros <-; apply (wf_sessions_fresh _ Hw) in Hs0; lia].
      intros Hs. destruct (H1 _ _ _ _ _ Hq Hs) as (e & He & Hep). exists e.
      rewrite lookup_insert, decide_False; [done|]. intros Hk. rewrite <- Hk, (H2 _ _ Hi) in He. done.
  - intros j inv'. rewrite lookup_delete. case_decide as Hij; [done|]. intros Hj.
    rewrite lookup_insert, decide_False; [by apply (H2 j)|].
    intros Hk. apply Hij. by apply (H3 i j inv inv').
  - intros j j' inv1 inv2. rewrite !lookup_delete. do 2 (case_decide; [done|]). apply H3.
Qed.

Section Steps.
Context `{URLParser}.
Variables (host : Webview) (context : ExtensionContext) (rand : nat -> Z).

Lemma seq_finish i inv p c server url w :
  wf w -> seq_ok w -> w_pending w !! i = Some inv ->
  seq_ok (finish host context rand i (inv_key inv) p c server url w).
Proof.
  intros Hw Hs Hi. unfold finish, fresh.
  assert (seq_ok (upd_draw (Nat.add 32) (upd_pending (delete i) w))) as Hs0
    by (eapply seq_transfer; [apply same_structure_draw|]; auto with yp).
  destruct (getWebviewHtml _ _ _ _ _ _ _) as [html|e];
    [|eapply seq_transfer; [apply same_structure_log|exact Hs0]].
  simpl. destruct (w_panels w !! p) as [pn|]; [|exact Hs0].
  destruct (pn_alive pn); [|eapply seq_transfer; [apply same_structure_log|exact Hs0]].
  destruct (debounce_call None (w_timers w) (w_next w) (cfg_debounceMs c)) as [timer q].
  eapply (seq_register w _ i inv p (w_next w)); try done.
  intros q'. unfold SV. simpl. rewrite lookup_insert. by case_decide.
Qed.

Lemma seq_open_command w : w_pending w = ∅ -> seq_ok w -> seq_ok (open_command w).
Proof.
  intros Hp Hs. unfold open_command, fresh.
  repeat case_match; try solve [eapply seq_transfer; [|exact Hs]; auto using reveal_structure with yp].
  destruct Hs as [S1 S2 S3].
  split; unfold hooked_registered, pending_unregistered, pending_keys_unique in *; simpl; rewrite ?Hp;
    [done| |].
  - intros j inv. rewrite lookup_insert. case_decide; [intros [= <-]; done|by rewrite lookup_empty].
  - intros j j' inv inv'. rewrite !lookup_insert.
    do 2 (case_decide; [|by rewrite lookup_empty]). congruence.
Qed.

Lemma seq_resume_show i w : wf w -> seq_ok w -> seq_ok (resume_show host context rand i w).
Proof.
  intros Hw Hs. unfold resume_show.
  destruct (w_pending w !! i) as [[key [|p c s]]|] eqn:Hi; [|done|done]. simpl.
  set (w2 := upd_panels (<[w_next w := mkPanel key true None 0 []]>) (upd_next S w)).
  assert (seq_ok w2) as Hs2 by (by apply (seq_same w)).
  case_match.
  - apply (seq_restage _ i (mkInv key AwaitShow)); [done|]. by apply (seq_same w2).
  - apply (seq_finish i (mkInv key AwaitShow)); [by apply wf_new_panel|done|done].
Qed.

Lemma seq_resume_bind i b w : wf w -> seq_ok w -> seq_ok (resume_bind host context rand i b w).
Proof.
  intros Hw Hs. unfold resume_bind.
  destruct (w_pending w !! i) as [[key [|p c s]]|] eqn:Hi; [done| |done].
  destruct (start_outcome b) as [[port url]|e].
  - apply (seq_finish i (mkInv key (AwaitBind p c s))); [|by apply (seq_same w)|done].
    eapply wf_transfer; [exact Hw|apply same_structure_servers].
  - eapply seq_transfer; [apply same_structure_log|]. apply seq_delete_pending. by apply (seq_same w).
Qed.

Lemma seq_dispose_panel p w : wf w -> seq_ok w -> seq_ok (dispose_panel p w).
Proof.
  intros Hw Hs. unfold dispose_panel.
  destruct (w_panels w !! p) as [pn|]; [|done]. destruct (pn_alive pn); [|done]. simpl.
  destruct (w_hooks w !! p) as [sid|] eqn:Hh; [|by apply (seq_same w)].
  destruct (w_sessions w !! sid) as [ss|] eqn:Hss; [|by apply (seq_same w)].
  assert (SV w sid = Some (ss_key ss, ss_panel ss, ss_listener ss)) as Hsv by (unfold SV; by rewrite Hss).
  destruct Hs as [S1 S2 S3].
  destruct (S1 _ _ _ _ _ Hh Hsv) as (e0 & He0 & Hep0).
  assert (forall g, seq_ok (upd_registry (delete (ss_key ss)) (upd_servers g
            (upd_listeners (filter (fun l => l.1 <> ss_listener ss))
              (upd_hooks (delete p) (upd_panels (<[p := set_dead pn]>) w)))))) as Hgoal.
  { intros g. split; unfold hooked_registered, pending_unregistered, pending_keys_unique in *; simpl.
    - intros q sid' k q' d. rewrite lookup_delete. case_decide as Hpq; [done|]. intros Hq Hs'.
      destruct (S1 _ _ _ _ _ Hq Hs') as (e & He & Hep). exists e.
      rewrite lookup_delete, decide_False; [done|]. intros <-. congruence.
    - intros j inv Hj. rewrite lookup_delete. case_decide; [done|]. by apply (S2 j).
    - exact S3. }
  destruct (ss_server ss); [apply Hgoal|].
  eapply seq_same; [..|apply (Hgoal (fun x => x))]; reflexivity.
Qed.

Lemma seq_handle e w : wf w -> seq_ok w -> (e = Open -> w_pending w = ∅) ->
  seq_ok (handle host context rand e w).
Proof.
  intros Hw Hs Ho. destruct e; simpl.
  - apply seq_open_command; [by apply Ho|done].
  - by apply seq_resume_show.
  - by apply seq_resume_bind.
  - eapply seq_transfer; [apply change_document_structure|done].
  - eapply seq_transfer; [apply tick_structure|done].
  - eapply seq_transfer; [apply fire_timer_structure|done].
  - by apply seq_dispose_panel.
  - by apply (seq_same w).
  - by apply (seq_same w).
Qed.

Lemma reachable_seq_ok docs active c w :
  reachable_seq host context rand (init_world docs active c) w -> wf w /\ seq_ok w.
Proof.
  induction 1 as [|w e Hr [Hw Hs] Ho].
  - split; [apply init_wf|]. split; intros ?; simpl; intros *; rewrite ?lookup_empty; done.
  - split; [by apply wf_handle|by apply seq_handle].
Qed.

Lemma run_seq_schedule w0 w evs :
  reachable_seq host context rand w0 w -> seq_schedule host context rand evs w = true ->
  reachable_seq host context rand w0 (run host context rand evs w).
Proof.
  revert w. induction evs as [|e evs IH]; intros w Hr Hs; simpl in *; [done|].
  apply andb_prop in Hs as [Ho Hs]. apply IH; [|done].
  constructor; [done|]. intros ->. by apply bool_decide_eq_true_1 in Ho.
Qed.

End Steps.

Lemma live_registered w k p :
  wf w -> seq_ok w -> is_live w k p = true -> exists e, w_registry w !! k = Some e /\ e_panel e = p.
Proof.
  intros Hw Hs. unfold is_live.
  destruct (w_panels w !! p) as [pn|] eqn:Hp; [|done].
  destruct (w_hooks w !! p) as [sid|] eqn:Hh; [|done].
  intros [[Hk%String.eqb_eq _]%andb_prop _]%andb_prop.
  destruct (wf_hooks _ Hw _ _ Hh) as (k' & d & Hsv & Hpv & _).
  unfold PV in Hpv. rewrite Hp in Hpv. simpl in Hpv. injection Hpv as Hk' _.
  subst k k'. exact (sq_hooked _ Hs _ _ _ _ _ Hh Hsv).
Qed.

(** ** Theorem *)

Section Claims.
Context `{URLParser}.
Variables (host : Webview) (context : ExtensionContext) (rand : nat -> Z).

(** C5: without overlapping commands the registry is exact.  When the
    command never runs while another invocation of it is suspended, in
    every reachable world each live preview is the one registered under its
    document, so there is at most one live preview per document (the
    spec's session invariant, section 3). *)
Theorem sequential_registry_exact docs active c w :
  reachable_seq host context rand (init_world docs active c) w ->
  one_preview_per_doc w /\
  (forall k p, is_live w k p = true -> exists e, w_registry w !! k = Some e /\ e_panel e = p).
Proof.
  intros Hr. destruct (reachable_seq_ok _ _ _ _ _ _ _ Hr) as [Hw Hs].
  split; [|intros k p; by apply live_registered].
  intros k p1 p2 H1 H2.
  destruct (live_registered _ _ _ Hw Hs H1) as (e1 & He1 & <-).
  destruct (live_registered _ _ _ Hw Hs H2) as (e2 & He2 & <-). congruence.
Qed.

End Claims.

(** The sample document opened, re-opened (a reveal), closed and opened
    again, one command at a time: panel 6 is its preview. *)
Definition sample_seq_events : list Event :=
  [Open; ShowDone 0; BindDone 0 (Bound 5000); Open; Dispose 1; Open; ShowDone 5; BindDone 5 (Bound 5001)].

Lemma sequential_registry_exact_witness :
  let w := sample_run sample_config sample_seq_events in
  reachable_seq sample_webview sample_context (fun _ => 0%Z) (sample_world sample_config) w /\
  is_live w (td_uri sample_doc) 6 = true /\
  one_preview_per_doc w /\
  (forall k p, is_live w k p = true -> exists e, w_registry w !! k = Some e /\ e_panel e = p).
Proof.
  assert (reachable_seq sample_webview sample_context (fun _ => 0%Z) (sample_world sample_config)
            (sample_run sample_config sample_seq_events)) as Hr.
  { apply run_seq_schedule; [constructor|vm_compute; reflexivity]. }
  split; [exact Hr|]. split; [vm_compute; reflexivity|].
  exact (sequential_registry_exact sample_webview sample_context (fun _ => 0%Z)
           {[ td_uri sample_doc := sample_doc ]} (Some (td_uri sample_doc)) sample_config _ Hr).
Defined.
