(* ===== verification/Ordering.v ===== *)
(** * Snapshots reach a panel in order (spec section 3, ChangeSnapshot)

    The spec asks that each snapshot sent to a preview reflect a text state
    at least as recent as the previous one.  The extension sends the
    document as it is when the debounce timer fires (lines 67-76), so the
    guarantee rests on the host's: a document's version never decreases.
    Under that assumption ([reachable_mono]) every panel's inbox holds only
    [yaml:update] messages, their versions never decrease, and none is
    newer than the document now ([snapshots_in_order]).

    The invariant [ord_ok] is stated on the key and inbox of each panel
    ([PI]) and on the document and panel of each session ([SKP]): the
    reveals, the page, disposal, timers and subscriptions leave them as
    they are. *)

From S2P Require Import Prelude Url Host Resolver Escape Debounce DemoServer Webview Extension Invariants.

(** ** Versions *)

Fixpoint nondecreasing (l : list Z) : bool :=
  match l with
  | x :: ((y :: _) as t) => (x <=? y)%Z && nondecreasing t
  | _ => true
  end.

Definition msg_version (m : Message) : Z := pl_version (msg_payload m).

(** The inbox of a preview of document [k], given the open documents. *)
Definition inbox_ok (docs : gmap string TextDocument) (k : string) (inbox : list Message) : Prop :=
  nondecreasing (map msg_version inbox) = true /\
  Forall (fun m => msg_type m = "yaml:update" /\
                   exists doc, docs !! k = Some doc /\ (msg_version m <= td_version doc)%Z) inbox.

(** ** Views and the invariant *)

Definition PI (w : World) (p : nat) : option (string * list Message) :=
  (fun pn => (pn_key pn, pn_inbox pn)) <$> w_panels w !! p.

Definition SKP (w : World) (sid : nat) : option (string * nat) :=
  (fun ss => (ss_key ss, ss_panel ss)) <$> w_sessions w !! sid.

Record ord_ok (w : World) : Prop := {
  ord_inbox p k inbox : PI w p = Some (k, inbox) -> inbox_ok (w_docs w) k inbox;
  ord_session sid k p : SKP w sid = Some (k, p) -> exists inbox, PI w p = Some (k, inbox)
}.

(** The schedules in which the host never lowers a document's version. *)
Section Schedule.
Context `{URLParser}.
Variables (host : Webview) (context : ExtensionContext) (rand : nat -> Z).

Definition version_mono (e : Event) (w : World) : Prop :=
  forall u text v doc, e = Change u text v -> w_docs w !! u = Some doc -> (td_version doc <= v)%Z.

Inductive reachable_mono (w0 : World) : World -> Prop :=
  | rmono_init : reachable_mono w0 w0
  | rmono_step w e : reachable_mono w0 w -> version_mono e w ->
      reachable_mono w0 (handle host context rand e w).

End Schedule.

(** ** Lemmas *)

Lemma nondecreasing_snoc l v :
  nondecreasing l = true -> Forall (fun x => (x <= v)%Z) l -> nondecreasing (l ++ [v]) = true.
Proof.
  induction l as [|x [|y l] IH]; simpl; [done| |].
  - intros _ Hf. inversion Hf. by apply andb_true_intro; split; [apply Z.leb_le|].
  - intros [Hxy Hl]%andb_prop Hf. inversion Hf. rewrite Hxy. by apply IH.
Qed.

Lemma ord_same w w' :
  (forall p, PI w' p = PI w p) -> (forall sid, SKP w' sid = SKP w sid) -> w_docs w' = w_docs w ->
  ord_ok w -> ord_ok w'.
Proof.
  intros Hp Hs Hd [O1 O2]. split.
  - intros p k inbox. rewrite Hp, Hd. apply O1.
  - intros sid k p. rewrite Hs. intros Hk. destruct (O2 _ _ _ Hk) as [inbox Hi].
    exists inbox. by rewrite Hp.
Qed.

Lemma PI_keep w p pn x q :
  w_panels w !! p = Some pn -> pn_key x = pn_key pn -> pn_inbox x = pn_inbox pn ->
  PI (upd_panels (<[p := x]>) w) q = PI w q.
Proof.
  intros Hp Hk Hi. unfold PI. simpl. rewrite lookup_insert.
  case_decide; [subst; rewrite Hp; simpl; by rewrite Hk, Hi|done].
Qed.

Lemma SKP_keep w sid ss x q :
  w_sessions w !! sid = Some ss -> ss_key x = ss_key ss -> ss_panel x = ss_panel ss ->
  SKP (upd_sessions (<[sid := x]>) w) q = SKP w q.
Proof.
  intros Hs Hk Hp. unfold SKP. simpl. rewrite lookup_insert.
  case_decide; [subst; rewrite Hs; simpl; by rewrite Hk, Hp|done].
Qed.

(** Changing only the panel [p] to one of the same document whose inbox
    is still in order. *)
Lemma ord_panel_update w p pn x :
  w_panels w !! p = Some pn -> pn_key x = pn_key pn -> inbox_ok (w_docs w) (pn_key pn) (pn_inbox x) ->
  ord_ok w -> ord_ok (upd_panels (<[p := x]>) w).
Proof.
  intros Hp Hk Hi [O1 O2]. split; unfold PI; simpl.
  - intros q k inbox. rewrite lookup_insert. case_decide; [subst q|by apply O1].
    intros [= <- <-]. by rewrite Hk.
  - intros sid k q Hs. destruct (O2 _ _ _ Hs) as [inbox Hq]. unfold PI in Hq.
    rewrite lookup_insert. case_decide; [subst q|by eauto].
    rewrite Hp in Hq. injection Hq as <- _. simpl. rewrite Hk. by eexists.
Qed.

Lemma ord_keep_panel w p pn x :
  w_panels w !! p = Some pn -> pn_key x = pn_key pn -> pn_inbox x = pn_inbox pn ->
  ord_ok w -> ord_ok (upd_panels (<[p := x]>) w).
Proof.
  intros Hp Hk Hi Hw. apply (ord_panel_update w p pn); [done|done| |done].
  rewrite Hi. apply (ord_inbox _ Hw p). unfold PI. by rewrite Hp.
Qed.

(** A panel that did not exist, with an empty inbox. *)
Lemma ord_new_panel w p pn :
  w_panels w !! p = None -> pn_inbox pn = [] -> ord_ok w -> ord_ok (upd_panels (<[p := pn]>) w).
Proof.
  intros Hp Hi [O1 O2]. split; unfold PI; simpl.
  - intros q k inbox. rewrite lookup_insert. case_decide; [subst q|by apply O1].
    intros [= <- <-]. rewrite Hi. split; [done|constructor].
  - intros sid k q Hs. destruct (O2 _ _ _ Hs) as [inbox Hq]. unfold PI in Hq.
    rewrite lookup_insert. case_decide; [subst q; by rewrite Hp in Hq|by eauto].
Qed.

(** A session of a document on a panel of that document. *)
Lemma ord_new_session w sid ss :
  (exists inbox, PI w (ss_panel ss) = Some (ss_key ss, inbox)) -> ord_ok w ->
  ord_ok (upd_sessions (<[sid := ss]>) w).
Proof.
  intros Hss [O1 O2]. split; [exact O1|]. unfold SKP. simpl.
  intros sid' k q. rewrite lookup_insert. case_decide; [|apply O2]. by intros [= <- <-].
Qed.

(** Appending a message of type [yaml:update] that carries the current
    version of the panel's document. *)
Lemma inbox_snoc docs k inbox m doc :
  inbox_ok docs k inbox -> msg_type m = "yaml:update" -> docs !! k = Some doc ->
  msg_version m = td_version doc -> inbox_ok docs k (inbox ++ [m]).
Proof.
  intros [Hn Hf] Ht Hd Hv. split.
  - rewrite map_app. apply nondecreasing_snoc; [done|]. apply Forall_map.
    eapply Forall_impl; [exact Hf|]. intros m' [_ (doc' & Hd' & Hle)]. simplify_eq. lia.
  - apply Forall_app. split; [done|]. constructor; [|constructor]. split; [done|]. eexists; split; [done|lia].
Qed.

(** A step that changes no panel key or inbox, no session and no document. *)
Ltac ord_same_tac w := apply (ord_same w); [intros ?; reflexivity|intros ?; reflexivity|reflexivity|].

Section Handlers.
Context `{URLParser}.
Variables (host : Webview) (context : ExtensionContext) (rand : nat -> Z).

Lemma ord_reveal p w : ord_ok w -> ord_ok (reveal p w).
Proof.
  intros Hw. unfold reveal. destruct (w_panels w !! p) as [pn|] eqn:Hp; [|done].
  destruct (pn_alive pn); [by apply (ord_keep_panel w p pn)|]. by ord_same_tac w.
Qed.

Lemma ord_send_update sid w : ord_ok w -> ord_ok (send_update sid w).
Proof.
  intros Hw. unfold send_update. destruct (w_sessions w !! sid) as [ss|] eqn:Hs; [|done].
  destruct (debounce_call _ _ _ _) as [t q].
  apply (ord_same w); [done| |done|done]. intros q'. by apply (SKP_keep (upd_timers _ w) _ ss).
Qed.

Lemma ord_listeners u ls w :
  ord_ok w ->
  ord_ok (fold_left (fun w' (l : nat * (string * nat)) =>
                       if String.eqb l.2.1 u then send_update l.2.2 w' else w') ls w).
Proof.
  revert w. induction ls as [|l ls IH]; intros w Hw; simpl; [done|].
  apply IH. case_match; [by apply ord_send_update|done].
Qed.

Lemma ord_change u text v w : version_mono (Change u text v) w -> ord_ok w -> ord_ok (change_document u text v w).
Proof.
  intros Hv [O1 O2]. unfold change_document.
  destruct (w_docs w !! u) as [doc|] eqn:Hd; [|by split].
  apply ord_listeners. split; [|exact O2].
  intros p k inbox Hpi. destruct (O1 _ _ _ Hpi) as [Hn Hf]. split; [done|]. simpl.
  eapply Forall_impl; [exact Hf|]. intros m [Ht (doc' & Hd' & Hle)]. split; [done|].
  rewrite lookup_insert. case_decide as Hk; [|by eauto].
  subst k. rewrite Hd in Hd'. injection Hd' as <-.
  eexists; split; [done|]. simpl. pose proof (Hv u text v doc eq_refl Hd). lia.
Qed.

Lemma ord_post p m w k inbox doc :
  PI w p = Some (k, inbox) -> msg_type m = "yaml:update" -> w_docs w !! k = Some doc ->
  msg_version m = td_version doc -> ord_ok w -> ord_ok (post_message p m w).
Proof.
  intros Hpi Ht Hd Hv Hw. unfold post_message. unfold PI in Hpi.
  destruct (w_panels w !! p) as [pn|] eqn:Hp; [|done]. injection Hpi as <- <-.
  destruct (pn_alive pn); [|by ord_same_tac w].
  apply (ord_panel_update w p pn); [done|done| |done].
  eapply inbox_snoc; [|done|done|done]. apply (ord_inbox _ Hw p). unfold PI. by rewrite Hp.
Qed.

Lemma ord_fire_timer w : ord_ok w -> ord_ok (fire_timer w).
Proof.
  intros Hw. unfold fire_timer. destruct (pop_next (w_timers w)) as [[tm q]|]; [|done].
  set (w1 := upd_timers (fun _ => q) w).
  assert (ord_ok w1) as Hw1 by (ord_same_tac w; exact Hw).
  destruct (w_sessions w1 !! tm_cb tm) as [ss|] eqn:Hs; [|done].
  destruct (w_docs w1 !! ss_key ss) as [doc|] eqn:Hd; [|done].
  destruct (ord_session _ Hw1 (tm_cb tm) (ss_key ss) (ss_panel ss)) as [inbox Hpi];
    [unfold SKP; by rewrite Hs|].
  by eapply ord_post.
Qed.

Lemma ord_finish i key p c server url w :
  (forall pn, w_panels w !! p = Some pn -> pn_key pn = key) -> ord_ok w ->
  ord_ok (finish host context rand i key p c server url w).
Proof.
  intros Hk Hw. unfold finish, fresh.
  assert (ord_ok (upd_draw (Nat.add 32) (upd_pending (delete i) w))) as Hw0 by (ord_same_tac w; exact Hw).
  destruct (getWebviewHtml _ _ _ _ _ _ _) as [html|e]; [|by ord_same_tac (upd_draw (Nat.add 32) (upd_pending (delete i) w))].
  cbn [w_panels upd_draw upd_pending]. destruct (w_panels w !! p) as [pn|] eqn:Hp; [|done].
  destruct (pn_alive pn); [|by ord_same_tac (upd_draw (Nat.add 32) (upd_pending (delete i) w))].
  simpl.
  eapply (ord_same (upd_sessions (<[w_next w := mkSession key p (S (w_next w)) server _ (cfg_debounceMs c)]>)
                     (upd_panels (<[p := set_html pn html]>) (upd_draw (Nat.add 32) (upd_pending (delete i) w)))));
    [intros ?; reflexivity|intros ?; reflexivity|reflexivity|].
  apply ord_new_session; [|by apply (ord_keep_panel _ _ pn)].
  unfold PI. simpl. rewrite lookup_insert, decide_True by done. simpl. rewrite (Hk pn eq_refl). by eexists.
Qed.

Lemma ord_open_command w : ord_ok w -> ord_ok (open_command w).
Proof.
  intros Hw. unfold open_command, fresh.
  repeat case_match; try by apply ord_reveal.
  all: by ord_same_tac w.
Qed.

Lemma ord_resume_show i w : wf w -> ord_ok w -> ord_ok (resume_show host context rand i w).
Proof.
  intros Hwf Hw. unfold resume_show, fresh.
  destruct (w_pending w !! i) as [[key [|p c s]]|] eqn:Hi; [|done|done]. simpl.
  set (w2 := upd_panels (<[w_next w := mkPanel key true None 0 []]>) (upd_next S w)).
  assert (ord_ok w2) as Hw2.
  { apply ord_new_panel; [|done|by ord_same_tac w].
    simpl. destruct (w_panels w !! w_next w) eqn:Hp; [|done].
    pose proof (wf_panels_fresh _ Hwf (w_next w)) as Hf. unfold PV in Hf. rewrite Hp in Hf.
    specialize (Hf ltac:(by eexists)). lia. }
  destruct (negb (isHttpsUrl _)); [by ord_same_tac w2|].
  apply ord_finish; [|done]. simpl. rewrite lookup_insert_eq. by intros pn [= <-].
Qed.

Lemma ord_resume_bind i b w : wf w -> ord_ok w -> ord_ok (resume_bind host context rand i b w).
Proof.
  intros Hwf Hw. unfold resume_bind.
  destruct (w_pending w !! i) as [[key [|p c s]]|] eqn:Hi; [done| |done].
  destruct (wf_pending _ Hwf _ _ _ _ _ Hi eq_refl) as (_ & (a & h & Hv) & _).
  destruct (start_outcome b) as [[port url]|e]; [|by ord_same_tac w].
  apply ord_finish; [|by ord_same_tac w].
  simpl. intros pn Hp. unfold PV in Hv. rewrite Hp in Hv. by injection Hv.
Qed.

Lemma ord_dispose_panel p w : ord_ok w -> ord_ok (dispose_panel p w).
Proof.
  intros Hw. unfold dispose_panel.
  destruct (w_panels w !! p) as [pn|] eqn:Hp; [|done].
  destruct (pn_alive pn); [|done].
  set (w1 := upd_panels (<[p := set_dead pn]>) w).
  assert (ord_ok w1) as Hw1 by (by apply (ord_keep_panel w p pn)).
  repeat case_match; by ord_same_tac w1.
Qed.

Lemma ord_handle e w :
  wf w -> version_mono e w -> ord_ok w -> ord_ok (handle host context rand e w).
Proof.
  intros Hwf Hv Hw. destruct e; simpl.
  - by apply ord_open_command.
  - by apply ord_resume_show.
  - by apply ord_resume_bind.
  - by apply ord_change.
  - unfold tick. case_match; [by ord_same_tac w|done].
  - by apply ord_fire_timer.
  - by apply ord_dispose_panel.
  - by ord_same_tac w.
  - by ord_same_tac w.
Qed.

End Handlers.

(** ** Schedules a host can produce, decided *)

Section Runs.
Context `{URLParser}.
Variables (host : Webview) (context : ExtensionContext) (rand : nat -> Z).

Definition version_mono_b (e : Event) (w : World) : bool :=
  match e with
  | Change u _ v => match w_docs w !! u with Some doc => (td_version doc <=? v)%Z | None => true end
  | _ => true
  end.

(** Every edit of the schedule, run from [w], carries a version no lower
    than the document's. *)
Fixpoint mono_schedule (evs : list Event) (w : World) : bool :=
  match evs with
  | [] => true
  | e :: evs' => version_mono_b e w && mono_schedule evs' (handle host context rand e w)
  end.

Lemma version_mono_b_spec e w : version_mono_b e w = true -> version_mono e w.
Proof.
  intros Hb u text v doc -> Hd. simpl in Hb. rewrite Hd in Hb. by apply Z.leb_le.
Qed.

Lemma mono_schedule_reachable w0 w evs :
  reachable_mono host context rand w0 w -> mono_schedule evs w = true ->
  reachable_mono host context rand w0 (run host context rand evs w).
Proof.
  revert w. induction evs as [|e evs IH]; intros w Hr; simpl; [done|].
  intros [He Hevs]%andb_prop. apply IH; [|done]. constructor; [done|]. by apply version_mono_b_spec.
Qed.

Lemma init_ord_ok docs active c : ord_ok (init_world docs active c).
Proof. split; unfold PI, SKP; simpl; intros ?; by rewrite lookup_empty. Qed.

Lemma reachable_mono_ok docs active c w :
  reachable_mono host context rand (init_world docs active c) w -> wf w /\ ord_ok w.
Proof.
  induction 1 as [|w e _ [Hwf Hw] Hv]; [split; [apply init_wf|apply init_ord_ok]|].
  split; [by apply wf_handle|by apply ord_handle].
Qed.

End Runs.

(** ** Every preview receives its snapshots in order *)

Section Order.
Context `{URLParser}.
Variables (host : Webview) (context : ExtensionContext) (rand : nat -> Z).

(** C11: in every world the event loop reaches from an initial workspace
    under a host that never lowers a document's version, every message a
    preview received is a [yaml:update] snapshot, their versions never
    decrease from one message to the next, and none is newer than the
    previewed document is now. *)
Theorem snapshots_in_order docs active c w p pn :
  reachable_mono host context rand (init_world docs active c) w ->
  w_panels w !! p = Some pn ->
  nondecreasing (map msg_version (pn_inbox pn)) = true /\
  Forall (fun m => msg_type m = "yaml:update" /\
                   exists doc, w_docs w !! pn_key pn = Some doc /\ (msg_version m <= td_version doc)%Z)
    (pn_inbox pn).
Proof.
  intros Hr Hp. destruct (reachable_mono_ok host context rand _ _ _ _ Hr) as [_ Hw].
  apply (ord_inbox _ Hw p). unfold PI. by rewrite Hp.
Qed.

End Order.

(** A preview opened on the demo server, its first snapshot sent, then two
    edits in one debounce window and the timer. *)
Definition order_trace : list Event :=
  [Open; ShowDone 0; BindDone 0 (Bound 5000); Fire;
   Change (td_uri sample_doc) "a: 2" 2; Change (td_uri sample_doc) "a: 3" 3; Fire].

Lemma snapshots_in_order_witness :
  exists pn, w_panels (sample_run sample_config order_trace) !! 1%nat = Some pn /\
    map msg_version (pn_inbox pn) = [1; 3]%Z /\
    nondecreasing (map msg_version (pn_inbox pn)) = true /\
    Forall (fun m => msg_type m = "yaml:update" /\
                     exists doc, w_docs (sample_run sample_config order_trace) !! pn_key pn = Some doc /\
                                 (msg_version m <= td_version doc)%Z)
      (pn_inbox pn).
Proof.
  eexists. split; [vm_compute; reflexivity|]. split; [vm_compute; reflexivity|].
  apply (snapshots_in_order sample_webview sample_context (fun _ => 0%Z)
           {[ td_uri sample_doc := sample_doc ]} (Some (td_uri sample_doc)) sample_config _ 1%nat).
  - apply mono_schedule_reachable; [constructor|vm_compute; reflexivity].
  - vm_compute; reflexivity.
Defined.
