(* ===== verification/Liveness.v ===== *)
(** * Every pending send is delivered (extension.ts:66-85, Node's timers)

    The debounced [sendUpdate] of a session leaves a timer in Node's
    queue; when it fires, the callback posts the document as it is then.
    Letting the event loop run the timers ([Fire], once per pending timer)
    empties the queue ([fire_timer] removes the timer it runs), and the
    preview of every session whose timer was pending ends with the
    snapshot of the current document ([pending_send_delivered]).

    The argument needs the queue's handles to be unique ([q_ok], kept by
    every handler: [timers_ok_reachable]), so that a timer leaves the
    queue only by firing, and the keys of sessions and panels to agree
    ([Ordering.ord_ok]). *)

From S2P Require Import Prelude Url Host Resolver Escape Debounce DemoServer Webview Extension Invariants Ordering.

(** ** The timer queue stays well formed *)

Lemma pop_next_ok {A} (q : TimerQueue A) tm q' : q_ok q -> pop_next q = Some (tm, q') -> q_ok q'.
Proof. unfold pop_next. case_match; [|done]. apply pop_due_ok. Qed.

Lemma pop_next_shrinks {A} (q : TimerQueue A) tm q' :
  pop_next q = Some (tm, q') -> (length (q_timers q') < length (q_timers q))%nat.
Proof. unfold pop_next. case_match; [|done]. apply pop_due_shrinks. Qed.

(** The queue is empty exactly when no timer can fire. *)
Lemma pop_next_none {A} (q : TimerQueue A) : pop_next q = None -> q_timers q = [].
Proof.
  unfold pop_next. destruct (earliest (q_timers q)) as [tm|] eqn:He.
  - unfold pop_due. by rewrite He, Z.leb_refl.
  - intros _. destruct (q_timers q) as [|t ts]; [done|]. simpl in He.
    destruct (earliest ts); [case_match|]; discriminate.
Qed.

Lemma pop_next_gone {A} (q : TimerQueue A) tm q' x :
  q_ok q -> pop_next q = Some (tm, q') -> In x (q_timers q) -> x = tm \/ In x (q_timers q').
Proof. unfold pop_next. case_match; [|done]. apply pop_due_gone. Qed.

(** The debounced call inside a handler: its queue is well formed. *)
Ltac debounce_ok :=
  match goal with
  | Hd : debounce_call ?a ?b ?c ?d = (_, ?y) |- q_ok ?y =>
      let Hok := fresh in pose proof (debounce_call_ok a b c d) as Hok; rewrite Hd in Hok; apply Hok
  end.

Section Timers.
Context `{URLParser}.
Variables (host : Webview) (context : ExtensionContext) (rand : nat -> Z).

Lemma send_update_timers_ok sid w : q_ok (w_timers w) -> q_ok (w_timers (send_update sid w)).
Proof. intros Hq. unfold send_update. repeat case_match; simpl; [debounce_ok; done|done]. Qed.

Lemma listeners_timers_ok u ls w :
  q_ok (w_timers w) ->
  q_ok (w_timers (fold_left (fun w' (l : nat * (string * nat)) =>
                               if String.eqb l.2.1 u then send_update l.2.2 w' else w') ls w)).
Proof.
  revert w. induction ls as [|l ls IH]; intros w Hw; simpl; [done|].
  apply IH. case_match; [by apply send_update_timers_ok|done].
Qed.

Lemma finish_timers_ok i key p c server url w :
  q_ok (w_timers w) -> q_ok (w_timers (finish host context rand i key p c server url w)).
Proof. intros Hq. unfold finish, fresh. repeat case_match; simpl; try done. by debounce_ok. Qed.

Lemma reveal_timers p w : w_timers (reveal p w) = w_timers w.
Proof. unfold reveal. by repeat case_match. Qed.

Lemma timers_ok_handle e w : q_ok (w_timers w) -> q_ok (w_timers (handle host context rand e w)).
Proof.
  intros Hq. destruct e; simpl.
  - unfold open_command, fresh. repeat case_match; simpl; rewrite ?reveal_timers; done.
  - unfold resume_show, fresh. repeat case_match; simpl; try done; by apply finish_timers_ok.
  - unfold resume_bind. repeat case_match; simpl; try done; by apply finish_timers_ok.
  - unfold change_document. case_match; [|done]. by apply listeners_timers_ok.
  - unfold tick. case_match; [|done]. destruct Hq as [Hi Hn]. by split.
  - unfold fire_timer. destruct (pop_next (w_timers w)) as [[tm q]|] eqn:Hp; [|done].
    assert (q_ok q) as Hq' by (by eapply pop_next_ok).
    unfold post_message. by repeat case_match.
  - unfold dispose_panel. by repeat case_match.
  - done.
  - done.
Qed.

Lemma timers_ok_reachable docs active c w :
  reachable_mono host context rand (init_world docs active c) w -> q_ok (w_timers w).
Proof.
  induction 1 as [|w e _ IH _]; [|by apply timers_ok_handle].
  split; simpl; [intros ? ? []|intros ? []].
Qed.


End Timers.

(** ** One timer firing *)

Lemma fire_timer_docs w : w_docs (fire_timer w) = w_docs w.
Proof. unfold fire_timer, post_message. by repeat case_match. Qed.

Lemma fire_timer_sessions w : w_sessions (fire_timer w) = w_sessions w.
Proof. unfold fire_timer, post_message. by repeat case_match. Qed.

Lemma fire_timer_none w : pop_next (w_timers w) = None -> fire_timer w = w.
Proof. unfold fire_timer. by intros ->. Qed.

Lemma fire_timer_queue w tm q : pop_next (w_timers w) = Some (tm, q) -> w_timers (fire_timer w) = q.
Proof. unfold fire_timer, post_message. intros ->. by repeat case_match. Qed.

(** The panel [pn] is as it was. *)
Local Ltac unchanged pn := exists pn; split_and!; [simpl; assumption|done|done|by left].

Lemma post_message_panels p m w q pn :
  w_panels w !! q = Some pn ->
  exists pn', w_panels (post_message p m w) !! q = Some pn' /\ pn_key pn' = pn_key pn /\
    pn_alive pn' = pn_alive pn /\ (pn_inbox pn' = pn_inbox pn \/ q = p /\ pn_inbox pn' = pn_inbox pn ++ [m]).
Proof.
  intros Hq. unfold post_message.
  destruct (w_panels w !! p) as [pp|] eqn:Hp; [|unchanged pn]. destruct (pn_alive pp); [|unchanged pn].
  simpl. rewrite lookup_insert. case_decide; [subst q|unchanged pn].
  rewrite Hp in Hq. injection Hq as <-. eexists. split_and!; [done|done|done|by right].
Qed.

(** A panel keeps its document and state; its inbox gains at most the
    snapshot of its document. *)
Lemma fire_timer_panels w q pn :
  ord_ok w -> w_panels w !! q = Some pn ->
  exists pn', w_panels (fire_timer w) !! q = Some pn' /\ pn_key pn' = pn_key pn /\ pn_alive pn' = pn_alive pn /\
    (pn_inbox pn' = pn_inbox pn \/
     exists doc, w_docs w !! pn_key pn = Some doc /\ pn_inbox pn' = pn_inbox pn ++ [snapshot doc]).
Proof.
  intros Hw Hq. unfold fire_timer.
  destruct (pop_next (w_timers w)) as [[tm q']|]; [|unchanged pn]. simpl.
  destruct (w_sessions w !! tm_cb tm) as [ss|] eqn:Hs; [|unchanged pn].
  destruct (w_docs w !! ss_key ss) as [doc|] eqn:Hd; [|unchanged pn].
  destruct (post_message_panels (ss_panel ss) (snapshot doc) (upd_timers (fun _ => q') w) q pn Hq)
    as (pn' & Hp' & Hk & Ha & [Hi|[-> Hi]]); [exists pn'; split_and!; [done|done|done|by left]|].
  exists pn'. split_and!; [done|done|done|]. right. exists doc. split; [|done].
  destruct (ord_session _ Hw (tm_cb tm) (ss_key ss) (ss_panel ss)) as [inbox Hpi];
    [unfold SKP; by rewrite Hs|].
  unfold PI in Hpi. rewrite Hq in Hpi. injection Hpi as -> _. done.
Qed.

(** The timer that fires posts the snapshot to its session's panel. *)
Lemma fire_timer_fired w tm q ss pn doc :
  pop_next (w_timers w) = Some (tm, q) -> w_sessions w !! tm_cb tm = Some ss ->
  w_panels w !! ss_panel ss = Some pn -> pn_alive pn = true -> w_docs w !! ss_key ss = Some doc ->
  exists pn', w_panels (fire_timer w) !! ss_panel ss = Some pn' /\ last (pn_inbox pn') = Some (snapshot doc).
Proof.
  intros Hpop Hs Hp Ha Hd. unfold fire_timer. rewrite Hpop. simpl. rewrite Hs, Hd.
  unfold post_message. simpl. rewrite Hp, Ha. simpl. rewrite lookup_insert_eq.
  eexists. split; [done|]. simpl. apply last_snoc.
Qed.

(** ** Running the timers *)

(** The preview [p] of document [k] is live, and either the timer [tm]
    is still pending or the preview's last message is the snapshot of
    [doc]. *)
Definition delivered_or_pending (tm : Timer nat) (p : nat) (k : string) (doc : TextDocument) (w : World) : Prop :=
  exists pn, w_panels w !! p = Some pn /\ pn_alive pn = true /\ pn_key pn = k /\
    (In tm (q_timers (w_timers w)) \/ last (pn_inbox pn) = Some (snapshot doc)).

Lemma delivered_or_pending_fire w tm ss doc :
  ord_ok w -> q_ok (w_timers w) -> w_sessions w !! tm_cb tm = Some ss -> w_docs w !! ss_key ss = Some doc ->
  delivered_or_pending tm (ss_panel ss) (ss_key ss) doc w ->
  delivered_or_pending tm (ss_panel ss) (ss_key ss) doc (fire_timer w).
Proof.
  intros Hw Hq Hs Hd (pn & Hp & Ha & Hk & Hor).
  destruct (pop_next (w_timers w)) as [[tm' q]|] eqn:Hpop;
    [|rewrite fire_timer_none by done; by exists pn].
  destruct (fire_timer_panels w _ pn Hw Hp) as (pn' & Hp' & Hk' & Ha' & Hin).
  exists pn'. split_and!; [done|congruence|congruence|]. destruct Hor as [Htm|Hlast].
  - destruct (pop_next_gone _ _ _ tm Hq Hpop Htm) as [->|Hq'].
    + right. destruct (fire_timer_fired w tm' q ss pn doc Hpop Hs Hp Ha Hd) as (pn'' & Hp'' & Hl).
      rewrite Hp' in Hp''. by injection Hp'' as ->.
    + left. by rewrite (fire_timer_queue _ _ _ Hpop).
  - right. destruct Hin as [->|(doc' & Hd' & ->)]; [done|].
    rewrite Hk, Hd in Hd'. injection Hd' as <-. apply last_snoc.
Qed.

Section Drain.
Context `{URLParser}.
Variables (host : Webview) (context : ExtensionContext) (rand : nat -> Z).

Lemma run_fire n w : run host context rand (repeat Fire (S n)) w = run host context rand (repeat Fire n) (fire_timer w).
Proof. reflexivity. Qed.

(** [n] firings, [n] at least the number of pending timers, empty the
    queue, and keep [delivered_or_pending]. *)
Lemma drain_delivers n w tm ss doc :
  ord_ok w -> q_ok (w_timers w) -> (length (q_timers (w_timers w)) <= n)%nat ->
  w_sessions w !! tm_cb tm = Some ss -> w_docs w !! ss_key ss = Some doc ->
  delivered_or_pending tm (ss_panel ss) (ss_key ss) doc w ->
  q_timers (w_timers (run host context rand (repeat Fire n) w)) = [] /\
  delivered_or_pending tm (ss_panel ss) (ss_key ss) doc (run host context rand (repeat Fire n) w).
Proof.
  revert w. induction n as [|n IH]; intros w Hw Hq Hn Hs Hd Hg.
  - change (run host context rand (repeat Fire 0) w) with w. split; [|done].
    destruct (q_timers (w_timers w)); [done|simpl in Hn; lia].
  - rewrite run_fire. apply IH.
    + by apply ord_fire_timer.
    + destruct (pop_next (w_timers w)) as [[tm' q]|] eqn:Hpop; [|by rewrite fire_timer_none].
      rewrite (fire_timer_queue _ _ _ Hpop). by eapply pop_next_ok.
    + destruct (pop_next (w_timers w)) as [[tm' q]|] eqn:Hpop.
      * rewrite (fire_timer_queue _ _ _ Hpop). apply pop_next_shrinks in Hpop. lia.
      * rewrite fire_timer_none by done. rewrite pop_next_none by done. simpl. lia.
    + by rewrite fire_timer_sessions.
    + by rewrite fire_timer_docs.
    + by apply delivered_or_pending_fire.
Qed.

(** C10: every pending send is delivered.  In every world the event loop
    reaches from an initial workspace under a host that never lowers a
    document's version, let the event loop run the pending timers, one
    [Fire] per timer: the queue ends empty, and for each timer that was
    pending, if its session's preview is open and its document known, the
    preview's last message is the snapshot of the document as it is now. *)
Theorem pending_send_delivered docs active c w tm ss pn doc :
  reachable_mono host context rand (init_world docs active c) w ->
  In tm (q_timers (w_timers w)) -> w_sessions w !! tm_cb tm = Some ss ->
  w_panels w !! ss_panel ss = Some pn -> pn_alive pn = true -> w_docs w !! ss_key ss = Some doc ->
  let w' := run host context rand (repeat Fire (length (q_timers (w_timers w)))) w in
  q_timers (w_timers w') = [] /\
  exists pn', w_panels w' !! ss_panel ss = Some pn' /\ last (pn_inbox pn') = Some (snapshot doc).
Proof.
  intros Hr Htm Hs Hp Ha Hd w'.
  destruct (reachable_mono_ok host context rand _ _ _ _ Hr) as [_ Hw].
  pose proof (timers_ok_reachable host context rand _ _ _ _ Hr) as Hq.
  destruct (ord_session _ Hw (tm_cb tm) (ss_key ss) (ss_panel ss)) as [inbox Hpi];
    [unfold SKP; by rewrite Hs|].
  unfold PI in Hpi. rewrite Hp in Hpi. injection Hpi as Hk _.
  assert (delivered_or_pending tm (ss_panel ss) (ss_key ss) doc w) as Hg
    by (exists pn; split_and!; [done|done|done|by left]).
  destruct (drain_delivers (length (q_timers (w_timers w))) w tm ss doc Hw Hq ltac:(done) Hs Hd Hg)
    as [Hempty (pn' & Hp' & _ & _ & [Hin|Hl])].
  - fold w' in Hempty, Hin. by rewrite Hempty in Hin.
  - split; [done|]. by exists pn'.
Qed.

End Drain.

(** A preview opened on the demo server, its first snapshot sent, then two
    edits: one send pending. *)
Definition edit_trace : list Event :=
  [Open; ShowDone 0; BindDone 0 (Bound 5000); Fire;
   Change (td_uri sample_doc) "a: 2" 2; Change (td_uri sample_doc) "a: 3" 3].

Lemma pending_send_delivered_witness :
  let w := sample_run sample_config edit_trace in
  let ss := mkSession (td_uri sample_doc) 1 4 (Some 2%nat) (Some 2%nat) 300 in
  let tm := mkTimer 2 600 3%nat in
  match w_panels w !! ss_panel ss, w_docs w !! ss_key ss with
  | Some pn, Some doc =>
      In tm (q_timers (w_timers w)) /\ w_sessions w !! tm_cb tm = Some ss /\ pn_alive pn = true /\
      td_version doc = 3%Z /\
      let w' := run sample_webview sample_context (fun _ => 0%Z) (repeat Fire (length (q_timers (w_timers w)))) w in
      q_timers (w_timers w') = [] /\
      exists pn', w_panels w' !! ss_panel ss = Some pn' /\ last (pn_inbox pn') = Some (snapshot doc)
  | _, _ => False
  end.
Proof.
  intros w ss tm.
  destruct (w_panels w !! ss_panel ss) as [pn|] eqn:Hpn; [|vm_compute in Hpn; discriminate].
  destruct (w_docs w !! ss_key ss) as [doc|] eqn:Hd; [|vm_compute in Hd; discriminate].
  assert (In tm (q_timers (w_timers w))) as Htm by (vm_compute; by left).
  assert (w_sessions w !! tm_cb tm = Some ss) as Hs by (vm_compute; reflexivity).
  assert (pn_alive pn = true) as Ha by (vm_compute in Hpn; by injection Hpn as <-).
  split_and!; [done|done|done|vm_compute in Hd; by injection Hd as <-|].
  apply (pending_send_delivered sample_webview sample_context (fun _ => 0%Z)
           {[ td_uri sample_doc := sample_doc ]} (Some (td_uri sample_doc)) sample_config w tm ss pn doc);
    [|done|done|done|done|done].
  apply mono_schedule_reachable; [constructor|vm_compute; reflexivity].
Defined.

