(* ===== verification/Frame.v ===== *)
(** * What the iframe receives: the extension, the page and the relay composed

    A preview's panel holds the page [getWebviewHtml] built when the
    command finished, and the messages the extension posted to it
    ([Ordering]).  The page's relay script forwards them to the iframe
    ([Relay]).  Composing the three: the iframe of every preview receives
    the preview's snapshots in the order posted, with versions that never
    decrease, all of them when the resolved target is the wildcard or the
    iframe's origin, and none otherwise ([iframe_receives_in_order]).

    The invariant [pages_ok] records that every page a panel holds is one
    [getWebviewHtml] builds for the host's webview. *)

From S2P Require Import Prelude Url Origin Host Resolver Escape Debounce DemoServer Webview Extension Relay Invariants Ordering.

(** ** Every page a panel holds was built by [getWebviewHtml] *)

Section Pages.
Context `{URLParser}.
Variables (host : Webview) (context : ExtensionContext) (rand : nat -> Z).

Definition page_of (html : string) : Prop :=
  exists draw remoteUrl demoUrl allowHttp,
    getWebviewHtml rand draw host context remoteUrl demoUrl allowHttp = Ok html.

Definition pages_ok (w : World) : Prop :=
  forall p pn html, w_panels w !! p = Some pn -> pn_html pn = Some html -> page_of html.

Lemma pages_same w w' : w_panels w' = w_panels w -> pages_ok w -> pages_ok w'.
Proof. intros Heq Hw p pn html. rewrite Heq. apply Hw. Qed.

Lemma pages_insert w p x :
  (forall html, pn_html x = Some html -> page_of html) -> pages_ok w -> pages_ok (upd_panels (<[p := x]>) w).
Proof.
  intros Hx Hw q pn html. simpl. rewrite lookup_insert.
  case_decide; [intros [= <-]; apply Hx|apply Hw].
Qed.

(** Panel [p] replaced by one with the same page. *)
Lemma pages_keep w p pn x :
  w_panels w !! p = Some pn -> pn_html x = pn_html pn -> pages_ok w -> pages_ok (upd_panels (<[p := x]>) w).
Proof. intros Hp Hx Hw. apply pages_insert; [|done]. rewrite Hx. intros h. by apply (Hw p pn h). Qed.

(** A step that leaves the panels as they are. *)
Local Ltac pages_same_tac w := apply (pages_same w); [reflexivity|].

Lemma pages_reveal p w : pages_ok w -> pages_ok (reveal p w).
Proof.
  intros Hw. unfold reveal. destruct (w_panels w !! p) as [pn|] eqn:Hp; [|done].
  destruct (pn_alive pn); [by apply (pages_keep w p pn)|]. by pages_same_tac w.
Qed.

Lemma pages_post p m w : pages_ok w -> pages_ok (post_message p m w).
Proof.
  intros Hw. unfold post_message. destruct (w_panels w !! p) as [pn|] eqn:Hp; [|done].
  destruct (pn_alive pn); [by apply (pages_keep w p pn)|]. by pages_same_tac w.
Qed.

Lemma send_update_panels sid w : w_panels (send_update sid w) = w_panels w.
Proof. unfold send_update. by repeat case_match. Qed.

Lemma listeners_panels u ls w :
  w_panels (fold_left (fun w' (l : nat * (string * nat)) =>
                         if String.eqb l.2.1 u then send_update l.2.2 w' else w') ls w) = w_panels w.
Proof.
  revert w. induction ls as [|l ls IH]; intros w; simpl; [done|].
  rewrite IH. case_match; [apply send_update_panels|done].
Qed.

Lemma pages_finish i key p c server url w : pages_ok w -> pages_ok (finish host context rand i key p c server url w).
Proof.
  intros Hw. unfold finish, fresh.
  destruct (getWebviewHtml _ _ _ _ _ _ _) as [html|e] eqn:Hh; [|by pages_same_tac w].
  cbn [w_panels upd_draw upd_pending]. destruct (w_panels w !! p) as [pn|]; [|by pages_same_tac w].
  destruct (pn_alive pn); [|by pages_same_tac w].
  simpl. eapply (pages_same (upd_panels (<[p := set_html pn html]>) w)); [reflexivity|].
  apply pages_insert; [|done]. intros h [= <-]. by exists (w_draw w), (cfg_remoteUrl c), url, (cfg_allowHttp c).
Qed.

Lemma pages_handle e w : pages_ok w -> pages_ok (handle host context rand e w).
Proof.
  intros Hw. destruct e; simpl.
  - unfold open_command, fresh. repeat case_match; try by apply pages_reveal. all: by pages_same_tac w.
  - unfold resume_show, fresh. destruct (w_pending w !! i) as [[key [|p c s]]|]; [|done|done]. simpl.
    assert (pages_ok (upd_panels (<[w_next w := mkPanel key true None 0 []]>) (upd_next S w))) as Hw2
      by (apply pages_insert; [done|by pages_same_tac w]).
    destruct (negb _); [by pages_same_tac (upd_panels (<[w_next w := mkPanel key true None 0 []]>) (upd_next S w))|].
    by apply pages_finish.
  - unfold resume_bind. repeat case_match; try done;
      first [apply pages_finish; by pages_same_tac w | by pages_same_tac w].
  - unfold change_document. case_match; [|done]. apply (pages_same w); [by rewrite listeners_panels|done].
  - unfold tick. case_match; [by pages_same_tac w|done].
  - unfold fire_timer. repeat case_match; try apply pages_post; by pages_same_tac w.
  - unfold dispose_panel. destruct (w_panels w !! p) as [pn|] eqn:Hp; [|done]. destruct (pn_alive pn); [|done].
    assert (pages_ok (upd_panels (<[p := set_dead pn]>) w)) as Hw1 by (by apply (pages_keep w p pn)).
    repeat case_match; by pages_same_tac (upd_panels (<[p := set_dead pn]>) w).
  - by pages_same_tac w.
  - by pages_same_tac w.
Qed.

Lemma pages_reachable docs active c w :
  reachable_mono host context rand (init_world docs active c) w -> pages_ok w.
Proof.
  induction 1 as [|w e _ IH _]; [|by apply pages_handle].
  intros p pn html. simpl. by rewrite lookup_empty.
Qed.

End Pages.

Lemma getWebviewHtml_app `{URLParser} rand draw webview context remoteUrl demoUrl allowHttp html :
  getWebviewHtml rand draw webview context remoteUrl demoUrl allowHttp = Ok html ->
  exists app, resolveAppSrc webview context remoteUrl demoUrl allowHttp = Ok app.
Proof. unfold getWebviewHtml. destruct (resolveAppSrc _ _ _ _ _) as [app|e]; [by eexists|done]. Qed.

(** ** The composition *)

Section Composed.
Context `{Hlaws : URLParserLaws} `{Horigin : !URLOriginLaws}.
Variables (host : Webview) (context : ExtensionContext) (rand : nat -> Z).

(** C13: what the iframe of a preview receives.  In every world reachable
    under a host that never lowers a document's version (the host's CSP
    source token holding no [<]), each preview's page carries a relay
    script whose target the browser reads, and dispatching the preview's
    messages to it delivers to an iframe of origin [fo] all the
    preview's snapshots, in the order posted, when the target is the
    wildcard or [fo], and none otherwise (a [SyntaxError] when the target
    is the opaque origin); the versions of those snapshots never
    decrease. *)
Theorem iframe_receives_in_order docs active c w p pn html pageOrigin fo :
  has_char "<" (cspSource host) = false ->
  reachable_mono host context rand (init_world docs active c) w ->
  w_panels w !! p = Some pn -> pn_html pn = Some html ->
  exists target, script_target html = Some target /\
    relay_all target pageOrigin (pn_inbox pn) (Some fo) =
      (if String.eqb target "null" && negb (bool_decide (pn_inbox pn = [])) then Throw "SyntaxError"
       else Ok (if String.eqb target "*" || String.eqb target fo then pn_inbox pn else [])) /\
    nondecreasing (map msg_version (pn_inbox pn)) = true.
Proof.
  intros Hc Hr Hp Hh.
  destruct (pages_reachable host context rand _ _ _ _ Hr p pn html Hp Hh)
    as (draw & remoteUrl & demoUrl & allowHttp & Hpage).
  destruct (getWebviewHtml_app _ _ _ _ _ _ _ _ Hpage) as [app Happ].
  destruct (reachable_mono_ok host context rand _ _ _ _ Hr) as [_ Hw].
  destruct (ord_inbox _ Hw p (pn_key pn) (pn_inbox pn)) as [Hn Hf]; [unfold PI; by rewrite Hp|].
  exists (targetOrigin app). split; [by eapply script_target_page|]. split; [|done].
  apply relay_all_resolved.
  - destruct (resolveAppSrc_shape _ _ _ _ _ _ Happ) as [->|(u & Hu & _ & ->)]; [by left|right; eauto].
  - eapply Forall_impl; [exact Hf|]. by intros m [? _].
Qed.

End Composed.

Lemma iframe_receives_in_order_witness :
  let w := sample_run sample_config order_trace in
  match w_panels w !! 1%nat with
  | Some pn =>
      match pn_html pn with
      | Some html =>
          length (pn_inbox pn) = 2%nat /\
          has_char "<" (cspSource sample_webview) = false /\
          exists target, script_target html = Some target /\
            relay_all target "vscode-webview://panel" (pn_inbox pn) (Some "http://127.0.0.1:5000") =
              (if String.eqb target "null" && negb (bool_decide (pn_inbox pn = [])) then Throw "SyntaxError"
               else Ok (if String.eqb target "*" || String.eqb target "http://127.0.0.1:5000"
                        then pn_inbox pn else [])) /\
            nondecreasing (map msg_version (pn_inbox pn)) = true
      | None => False
      end
  | None => False
  end.
Proof.
  intros w.
  destruct (w_panels w !! 1%nat) as [pn|] eqn:Hp; [|vm_compute in Hp; discriminate].
  destruct (pn_html pn) as [html|] eqn:Hh; [|vm_compute in Hp; injection Hp as <-; discriminate].
  split; [vm_compute in Hp; by injection Hp as <-|]. split; [reflexivity|].
  apply (iframe_receives_in_order sample_webview sample_context (fun _ => 0%Z)
           {[ td_uri sample_doc := sample_doc ]} (Some (td_uri sample_doc)) sample_config w 1%nat);
    [reflexivity| |done|done].
  apply mono_schedule_reachable; [constructor|vm_compute; reflexivity].
Defined.
