(* ===== verification/Refinement.v ===== *)
(** * The world's streamer refines the single-session streamer

    [Debounce.Stream] models one session's change streamer in isolation:
    its own timers, its debounce closure, the document and the snapshots
    sent.  In the world ([Extension]) the same code runs inside the event
    loop: one timer queue shared by all sessions (each timer's callback
    names its session), [send_update] for the debounced call,
    [fire_timer] for a timer running [sendUpdate]'s body, [tick] for time
    passing and [change_document] for an edit.

    [stream_of sid w] projects a world onto session [sid]: the queue with
    its callbacks erased ([qmap]), the closure's timer and delay, the
    document's text and version, and the texts and versions the panel
    received.  When [sid] is the world's only session ([solo]), every
    change notification of the streamer is matched by the event loop's
    schedule [world_on_change] (run the due timers, let time pass, apply
    the edit), and the final flush by [world_flush]: the projection of
    the world reached is the streamer's state ([session_refines_stream]).
    Through it the streamer's properties are proved of the extension:
    a burst adds one snapshot to the preview ([world_burst_sends_last]),
    and at most one timer is ever pending ([world_at_most_one_timer]). *)

From S2P Require Import Prelude Url Host Resolver Escape Debounce DemoServer Webview Extension.

(** ** The projection *)

Definition doc_state (doc : TextDocument) : DocState := mkDocState (td_text doc) (td_version doc).

Definition msg_state (m : Message) : DocState :=
  mkDocState (pl_yaml (msg_payload m)) (pl_version (msg_payload m)).

Definition erase (q : TimerQueue nat) : TimerQueue unit := qmap (fun _ => tt) q.

Definition stream_of (sid : nat) (w : World) : option Stream :=
  match w_sessions w !! sid with
  | Some ss =>
      match w_panels w !! ss_panel ss, w_docs w !! ss_key ss with
      | Some pn, Some doc =>
          Some (mkStream (erase (w_timers w)) (ss_timer ss) (ss_delay ss) (doc_state doc)
                  (map msg_state (pn_inbox pn)))
      | _, _ => None
      end
  | None => None
  end.

Definition panel_alive (w : World) (p : nat) : bool :=
  match w_panels w !! p with Some pn => pn_alive pn | None => false end.

(** Session [sid], of document [k], is the world's only session, its
    subscription the only one, its panel open, and every queued timer
    its own. *)
Definition solo (k : string) (sid : nat) (w : World) : Prop :=
  exists ss, w_sessions w = {[sid := ss]} /\ ss_key ss = k /\
    w_listeners w = [(ss_listener ss, (k, sid))] /\ panel_alive w (ss_panel ss) = true /\
    is_Some (w_docs w !! k) /\ Forall (fun tm => tm_cb tm = sid) (q_timers (w_timers w)).

(** ** The event loop's schedule for the streamer's events *)

(** Run the timers due by [t], one [Fire] each. *)
Fixpoint fire_until (fuel : nat) (t : Z) (w : World) : World :=
  match fuel with
  | O => w
  | S f =>
      match pop_due t (w_timers w) with
      | Some _ => fire_until f t (fire_timer w)
      | None => w
      end
  end.

(** A change notification at time [t]: the due timers, time, the edit. *)
Definition world_on_change (k : string) (t : Z) (d : DocState) (w : World) : World :=
  change_document k (doc_text d) (doc_version d) (tick t (fire_until (length (q_timers (w_timers w))) t w)).

Fixpoint world_on_changes (k : string) (evs : list (Z * DocState)) (w : World) : World :=
  match evs with
  | [] => w
  | (t, d) :: rest => world_on_changes k rest (world_on_change k t d w)
  end.

Definition world_flush (w : World) : World :=
  fire_until (length (q_timers (w_timers w))) (q_now (w_timers w) + TIMEOUT_MAX) w.

(** ** Lemmas on the queue *)

Lemma pop_next_of_due {A} t (q : TimerQueue A) tm q' : pop_due t q = Some (tm, q') -> pop_next q = Some (tm, q').
Proof.
  unfold pop_next, pop_due. destruct (earliest (q_timers q)) as [tm0|]; [|done].
  case_match; [|done]. intros [= <- <-]. by rewrite Z.leb_refl.
Qed.

Lemma pop_due_in {A} t (q : TimerQueue A) tm q' : pop_due t q = Some (tm, q') -> In tm (q_timers q).
Proof.
  unfold pop_due. destruct (earliest (q_timers q)) as [tm0|] eqn:He; [|done].
  case_match; [|done]. intros [= <- _]. by apply earliest_in.
Qed.

Lemma pop_due_sub {A} t (q : TimerQueue A) tm q' x :
  pop_due t q = Some (tm, q') -> In x (q_timers q') -> In x (q_timers q).
Proof.
  unfold pop_due. destruct (earliest (q_timers q)); [|done]. case_match; [|done].
  intros [= _ <-] Hx%list_elem_of_In. simpl in Hx. apply list_elem_of_filter in Hx as [_ Hx].
  by apply list_elem_of_In.
Qed.

Lemma Forall_debounce_call (P : nat -> Prop) timer q cb d :
  P cb -> Forall (fun tm => P (tm_cb tm)) (q_timers q) ->
  Forall (fun tm => P (tm_cb tm)) (q_timers (debounce_call timer q cb d).2).
Proof.
  intros Hcb Hq. unfold debounce_call.
  assert (Forall (fun tm => P (tm_cb tm))
            (q_timers (match timer with Some h => clearTimeout q h | None => q end))) as H1
    by (destruct timer; [|done]; unfold clearTimeout; cbn [q_timers];
        rewrite Forall_forall in Hq |- *; intros x Hx;
        apply list_elem_of_filter in Hx as [_ Hx]; auto).
  simpl. apply Forall_app. split; [done|]. by constructor.
Qed.

(** ** Each schedule step refines the streamer's *)

Section Steps.
Variables (k : string) (sid : nat).

(** A due timer fires: the streamer's [fire]. *)
Lemma fire_refines w st t tm q :
  solo k sid w -> stream_of sid w = Some st -> pop_due t (w_timers w) = Some (tm, q) ->
  stream_of sid (fire_timer w) = Some (fire st (erase q)) /\ solo k sid (fire_timer w).
Proof.
  intros (ss & Hs & Hk & Hl & Ha & [doc Hd] & Hf) Hst Hp.
  assert (tm_cb tm = sid) as Hcb
    by (eapply (List.Forall_forall (fun tm => tm_cb tm = sid)); [exact Hf|by eapply pop_due_in]).
  unfold panel_alive in Ha. destruct (w_panels w !! ss_panel ss) as [pn|] eqn:Hpn; [|done].
  unfold stream_of in Hst. rewrite Hs, lookup_singleton_eq, Hpn, Hk, Hd in Hst. injection Hst as <-.
  unfold fire_timer. rewrite (pop_next_of_due _ _ _ _ Hp). cbn [w_sessions w_docs upd_timers].
  rewrite Hs, Hcb, lookup_singleton_eq, Hk, Hd. unfold post_message. cbn [w_panels upd_timers].
  rewrite Hpn, Ha. split.
  - unfold stream_of. simpl. rewrite Hs, lookup_singleton_eq, lookup_insert_eq, Hk, Hd. simpl.
    by rewrite map_app.
  - exists ss. split_and!; try done.
    + unfold panel_alive. simpl. by rewrite lookup_insert_eq.
    + simpl. apply List.Forall_forall. intros x Hx.
      eapply (List.Forall_forall (fun tm => tm_cb tm = sid)); [exact Hf|by eapply pop_due_sub].
Qed.

Lemma fire_until_refines fuel t w st :
  solo k sid w -> stream_of sid w = Some st ->
  stream_of sid (fire_until fuel t w) = Some (run_until fuel t st) /\ solo k sid (fire_until fuel t w).
Proof.
  revert w st. induction fuel as [|f IH]; intros w st Hw Hst; simpl; [done|].
  assert (st_queue st = erase (w_timers w)) as Hq.
  { unfold stream_of in Hst. destruct (w_sessions w !! sid); [|done].
    do 2 (case_match; [|done]). by injection Hst as <-. }
  rewrite Hq. unfold erase. rewrite pop_due_map.
  destruct (pop_due t (w_timers w)) as [[tm q]|] eqn:Hp; simpl; [|done].
  destruct (fire_refines _ _ _ _ _ Hw Hst Hp) as [Hst' Hw']. by apply IH.
Qed.

Lemma stream_of_queue w st : stream_of sid w = Some st -> st_queue st = erase (w_timers w).
Proof.
  unfold stream_of. destruct (w_sessions w !! sid); [|done].
  do 2 (case_match; [|done]). by intros [= <-].
Qed.

Lemma stream_of_timers g w :
  stream_of sid (upd_timers g w) = (fun st => set_queue st (erase (g (w_timers w)))) <$> stream_of sid w.
Proof. unfold stream_of. simpl. by repeat case_match. Qed.

Lemma set_queue_same st : set_queue st (st_queue st) = st.
Proof. by destruct st. Qed.

(** Time passes to [t], no timer being due by then: the streamer's clock
    moves the same way. *)
Lemma tick_refines w st t :
  solo k sid w -> stream_of sid w = Some st -> pop_due t (w_timers w) = None ->
  stream_of sid (tick t w) =
    Some (set_queue st (mkQueue (Z.max (q_now (st_queue st)) t) (q_next (st_queue st)) (q_timers (st_queue st)))) /\
  solo k sid (tick t w).
Proof.
  intros Hw Hst Hp. pose proof (stream_of_queue _ _ Hst) as Hq. unfold tick.
  assert (forallb (fun tm => (t <=? tm_due tm)%Z) (q_timers (w_timers w)) = true) as Hall.
  { apply forallb_forall. intros x Hx. apply pop_due_none_after in Hp.
    apply Z.leb_le. rewrite List.Forall_forall in Hp. specialize (Hp x Hx). lia. }
  rewrite Hall, andb_true_r. destruct (Z.leb_spec (q_now (w_timers w)) t).
  - rewrite stream_of_timers, Hst, Hq. simpl. rewrite Z.max_r by done. split; [done|].
    destruct Hw as (ss & ? & ? & ? & ? & ? & Hf). by exists ss.
  - rewrite Z.max_l by (rewrite Hq; simpl; lia).
    replace (mkQueue (q_now (st_queue st)) (q_next (st_queue st)) (q_timers (st_queue st)))
      with (st_queue st) by (by destruct (st_queue st)).
    rewrite set_queue_same. by split.
Qed.

(** An edit of the session's document: the streamer takes the new state
    and makes its debounced call. *)
Lemma change_refines w st text v :
  solo k sid w -> stream_of sid w = Some st ->
  stream_of sid (change_document k text v w) =
    Some (sendUpdate (mkStream (st_queue st) (st_timer st) (st_delay st) (mkDocState text v) (st_sent st))) /\
  solo k sid (change_document k text v w).
Proof.
  intros (ss & Hs & Hk & Hl & Ha & [doc Hd] & Hf) Hst.
  unfold panel_alive in Ha. destruct (w_panels w !! ss_panel ss) as [pn|] eqn:Hpn; [|done].
  unfold stream_of in Hst. rewrite Hs, lookup_singleton_eq, Hpn, Hk, Hd in Hst. injection Hst as <-.
  unfold change_document. rewrite Hd. cbn [w_listeners upd_docs]. rewrite Hl.
  cbn [fold_left fst snd]. rewrite String.eqb_refl.
  unfold send_update. cbn [w_sessions w_timers upd_docs]. rewrite Hs, lookup_singleton_eq.
  pose proof (debounce_call_map (fun _ : nat => tt) (ss_timer ss) (w_timers w) sid (ss_delay ss)) as Hm.
  destruct (debounce_call (ss_timer ss) (w_timers w) sid (ss_delay ss)) as [timer q] eqn:Hdc.
  cbv beta in Hm. unfold sendUpdate. cbn [st_timer st_queue st_delay st_sent st_doc]. unfold erase.
  rewrite Hm. simpl. split.
  - unfold stream_of. cbn [w_sessions w_panels w_docs upd_sessions upd_timers upd_docs].
    rewrite lookup_insert_eq. cbn [ss_panel ss_key set_timer]. rewrite Hpn, Hk, lookup_insert_eq. done.
  - exists (set_timer ss timer). cbn [w_sessions w_panels w_docs w_listeners w_timers upd_sessions upd_timers upd_docs].
    split_and!; try done.
    + by rewrite Hs, insert_singleton_eq.
    + unfold panel_alive. cbn [w_panels upd_sessions upd_timers upd_docs ss_panel set_timer]. by rewrite Hpn.
    + by rewrite lookup_insert_eq.
    + pose proof (Forall_debounce_call (fun c => c = sid) (ss_timer ss) (w_timers w) sid (ss_delay ss)
                    eq_refl Hf) as Hf'.
      by rewrite Hdc in Hf'.
Qed.

End Steps.

(** ** The composition *)

Section Refines.
Variables (k : string) (sid : nat).

Lemma on_change_refines w st t d :
  solo k sid w -> stream_of sid w = Some st ->
  stream_of sid (world_on_change k t d w) = Some (on_change t d st) /\ solo k sid (world_on_change k t d w).
Proof.
  intros Hw Hst. unfold world_on_change, on_change, advance.
  replace (length (q_timers (w_timers w))) with (length (q_timers (st_queue st)))
    by (rewrite (stream_of_queue _ _ _ Hst); apply length_map).
  destruct (fire_until_refines k sid (length (q_timers (st_queue st))) t w st Hw Hst) as [H1 S1].
  set (w1 := fire_until _ t w) in *. set (st1 := run_until _ t st) in *.
  assert (pop_due t (w_timers w1) = None) as Hp.
  { pose proof (run_until_no_due (length (q_timers (st_queue st))) t st ltac:(done)) as Hn.
    fold st1 in Hn. rewrite (stream_of_queue _ _ _ H1) in Hn. unfold erase in Hn.
    rewrite pop_due_map in Hn. by destruct (pop_due t (w_timers w1)). }
  destruct (tick_refines k sid w1 st1 t S1 H1 Hp) as [H2 S2].
  destruct (change_refines k sid _ _ (doc_text d) (doc_version d) S2 H2) as [H3 S3].
  split; [|done]. rewrite H3. by destruct d.
Qed.

Lemma flush_refines w st :
  solo k sid w -> stream_of sid w = Some st ->
  stream_of sid (world_flush w) = Some (flush st).
Proof.
  intros Hw Hst. unfold world_flush, flush. rewrite (stream_of_queue _ _ _ Hst).
  unfold erase, qmap. cbn [q_timers q_now]. rewrite length_map.
  exact (proj1 (fire_until_refines k sid _ _ w st Hw Hst)).
Qed.

Lemma on_changes_refines w st evs :
  solo k sid w -> stream_of sid w = Some st ->
  stream_of sid (world_on_changes k evs w) = Some (on_changes evs st) /\ solo k sid (world_on_changes k evs w).
Proof.
  revert w st. induction evs as [|[t d] evs IH]; intros w st Hw Hst; simpl; [done|].
  destruct (on_change_refines w st t d Hw Hst) as [H1 S1]. by apply IH.
Qed.

(** C14: the extension's streamer, run by the event loop, refines the
    single-session streamer.  In a world whose only session is [sid],
    previewing document [k] in an open panel, let the event loop answer
    any sequence of timed change notifications (running the timers due
    by each one, letting time pass, applying the edit) and then run the
    remaining timers: the session's projection, its timer queue, its
    debounce closure, the document and the snapshots its panel received,
    is the state the streamer [Debounce.Stream] reaches on the same
    notifications followed by its flush. *)
Theorem session_refines_stream w st evs :
  solo k sid w -> stream_of sid w = Some st ->
  stream_of sid (world_flush (world_on_changes k evs w)) = Some (flush (on_changes evs st)).
Proof.
  intros Hw Hst. destruct (on_changes_refines w st evs Hw Hst) as [H1 S1]. by apply flush_refines.
Qed.

(** C15: the spec's burst property holds of the extension itself.  In a
    world whose only session previews a document in an open panel with no
    send pending, a burst of edits each within the debounce window of the
    one before, answered by the event loop and followed by running the
    timers, adds exactly one snapshot to what the panel received: the
    text and version of the last edit. *)
Theorem world_burst_sends_last w st t1 d1 rest :
  solo k sid w -> stream_of sid w = Some st -> q_timers (w_timers w) = [] ->
  (q_now (w_timers w) <= t1)%Z -> burst_within (timer_delay (st_delay st)) t1 rest ->
  exists st', stream_of sid (world_flush (world_on_changes k ((t1, d1) :: rest) w)) = Some st' /\
    st_sent st' = st_sent st ++ [List.last (map snd rest) d1].
Proof.
  intros Hw Hst Hq Ht Hb. pose proof (stream_of_queue _ _ _ Hst) as Hqs.
  destruct (on_changes_refines w st ((t1, d1) :: rest) Hw Hst) as [H1 S1].
  eexists. split; [by apply (flush_refines _ _ S1 H1)|].
  apply burst_flush_sent; [|by rewrite Hqs|done].
  unfold quiet. rewrite Hqs. unfold erase, qmap. simpl. by rewrite Hq.
Qed.

(** C16: the extension keeps at most one send pending per preview.  In a
    world whose only session previews a document in an open panel, with
    at most one timer pending and the closure holding its handle, after
    any timed edits answered by the event loop the timer queue is empty
    or holds a single timer, and that timer's handle is the one the
    session's debounce closure keeps, so the next edit cancels it. *)
Theorem world_at_most_one_timer w st evs :
  solo k sid w -> stream_of sid w = Some st -> at_most_one st ->
  let w' := world_on_changes k evs w in
  q_timers (w_timers w') = [] \/
  exists tm ss, q_timers (w_timers w') = [tm] /\ w_sessions w' !! sid = Some ss /\ ss_timer ss = Some (tm_id tm).
Proof.
  intros Hw Hst Ha w'. destruct (on_changes_refines w st evs Hw Hst) as [H1 _]. fold w' in H1.
  pose proof (on_changes_at_most_one evs st Ha) as Hm. unfold at_most_one, pending in Hm.
  pose proof (stream_of_queue _ _ _ H1) as Hq. unfold erase, qmap in Hq.
  destruct Hm as [Hquiet|(due & h & Hts & Htm)]; unfold quiet in *; rewrite Hq in *; simpl in *.
  - left. by apply map_eq_nil in Hquiet.
  - right. destruct (q_timers (w_timers w')) as [|tm [|]] eqn:Ets; simpl in Hts; try done.
    assert (tm_id tm = h) as Hid by (by injection Hts). exists tm.
    unfold stream_of in H1. destruct (w_sessions w' !! sid) as [ss|]; [|done].
    exists ss. split_and!; [done|done|]. do 2 (case_match; [|done]).
    injection H1 as Heq. rewrite <- Heq in Htm. simpl in Htm. by rewrite Htm, <- Hid.
Qed.

End Refines.

(** ** The schedule is one the event loop can run *)

Section Loop.
Context `{URLParser}.
Variables (host : Webview) (context : ExtensionContext) (rand : nat -> Z).

Lemma fire_until_run fuel t w : exists n, fire_until fuel t w = run host context rand (repeat Fire n) w.
Proof.
  revert w. induction fuel as [|f IH]; intros w; simpl; [by exists 0%nat|].
  destruct (pop_due t (w_timers w)); [|by exists 0%nat].
  destruct (IH (fire_timer w)) as [n Hn]. exists (S n). by rewrite Hn.
Qed.

(** The worlds of [session_refines_stream] are reached by events:
    [Fire], [Tick] and [Change]. *)
Lemma world_schedule_run k evs w :
  exists evs', world_flush (world_on_changes k evs w) = run host context rand evs' w.
Proof.
  revert w. induction evs as [|[t d] evs IH]; intros w; simpl.
  - unfold world_flush. destruct (fire_until_run (length (q_timers (w_timers w))) (q_now (w_timers w) + TIMEOUT_MAX) w) as [n Hn].
    by exists (repeat Fire n).
  - destruct (IH (world_on_change k t d w)) as [evs2 H2].
    destruct (fire_until_run (length (q_timers (w_timers w))) t w) as [n Hn].
    exists (repeat Fire n ++ [Tick t; Change k (doc_text d) (doc_version d)] ++ evs2).
    rewrite H2, !run_app. unfold world_on_change. by rewrite Hn.
Qed.

End Loop.

(** ** At a concrete preview *)

(** The world after the command opened a preview of the sample document
    on the demo server: session 3, panel 1, its initial send pending. *)
Definition opened_world : World := sample_run sample_config [Open; ShowDone 0; BindDone 0 (Bound 5000)].

Definition opened_burst : list (Z * DocState) := [(400%Z, mkDocState "a: 2" 2); (500%Z, mkDocState "a: 3" 3)].

Lemma session_refines_stream_witness :
  solo (td_uri sample_doc) 3 opened_world /\
  match stream_of 3 opened_world with
  | Some st =>
      stream_of 3 (world_flush (world_on_changes (td_uri sample_doc) opened_burst opened_world)) =
        Some (flush (on_changes opened_burst st)) /\
      map doc_version (st_sent (flush (on_changes opened_burst st))) = [1; 3]%Z
  | None => False
  end.
Proof.
  assert (solo (td_uri sample_doc) 3 opened_world) as Hs.
  { exists (mkSession (td_uri sample_doc) 1 4 (Some 2%nat) (Some 0%nat) 300).
    split_and!; try (vm_compute; reflexivity).
    - vm_compute. by eexists.
    - vm_compute. repeat constructor. }
  split; [exact Hs|].
  destruct (stream_of 3 opened_world) as [st|] eqn:Hst; [|vm_compute in Hst; discriminate].
  split; [by apply session_refines_stream|].
  vm_compute in Hst. injection Hst as <-. vm_compute. reflexivity.
Defined.

(** The preview of [opened_world] once its initial snapshot is sent. *)
Definition settled_world : World := world_flush opened_world.

Definition settled_burst : list (Z * DocState) := [(1100%Z, mkDocState "a: 3" 3); (1350%Z, mkDocState "a: 4" 4)].

Lemma world_burst_sends_last_witness :
  solo (td_uri sample_doc) 3 settled_world /\ q_timers (w_timers settled_world) = [] /\
  (q_now (w_timers settled_world) <= 1000)%Z /\
  match stream_of 3 settled_world with
  | Some st =>
      burst_within (timer_delay (st_delay st)) 1000 settled_burst /\
      exists st', stream_of 3 (world_flush (world_on_changes (td_uri sample_doc)
                                              ((1000%Z, mkDocState "a: 2" 2) :: settled_burst) settled_world)) = Some st' /\
        st_sent st' = st_sent st ++ [List.last (map snd settled_burst) (mkDocState "a: 2" 2)]
  | None => False
  end.
Proof.
  assert (solo (td_uri sample_doc) 3 settled_world) as Hs.
  { exists (mkSession (td_uri sample_doc) 1 4 (Some 2%nat) (Some 0%nat) 300).
    split_and!; try (vm_compute; reflexivity).
    - vm_compute. by eexists.
    - vm_compute. constructor. }
  assert (q_timers (w_timers settled_world) = []) as Hq by (vm_compute; reflexivity).
  assert (q_now (w_timers settled_world) <= 1000)%Z as Hn by (vm_compute; discriminate).
  split_and!; [exact Hs|exact Hq|exact Hn|].
  destruct (stream_of 3 settled_world) as [st|] eqn:Hst; [|vm_compute in Hst; discriminate].
  assert (burst_within (timer_delay (st_delay st)) 1000 settled_burst) as Hb
    by (vm_compute in Hst; injection Hst as <-; unfold timer_delay, TIMEOUT_MAX; simpl; repeat split; lia).
  split; [exact Hb|]. by apply world_burst_sends_last.
Defined.

Lemma world_at_most_one_timer_witness :
  solo (td_uri sample_doc) 3 opened_world /\
  match stream_of 3 opened_world with
  | Some st =>
      at_most_one st /\
      let w' := world_on_changes (td_uri sample_doc) opened_burst opened_world in
      q_timers (w_timers w') = [] \/
      exists tm ss, q_timers (w_timers w') = [tm] /\ w_sessions w' !! 3%nat = Some ss /\ ss_timer ss = Some (tm_id tm)
  | None => False
  end.
Proof.
  assert (solo (td_uri sample_doc) 3 opened_world) as Hs.
  { exists (mkSession (td_uri sample_doc) 1 4 (Some 2%nat) (Some 0%nat) 300).
    split_and!; try (vm_compute; reflexivity).
    - vm_compute. by eexists.
    - vm_compute. repeat constructor. }
  split; [exact Hs|].
  destruct (stream_of 3 opened_world) as [st|] eqn:Hst; [|vm_compute in Hst; discriminate].
  assert (at_most_one st) as Ha.
  { vm_compute in Hst. injection Hst as <-. right. exists 300%Z, 0%nat. split; reflexivity. }
  split; [exact Ha|]. exact (world_at_most_one_timer (td_uri sample_doc) 3 opened_world st opened_burst Hs Hst Ha).
Defined.
